(** * Mock-interview backend: assessment engine, interview workflow and
    context provider, embedded in Rocq.

    The development follows three services of the backend:
    - [app/services/assessment_service.py]  (modules [Assessment] and
      [Persisted]),
    - [app/services/langgraph_interview_service.py]  (modules [Workflow]
      and [Interviews]),
    - [app/services/rag_service.py]  (modules [Rag] and [Summary]),
    together with the score method of [app/models/ai_interview_session.py]
    (module [SessionScores]) and [app/middleware/rate_limiter.py] (module
    [RateLimiter]).

    Conventions of the embedding.
    - Python [str] is [string]; characters are read as ASCII code points, on
      which [str.lower], [str.split] and the regex classes [\w], [\b] agree
      with the definitions of [PyStr].
    - Python numbers ([int], [float]) are exact rationals [Qc]; the float
      literals 0.30, 0.50, 0.20 are the rationals 3/10, 1/2, 1/5 and
      [round(x, 2)] rounds to the nearest hundredth, ties to even.
    - Dynamically typed values (JSON payloads, dictionary entries) are [pyval].
    - Exceptions are the [Raise] results of the [result] type; [try/except
      Exception] is [try_except].
    - The language model, the JSON decoder, the clock and the vector store are
      external collaborators: they are parameters of the definitions. *)

From Stdlib Require Import ZArith QArith Qcanon Qround Ascii String Lia Lqa.
From stdpp Require Import gmap strings list fin_maps pretty.

(** ** Python strings *)

Module PyStr.

Definition code (c : ascii) : N := N_of_ascii c.

Definition in_range (lo hi : N) (c : ascii) : bool :=
  ((lo <=? code c) && (code c <=? hi))%N.

Definition is_upper (c : ascii) : bool := in_range 65 90 c.
Definition is_lower (c : ascii) : bool := in_range 97 122 c.

Definition lower_char (c : ascii) : ascii :=
  if is_upper c then ascii_of_N (code c + 32) else c.

Definition upper_char (c : ascii) : ascii :=
  if is_lower c then ascii_of_N (code c - 32) else c.

Fixpoint map_chars (f : ascii → ascii) (s : string) : string :=
  match s with
  | EmptyString => EmptyString
  | String c s' => String (f c) (map_chars f s')
  end.

(** [str.lower()] and [str.upper()]. *)
Definition lower : string → string := map_chars lower_char.
Definition upper : string → string := map_chars upper_char.

(** [str.isspace] on one character: TAB, LF, VT, FF, CR, FS, GS, RS, US
    and the blank. *)
Definition isspace (c : ascii) : bool := in_range 9 13 c || in_range 28 32 c.

(** The regex class [\w]. *)
Definition is_word (c : ascii) : bool :=
  in_range 48 57 c || is_upper c || is_lower c || (code c =? 95)%N.

Definition head (s : string) : option ascii :=
  match s with
  | EmptyString => None
  | String c _ => Some c
  end.

(** [strip_prefix sub s] is the rest of [s] after the prefix [sub], when
    [s.startswith(sub)]. *)
Fixpoint strip_prefix (sub s : string) : option string :=
  match sub, s with
  | EmptyString, _ => Some s
  | String a sub', String b s' =>
      if Ascii.eqb a b then strip_prefix sub' s' else None
  | String _ _, EmptyString => None
  end.

Definition startswith (s sub : string) : bool :=
  match strip_prefix sub s with Some _ => true | None => false end.

(** [s.find(sub)]: lowest index of an occurrence, -1 when there is none. *)
Fixpoint find (s sub : string) : Z :=
  if startswith s sub then 0%Z
  else match s with
       | EmptyString => (-1)%Z
       | String _ s' =>
           let r := find s' sub in
           if (r <? 0)%Z then (-1)%Z else (r + 1)%Z
       end.

(** [s.rfind(sub)]: highest index of an occurrence, -1 when there is none. *)
Fixpoint rfind (s sub : string) : Z :=
  match s with
  | EmptyString => if startswith s sub then 0%Z else (-1)%Z
  | String _ s' =>
      let r := rfind s' sub in
      if (0 <=? r)%Z then (r + 1)%Z
      else if startswith s sub then 0%Z else (-1)%Z
  end.

(** One bound of a slice, as Python normalises it against the length. *)
Definition clamp (len i : Z) : Z :=
  if (i <? 0)%Z then Z.max (i + len) 0 else Z.min i len.

(** [s[start:stop]]. *)
Definition slice (s : string) (start stop : Z) : string :=
  let len := Z.of_nat (String.length s) in
  let lo := clamp len start in
  let hi := clamp len stop in
  substring (Z.to_nat lo) (Z.to_nat (hi - lo)) s.

(** [split_aux s] is the word that [s] starts with (empty when [s] starts
    with white space) and the words after it. *)
Fixpoint split_aux (s : string) : string * list string :=
  match s with
  | EmptyString => (EmptyString, [])
  | String c s' =>
      let '(w, ws) := split_aux s' in
      if isspace c
      then (EmptyString, match w with EmptyString => ws | _ => w :: ws end)
      else (String c w, ws)
  end.

(** [s.split()]: the maximal runs of non-space characters. *)
Definition split (s : string) : list string :=
  let '(w, ws) := split_aux s in
  match w with EmptyString => ws | _ => w :: ws end.

(** [sep.join(parts)]. *)
Fixpoint join (sep : string) (parts : list string) : string :=
  match parts with
  | [] => EmptyString
  | [p] => p
  | p :: rest => p +:+ sep +:+ join sep rest
  end.

Definition newline : string := String "010"%char EmptyString.

End PyStr.

(** ** Python values and exceptions *)

#[warnings="-register-all"]
Inductive pyval : Type :=
  | VNone
  | VBool (b : bool)
  | VNum (q : Qc)
  | VStr (s : string)
  | VList (l : list pyval)
  | VDict (d : gmap string pyval).

Inductive exn : Type :=
  | TypeError
  | AttributeError
  | ValueError
  | ModelError      (* any exception raised by the language-model client *)
  | ProviderError.  (* any exception raised by the vector store *)

Inductive result (A : Type) : Type :=
  | Ok (a : A)
  | Raise (e : exn).
Arguments Ok {A} a.
Arguments Raise {A} e.

#[global] Instance result_ret : MRet result := λ A a, Ok a.
#[global] Instance result_bind : MBind result := λ A B k r,
  match r with
  | Ok a => k a
  | Raise e => Raise e
  end.

Module Py.

Definition num (z : Z) : Qc := Q2Qc (inject_Z z).
Definition ratio (a : Z) (b : positive) : Qc := Q2Qc (a # b).

(** The numeric reading of a value: [bool] is a subclass of [int]. *)
Definition as_number (v : pyval) : option Qc :=
  match v with
  | VNum q => Some q
  | VBool b => Some (if b then num 1 else num 0)
  | _ => None
  end.

Definition is_not_None (v : pyval) : bool :=
  match v with VNone => false | _ => true end.

(** [a + b]. *)
Definition add (a b : pyval) : result pyval :=
  match as_number a, as_number b with
  | Some x, Some y => Ok (VNum (x + y))
  | _, _ =>
      match a, b with
      | VStr s, VStr t => Ok (VStr (s +:+ t))
      | VList l, VList m => Ok (VList (l ++ m))
      | _, _ => Raise TypeError
      end
  end.

(** [a / n] and [a * w] for a non-zero numeric literal [n], [w]. *)
Definition div_lit (a : pyval) (n : Qc) : result pyval :=
  match as_number a with
  | Some x => Ok (VNum (x / n))
  | None => Raise TypeError
  end.

Definition mul_float (a : pyval) (w : Qc) : result pyval :=
  match as_number a with
  | Some x => Ok (VNum (x * w))
  | None => Raise TypeError
  end.

(** [sum(values)]: the fold of [+] from the integer 0. *)
Fixpoint sum_from (acc : pyval) (values : list pyval) : result pyval :=
  match values with
  | [] => Ok acc
  | v :: rest => acc' ← add acc v; sum_from acc' rest
  end.
Definition sum (values : list pyval) : result pyval :=
  sum_from (VNum (num 0)) values.

(** Nearest integer, ties to the even one. *)
Definition round_half_even (q : Q) : Z :=
  let f := Qfloor q in
  match Qcompare (q - inject_Z f) (1 # 2) with
  | Lt => f
  | Gt => (f + 1)%Z
  | Eq => if Z.even f then f else (f + 1)%Z
  end.

(** [round(x, 2)] on a number. *)
Definition round2_num (x : Qc) : Qc :=
  Q2Qc (round_half_even (this x * inject_Z 100) # 100).

Definition round2 (v : pyval) : result pyval :=
  match as_number v with
  | Some x => Ok (VNum (round2_num x))
  | None => Raise TypeError
  end.

(** [d.get(key, default)] on a dictionary. *)
Definition get (d : gmap string pyval) (key : string) (default : pyval) : pyval :=
  match d !! key with
  | Some v => v
  | None => default
  end.

(** [v.get(key, default)] on an arbitrary value: only a [dict] has it. *)
Definition get_attr (v : pyval) (key : string) (default : pyval) : result pyval :=
  match v with
  | VDict d => Ok (get d key default)
  | _ => Raise AttributeError
  end.

End Py.

(** ** Interaction and session records ([app/models]) *)

Module Models.

(** [MessageRole], [app/models/ai_interview_interaction.py]. *)
Inductive MessageRole : Type := SYSTEM | ASSISTANT | USER | TOOL.

#[global] Instance MessageRole_eq_dec : EqDecision MessageRole.
Proof. solve_decision. Defined.

(** The columns of [AIInterviewInteraction] that the services read. *)
Record AIInterviewInteraction : Type := {
  interaction_session_id : Z;
  role : MessageRole;
  content : string;
  audio_duration_seconds : option Qc
}.

(** The columns of [AIInterviewSession] that the assessment reads. *)
Record AIInterviewSession : Type := {
  interview_type : string
}.

(** The two tables: sessions by primary key, interactions in [created_at]
    order. *)
Record database : Type := {
  db_sessions : gmap Z AIInterviewSession;
  db_interactions : list AIInterviewInteraction
}.

End Models.

(** ** The assessment service ([app/services/assessment_service.py]) *)

Module Assessment.
Import Models.

(** *** [_build_transcript] *)

Definition role_label (r : MessageRole) : string :=
  if decide (r = ASSISTANT) then "Interviewer" else "Candidate".

Definition transcript_line (i : AIInterviewInteraction) : string :=
  role_label (role i) +:+ ": " +:+ content i.

Definition build_transcript (interactions : list AIInterviewInteraction) : string :=
  PyStr.join (PyStr.newline +:+ PyStr.newline) (map transcript_line interactions).

(** *** The filler-word pattern

    [r'\b(um|uh|like|you know|basically|actually|literally)\b'], matched
    the way [re.findall] does: leftmost first, alternatives in order, the
    search resuming where the previous match ended. *)

Definition filler_alternatives : list string :=
  ["um"; "uh"; "like"; "you know"; "basically"; "actually"; "literally"].

Definition is_word_at (c : option ascii) : bool :=
  match c with
  | Some a => PyStr.is_word a
  | None => false
  end.

(** [\b] between the character before the position and the one after. *)
Definition word_boundary (prev next : option ascii) : bool :=
  xorb (is_word_at prev) (is_word_at next).

Fixpoint last_char (prev : option ascii) (w : string) : option ascii :=
  match w with
  | EmptyString => prev
  | String c w' => last_char (Some c) w'
  end.

(** One alternative between the two [\b]: the length matched, if any. *)
Definition match_alternative (prev : option ascii) (s w : string) : option nat :=
  if word_boundary prev (PyStr.head s) then
    match PyStr.strip_prefix w s with
    | Some rest =>
        if word_boundary (last_char prev w) (PyStr.head rest)
        then Some (String.length w) else None
    | None => None
    end
  else None.

Fixpoint match_first (prev : option ascii) (s : string) (alts : list string)
  : option nat :=
  match alts with
  | [] => None
  | w :: alts' =>
      match match_alternative prev s w with
      | Some n => Some n
      | None => match_first prev s alts'
      end
  end.

(** The whole pattern at one position of the text. *)
Definition match_filler (prev : option ascii) (s : string) : option nat :=
  match_first prev s filler_alternatives.

(** The number of matches [re.findall] returns from this position on;
    [skip] characters still belong to the previous match. *)
Fixpoint findall_from (prev : option ascii) (s : string) (skip : nat) : nat :=
  match s with
  | EmptyString => 0
  | String c s' =>
      match skip with
      | S k => findall_from (Some c) s' k
      | O =>
          match match_filler prev s with
          | Some n => S (findall_from (Some c) s' (n - 1))
          | None => findall_from (Some c) s' 0
          end
      end
  end.

(** [len(re.findall(filler_patterns, content.lower()))]. *)
Definition count_fillers (content : string) : nat :=
  findall_from None (PyStr.lower content) 0.

(** *** Speech metrics of [_assess_communication] *)

Definition candidate_interactions (interactions : list AIInterviewInteraction)
  : list AIInterviewInteraction :=
  filter (λ i, role i = USER) interactions.

Record metrics : Type := {
  total_words : Z;
  total_duration : Qc;
  filler_words : Z
}.

(** One iteration of the [for interaction in candidate_interactions] loop. *)
Definition metrics_step (m : metrics) (i : AIInterviewInteraction) : metrics :=
  {| total_words := total_words m + Z.of_nat (length (PyStr.split (content i)));
     total_duration :=
       match audio_duration_seconds i with
       | Some d => if decide (d = Py.num 0) then total_duration m
                   else (total_duration m + d)%Qc
       | None => total_duration m
       end;
     filler_words := filler_words m + Z.of_nat (count_fillers (content i)) |}.

Definition speech_metrics (interactions : list AIInterviewInteraction) : metrics :=
  foldl metrics_step
    {| total_words := 0; total_duration := Py.num 0; filler_words := 0 |}
    (candidate_interactions interactions).

(** [(total_words / total_duration * 60) if total_duration > 0 else 150]. *)
Definition words_per_minute (m : metrics) : Qc :=
  match (Py.num 0 ?= total_duration m)%Qc with
  | Lt => (Py.num (total_words m) / total_duration m * Py.num 60)%Qc
  | _ => Py.num 150
  end.

(** *** Calls to the language model

    A request is identified by the data its prompt is built from.  The
    computation threads the list of requests sent so far. *)

Inductive prompt : Type :=
  | CommunicationPrompt (transcript : string) (wpm : Qc) (fillers : Z)
  | ContentPrompt (interview_type transcript : string)
  | BehavioralPrompt (transcript : string)
  | FeedbackPrompt (interview_type : string) (scores_summary : list pyval)
                   (transcript : string).

Definition M (A : Type) : Type := list prompt → result A * list prompt.

#[global] Instance M_ret : MRet M := λ A a sent, (Ok a, sent).
#[global] Instance M_bind : MBind M := λ A B k m sent,
  match m sent with
  | (Ok a, sent') => k a sent'
  | (Raise e, sent') => (Raise e, sent')
  end.

Definition lift {A} (r : result A) : M A := λ sent, (r, sent).

(** [try: body except Exception as e: handler]. *)
Definition try_except {A} (body : M A) (handler : exn → M A) : M A :=
  λ sent,
    match body sent with
    | (Ok a, sent') => (Ok a, sent')
    | (Raise e, sent') => handler e sent'
    end.

Definition dict (entries : list (string * pyval)) : gmap string pyval :=
  list_to_map entries.

Definition score (z : Z) : pyval := VNum (Py.num z).

Section Engine.

(** [self.llm.ainvoke(...)], read at [.content]: [None] when it raises. *)
Variable ainvoke : prompt → option string.
(** [json.loads]: [None] when it raises. *)
Variable json_loads : string → option pyval.
(** [datetime.utcnow().isoformat()]. *)
Variable utcnow : string.

Definition call_llm (p : prompt) : M string :=
  λ sent,
    (match ainvoke p with
     | Some response => Ok response
     | None => Raise ModelError
     end, sent ++ [p]).

(** *** [_parse_json_response] *)

(** The text handed to [json.loads]. *)
Definition json_candidate (response : string) : string :=
  let start := PyStr.find response "{" in
  let end_ := (PyStr.rfind response "}" + 1)%Z in
  if ((0 <=? start) && (start <? end_))%Z
  then PyStr.slice response start end_
  else response.

Definition parse_json_response (response : string) : pyval :=
  match json_loads (json_candidate response) with
  | Some payload => payload
  | None => VDict ∅
  end.

(** *** [_assess_communication] *)

Definition communication_request (transcript : string)
    (interactions : list AIInterviewInteraction) : prompt :=
  let m := speech_metrics interactions in
  CommunicationPrompt transcript (words_per_minute m) (filler_words m).

Definition assess_communication (transcript : string)
    (interactions : list AIInterviewInteraction) : M (gmap string pyval) :=
  let m := speech_metrics interactions in
  let wpm := words_per_minute m in
  try_except
    (response ← call_llm (CommunicationPrompt transcript wpm (filler_words m));
     let scores := parse_json_response response in
     lift (clarity ← Py.get_attr scores "clarity" (score 70);
           confidence ← Py.get_attr scores "confidence" (score 70);
           both ← Py.add clarity confidence;
           verbal ← Py.div_lit both (Py.num 2);
           clarity_score ← Py.get_attr scores "clarity" (score 70);
           confidence_score ← Py.get_attr scores "confidence" (score 70);
           pace_score ← Py.get_attr scores "pace" (score 70);
           Ok (dict [("verbal_communication_score", verbal);
                     ("clarity_score", clarity_score);
                     ("confidence_score", confidence_score);
                     ("pace_score", pace_score);
                     ("words_per_minute", VNum wpm);
                     ("filler_word_count", VNum (Py.num (filler_words m)))])))
    (λ _, mret (dict [("verbal_communication_score", score 70);
                      ("clarity_score", score 70);
                      ("confidence_score", score 70);
                      ("pace_score", score 70);
                      ("words_per_minute", VNum wpm);
                      ("filler_word_count", VNum (Py.num (filler_words m)))])).

(** *** [_assess_content] *)

Definition assess_content (transcript interview_type : string)
  : M (gmap string pyval) :=
  try_except
    (response ← call_llm (ContentPrompt interview_type transcript);
     let scores := parse_json_response response in
     lift (technical_accuracy ← Py.get_attr scores "technical_accuracy" (score 70);
           problem_solving ← Py.get_attr scores "problem_solving" (score 70);
           structure ← Py.get_attr scores "structure" (score 70);
           relevance ← Py.get_attr scores "relevance" (score 70);
           Ok (dict [("technical_accuracy_score", technical_accuracy);
                     ("problem_solving_score", problem_solving);
                     ("structure_score", structure);
                     ("relevance_score", relevance)])))
    (λ _, mret (dict [("technical_accuracy_score", score 70);
                      ("problem_solving_score", score 70);
                      ("structure_score", score 70);
                      ("relevance_score", score 70)])).

(** *** [_assess_behavioral] *)

Definition assess_behavioral (transcript interview_type : string)
  : M (gmap string pyval) :=
  if decide (PyStr.lower interview_type ≠ "behavioral") then
    mret (dict [("star_method_score", VNone);
                ("leadership_score", VNone);
                ("teamwork_score", VNone)])
  else
    try_except
      (response ← call_llm (BehavioralPrompt transcript);
       let scores := parse_json_response response in
       lift (star_method ← Py.get_attr scores "star_method" (score 70);
             leadership ← Py.get_attr scores "leadership" (score 70);
             teamwork ← Py.get_attr scores "teamwork" (score 70);
             Ok (dict [("star_method_score", star_method);
                       ("leadership_score", leadership);
                       ("teamwork_score", teamwork)])))
      (λ _, mret (dict [("star_method_score", score 70);
                        ("leadership_score", score 70);
                        ("teamwork_score", score 70)])).

(** *** [_generate_overall_feedback] *)

Definition strings (l : list string) : pyval := VList (VStr <$> l).

Definition generate_overall_feedback (transcript interview_type : string)
    (communication_scores content_scores behavioral_scores : gmap string pyval)
  : M (gmap string pyval) :=
  let scores_summary :=
    [Py.get communication_scores "clarity_score" (score 0);
     Py.get communication_scores "confidence_score" (score 0);
     Py.get communication_scores "pace_score" (score 0);
     Py.get content_scores "technical_accuracy_score" (score 0);
     Py.get content_scores "problem_solving_score" (score 0);
     Py.get content_scores "structure_score" (score 0);
     Py.get content_scores "relevance_score" (score 0)] in
  try_except
    (response ← call_llm (FeedbackPrompt interview_type scores_summary transcript);
     let feedback := parse_json_response response in
     lift (strengths ← Py.get_attr feedback "strengths" (VList []);
           improvements ← Py.get_attr feedback "improvements" (VList []);
           detailed ← Py.get_attr feedback "detailed_feedback" (VStr EmptyString);
           next_steps ← Py.get_attr feedback "next_steps" (VList []);
           topics ← Py.get_attr feedback "recommended_topics" (VList []);
           Ok (dict [("strengths", strengths);
                     ("weaknesses", improvements);
                     ("detailed_feedback", detailed);
                     ("next_steps", next_steps);
                     ("recommended_topics", topics)])))
    (λ _, mret (dict
       [("strengths", strings ["Completed the interview"; "Engaged with questions"]);
        ("weaknesses", strings ["Could provide more specific examples"]);
        ("detailed_feedback",
          VStr "Overall decent performance with room for improvement.");
        ("next_steps", strings ["Practice more interview questions"]);
        ("recommended_topics", strings ["Interview techniques"])])).

(** *** [_calculate_overall_score] *)

Definition weight_communication : Qc := Py.ratio 30 100.
Definition weight_content : Qc := Py.ratio 50 100.
Definition weight_behavioral : Qc := Py.ratio 20 100.

Definition calculate_overall_score
    (communication_scores content_scores behavioral_scores : gmap string pyval)
  : result pyval :=
  let scores := [] in
  (* Communication (30% weight) *)
  s ← Py.add (Py.get communication_scores "clarity_score" (score 0))
             (Py.get communication_scores "confidence_score" (score 0));
  s ← Py.add s (Py.get communication_scores "pace_score" (score 0));
  comm_avg ← Py.div_lit s (Py.num 3);
  term ← Py.mul_float comm_avg weight_communication;
  let scores := scores ++ [term] in
  (* Content (50% weight) *)
  s ← Py.add (Py.get content_scores "technical_accuracy_score" (score 0))
             (Py.get content_scores "problem_solving_score" (score 0));
  s ← Py.add s (Py.get content_scores "structure_score" (score 0));
  s ← Py.add s (Py.get content_scores "relevance_score" (score 0));
  content_avg ← Py.div_lit s (Py.num 4);
  term ← Py.mul_float content_avg weight_content;
  let scores := scores ++ [term] in
  (* Behavioral (20% weight, if applicable) *)
  scores ←
    (if Py.is_not_None (Py.get behavioral_scores "star_method_score" VNone) then
       s ← Py.add (Py.get behavioral_scores "star_method_score" (score 0))
                  (Py.get behavioral_scores "leadership_score" (score 0));
       s ← Py.add s (Py.get behavioral_scores "teamwork_score" (score 0));
       behavioral_avg ← Py.div_lit s (Py.num 3);
       term ← Py.mul_float behavioral_avg weight_behavioral;
       Ok (scores ++ [term])
     else Ok scores);
  total ← Py.sum scores;
  Py.round2 total.

(** *** [assess_interview_session]

    The bundle that is returned; writing it back onto the session row
    ([_update_session_scores]) is the storage layer's business. *)

Record assessment : Type := {
  overall_score : pyval;
  communication_scores : gmap string pyval;
  content_scores : gmap string pyval;
  behavioral_scores : gmap string pyval;
  feedback : gmap string pyval;
  assessed_at : string
}.

Definition assess_interview_session (db : database) (session_id : Z)
  : M assessment :=
  match db_sessions db !! session_id with
  | None => lift (Raise ValueError)
  | Some session =>
      let interactions :=
        filter (λ i, interaction_session_id i = session_id) (db_interactions db) in
      let transcript := build_transcript interactions in
      communication ← assess_communication transcript interactions;
      content ← assess_content transcript (interview_type session);
      behavioral ← assess_behavioral transcript (interview_type session);
      overall_feedback ← generate_overall_feedback transcript
                           (interview_type session) communication content behavioral;
      overall ← lift (calculate_overall_score communication content behavioral);
      mret {| overall_score := overall;
              communication_scores := communication;
              content_scores := content;
              behavioral_scores := behavioral;
              feedback := overall_feedback;
              assessed_at := utcnow |}
  end.

End Engine.

End Assessment.

(** ** The interview workflow ([app/services/langgraph_interview_service.py]) *)

Module Workflow.

Inductive message : Type :=
  | SystemMessage (content : string)
  | HumanMessage (content : string)
  | AIMessage (content : string).

Definition message_content (m : message) : string :=
  match m with
  | SystemMessage c | HumanMessage c | AIMessage c => c
  end.

Definition is_human (m : message) : bool :=
  match m with HumanMessage _ => true | _ => false end.

(** One entry of [analysis_results]. *)
Record analysis : Type := {
  response_length : Z;
  word_count : Z;
  timestamp : string
}.

(** [InterviewState]. *)
Record InterviewState : Type := {
  messages : list message;
  user_id : Z;
  session_id : Z;
  interview_type : string;
  user_context : string;
  current_question_count : Z;
  max_questions : Z;
  session_status : string;
  analysis_results : gmap string analysis
}.

(** The nodes of the graph built by [_build_workflow], and its [END]. *)
Inductive node : Type :=
  | prepare_context
  | conduct_interview
  | analyze_response
  | generate_feedback
  | check_completion
  | END.

Definition nl : string := PyStr.newline.

Definition apology : message :=
  AIMessage "I apologize, but I encountered an error. Let's continue.".

Section Service.

(** [self.llm.ainvoke(messages)]: [None] when the call raises. *)
Variable ainvoke : list message → option message.
(** [datetime.utcnow().isoformat()]. *)
Variable utcnow : string.

(** *** [_prepare_context_node] *)
Definition prepare_context_node (state : InterviewState) : InterviewState :=
  {| messages := messages state;
     user_id := user_id state;
     session_id := session_id state;
     interview_type := interview_type state;
     user_context := "User ID: " +:+ pretty (user_id state)
                     +:+ ", Interview Type: " +:+ interview_type state;
     current_question_count := 0;
     max_questions := 5;
     session_status := "active";
     analysis_results := ∅ |}.

(** *** [_conduct_interview_node] *)
Definition system_message (state : InterviewState) : message :=
  SystemMessage
    ("You are an expert interview coach conducting a " +:+ interview_type state
     +:+ " interview." +:+ nl +:+ nl
     +:+ "User Context:" +:+ nl
     +:+ user_context state +:+ nl +:+ nl
     +:+ "Your task is to ask relevant interview questions, provide constructive feedback, and help the candidate improve."
     +:+ nl
     +:+ "You've asked " +:+ pretty (current_question_count state)
     +:+ " of " +:+ pretty (max_questions state) +:+ " questions so far.").

Definition append_message (state : InterviewState) (m : message) : InterviewState :=
  {| messages := messages state ++ [m];
     user_id := user_id state;
     session_id := session_id state;
     interview_type := interview_type state;
     user_context := user_context state;
     current_question_count := current_question_count state;
     max_questions := max_questions state;
     session_status := session_status state;
     analysis_results := analysis_results state |}.

Definition conduct_interview_node (state : InterviewState) : InterviewState :=
  let messages_for_llm := system_message state :: messages state in
  match ainvoke messages_for_llm with
  | Some response => append_message state response
  | None => append_message state apology
  end.

(** *** [_analyze_response_node] *)
Definition analyze_response_node (state : InterviewState) : InterviewState :=
  let user_messages := filter (λ m, is_human m = true) (messages state) in
  match last user_messages with
  | None => state
  | Some m =>
      let last_response := message_content m in
      let result :=
        {| response_length := Z.of_nat (String.length last_response);
           word_count := Z.of_nat (length (PyStr.split last_response));
           timestamp := utcnow |} in
      let question_num := current_question_count state in
      {| messages := messages state;
         user_id := user_id state;
         session_id := session_id state;
         interview_type := interview_type state;
         user_context := user_context state;
         current_question_count := current_question_count state;
         max_questions := max_questions state;
         session_status := session_status state;
         analysis_results :=
           <[("question_" +:+ pretty question_num) := result]>
             (analysis_results state) |}
  end.

(** *** [_check_completion_node] *)
Definition check_completion_node (state : InterviewState) : InterviewState :=
  let count := (current_question_count state + 1)%Z in
  {| messages := messages state;
     user_id := user_id state;
     session_id := session_id state;
     interview_type := interview_type state;
     user_context := user_context state;
     current_question_count := count;
     max_questions := max_questions state;
     session_status :=
       if (max_questions state <=? count)%Z then "completed"
       else session_status state;
     analysis_results := analysis_results state |}.

(** *** [_should_continue] *)
Definition should_continue (state : InterviewState) : string :=
  if decide (session_status state = "completed") then "end" else "continue".

(** *** [_generate_feedback_node] *)
Definition feedback_prompt (state : InterviewState) : string :=
  "Based on the interview conversation above, provide comprehensive feedback."
  +:+ nl +:+ nl
  +:+ "Interview Type: " +:+ interview_type state +:+ nl
  +:+ "Questions Asked: " +:+ pretty (current_question_count state) +:+ nl +:+ nl
  +:+ "Provide:" +:+ nl
  +:+ "1. Overall assessment" +:+ nl
  +:+ "2. Key strengths demonstrated" +:+ nl
  +:+ "3. Areas for improvement" +:+ nl
  +:+ "4. Specific recommendations" +:+ nl +:+ nl
  +:+ "Format as JSON with keys: overall_assessment, strengths (array), improvements (array), recommendations (array)".

Definition generate_feedback_node (state : InterviewState) : InterviewState :=
  match ainvoke (messages state ++ [HumanMessage (feedback_prompt state)]) with
  | Some response => append_message state response
  | None => state
  end.

(** *** [_build_workflow]: the edges *)

(** The path map of the conditional edge after [check_completion]. *)
Definition path_map (label : string) : option node :=
  if decide (label = "continue") then Some conduct_interview
  else if decide (label = "end") then Some generate_feedback
  else None.

(** One step of the compiled graph: run the node, follow its edge. *)
Definition step (n : node) (state : InterviewState) : node * InterviewState :=
  match n with
  | prepare_context => (conduct_interview, prepare_context_node state)
  | conduct_interview => (analyze_response, conduct_interview_node state)
  | analyze_response => (check_completion, analyze_response_node state)
  | check_completion =>
      let state' := check_completion_node state in
      (default END (path_map (should_continue state')), state')
  | generate_feedback => (END, generate_feedback_node state)
  | END => (END, state)
  end.

Fixpoint run (steps : nat) (n : node) (state : InterviewState)
  : node * InterviewState :=
  match steps with
  | O => (n, state)
  | S k => let '(n', state') := step n state in run k n' state'
  end.

(** [workflow.ainvoke] from a node: the final state once [END] is
    reached, within the given number of steps. *)
Fixpoint invoke_from (fuel : nat) (n : node) (state : InterviewState)
  : option InterviewState :=
  match n, fuel with
  | END, _ => Some state
  | _, O => None
  | _, S k => let '(n', state') := step n state in invoke_from k n' state'
  end.

(** One conduct/analyze/check cycle, and [k] of them. *)
Definition cycle (state : InterviewState) : InterviewState :=
  check_completion_node (analyze_response_node (conduct_interview_node state)).

Fixpoint cycles (k : nat) (state : InterviewState) : InterviewState :=
  match k with
  | O => state
  | S k' => cycles k' (cycle state)
  end.

End Service.

(** The state [start_interview] hands to the workflow. *)
Definition initial_state (user_id session_id : Z) (interview_type : string)
    (initial_message : option string) : InterviewState :=
  {| messages := match initial_message with
                 | Some text =>
                     if decide (text = EmptyString) then [] else [HumanMessage text]
                 | None => []
                 end;
     user_id := user_id;
     session_id := session_id;
     interview_type := interview_type;
     user_context := EmptyString;
     current_question_count := 0;
     max_questions := 5;
     session_status := "initializing";
     analysis_results := ∅ |}.

End Workflow.

(** ** The context provider ([app/services/rag_service.py]) *)

Module Rag.

(** [langchain]'s [Document]. *)
Record Document : Type := {
  page_content : string;
  metadata : gmap string pyval
}.

(** One entry of the list [retrieve_user_context] returns. *)
Record context_doc : Type := {
  content : string;
  doc_metadata : gmap string pyval;
  doc_type : pyval
}.

(** The vector store as the service uses it: [similarity_search(query, k,
    filter={"user_id": u})], [delete(where={"user_id": u})] and
    [add_documents(docs)], each of which may raise. *)
Class VectorStore (S : Type) : Type := {
  similarity_search : S → string → Z → Z → result (list Document);
  delete_where_user : S → Z → result S;
  add_documents : S → list Document → result S
}.

(** The columns of [User] that indexing reads; [created_on] is
    [created_at.strftime('%Y-%m-%d')]. *)
Record User : Type := {
  name : option string;
  email : string;
  created_on : string
}.

(** The columns of [UserProfile] read by [to_context_string] and by
    indexing ([app/models/user_profile.py]). *)
Record UserProfile : Type := {
  current_role : option string;
  current_company : option string;
  years_of_experience : option Z;
  target_role : option string;
  technical_skills : option (gmap string (list string));
  focus_areas : option (gmap string (list string));
  bio : option string;
  resume_text : option string
}.

(** The columns of [InterviewSession] that indexing reads; [session_date]
    and [session_timestamp] are [created_at] rendered by [strftime] and
    [isoformat]. *)
Record InterviewSession : Type := {
  session_pk : Z;
  session_user_id : Z;
  title : string;
  session_date : string;
  session_timestamp : string;
  question : option string;
  overall_score : option Qc;
  detailed_feedback : option string;
  strengths : option (gmap string (list string));
  improvements : option (gmap string (list string))
}.

(** The three tables; [sessions] is kept newest first. *)
Record database : Type := {
  users : gmap Z User;
  profiles : gmap Z UserProfile;
  sessions : list InterviewSession
}.

(** Truth value of an optional string, number or dictionary. *)
Definition truthy_str (o : option string) : option string :=
  match o with
  | Some s => if decide (s = EmptyString) then None else Some s
  | None => None
  end.

Definition truthy_dict {A} (o : option (gmap string A)) : option (gmap string A) :=
  match o with
  | Some d => if decide (d = ∅) then None else Some d
  | None => None
  end.

Definition nl : string := PyStr.newline.

(** [UserProfile.to_context_string]. *)
Definition to_context_string (p : UserProfile) : string :=
  let part_role :=
    match truthy_str (current_role p), truthy_str (current_company p) with
    | Some r, Some c => ["Currently working as " +:+ r +:+ " at " +:+ c]
    | Some r, None => ["Currently working as " +:+ r]
    | None, _ => []
    end in
  let part_years :=
    match years_of_experience p with
    | Some y => if decide (y = 0%Z) then []
                else ["with " +:+ pretty y +:+ " years of experience"]
    | None => []
    end in
  let part_target :=
    match truthy_str (target_role p) with
    | Some t => ["Preparing for " +:+ t +:+ " interviews"]
    | None => []
    end in
  let listed (field : option (gmap string (list string))) (key label : string) :=
    match truthy_dict field with
    | Some d =>
        let joined := PyStr.join ", " (default [] (d !! key)) in
        if decide (joined = EmptyString) then [] else [label +:+ joined]
    | None => []
    end in
  let part_bio :=
    match truthy_str (bio p) with
    | Some b => ["Background: " +:+ b]
    | None => []
    end in
  let context_parts :=
    part_role ++ part_years ++ part_target
    ++ listed (technical_skills p) "skills" "Technical skills: "
    ++ listed (focus_areas p) "areas" "Focus areas: "
    ++ part_bio in
  match context_parts with
  | [] => EmptyString
  | _ => PyStr.join ". " context_parts +:+ "."
  end.

Definition number (z : Z) : pyval := VNum (Py.num z).

Section Service.

Context {S : Type} `{VectorStore S}.

(** [self.text_splitter.split_text]. *)
Variable split_text : string → list string.
(** [str] of a float, as an f-string renders it. *)
Variable render_number : Qc → string.
(** [datetime.utcnow().isoformat()]. *)
Variable utcnow : string.

(** The summary document of one past session. *)
Definition session_summary (s : InterviewSession) : string :=
  let line (o : option string) (label : string) :=
    match o with
    | Some text => label +:+ text +:+ nl
    | None => EmptyString
    end in
  let listed (field : option (gmap string (list string))) (key label : string) :=
    match truthy_dict field with
    | Some d =>
        match default [] (d !! key) with
        | [] => EmptyString
        | items => label +:+ PyStr.join ", " items +:+ nl
        end
    | None => EmptyString
    end in
  "Interview Session: " +:+ title s +:+ nl
  +:+ "Date: " +:+ session_date s +:+ nl
  +:+ line (truthy_str (question s)) "Question: "
  +:+ match overall_score s with
      | Some x => if decide (x = Py.num 0) then EmptyString
                  else "Overall Score: " +:+ render_number x +:+ "/100" +:+ nl
      | None => EmptyString
      end
  +:+ line (truthy_str (detailed_feedback s)) "Feedback: "
  +:+ listed (strengths s) "strengths" "Strengths: "
  +:+ listed (improvements s) "improvements" "Areas for Improvement: ".

(** The documents [index_user_context] builds for a user. *)
Definition basic_info_document (user_id : Z) (user : User) : Document :=
  {| page_content :=
       "User: " +:+ default (email user) (truthy_str (name user)) +:+ nl
       +:+ "Email: " +:+ email user +:+ nl
       +:+ "Account created: " +:+ created_on user;
     metadata := list_to_map [("user_id", number user_id);
                              ("type", VStr "basic_info");
                              ("timestamp", VStr utcnow)] |}.

Definition profile_documents (user_id : Z) (profile : UserProfile) : list Document :=
  let profile_context := to_context_string profile in
  (if decide (profile_context = EmptyString) then []
   else [{| page_content := profile_context;
            metadata := list_to_map [("user_id", number user_id);
                                     ("type", VStr "profile");
                                     ("timestamp", VStr utcnow)] |}])
  ++ match truthy_str (resume_text profile) with
     | Some resume =>
         imap (λ i chunk,
                 {| page_content := chunk;
                    metadata := list_to_map [("user_id", number user_id);
                                             ("type", VStr "resume");
                                             ("chunk", number (Z.of_nat i));
                                             ("timestamp", VStr utcnow)] |})
              (split_text resume)
     | None => []
     end.

Definition session_document (user_id : Z) (s : InterviewSession) : Document :=
  {| page_content := session_summary s;
     metadata := list_to_map [("user_id", number user_id);
                              ("type", VStr "session_history");
                              ("session_id", number (session_pk s));
                              ("timestamp", VStr (session_timestamp s))] |}.

Definition user_documents (db : database) (user_id : Z) (user : User) : list Document :=
  let history :=
    take 10 (filter (λ s, session_user_id s = user_id) (sessions db)) in
  basic_info_document user_id user
  :: match profiles db !! user_id with
     | Some profile => profile_documents user_id profile
     | None => []
     end
  ++ (session_document user_id <$> history).

(** [index_user_context]: the boolean returned and the store left behind. *)
Definition index_user_context (db : database) (user_id : Z) (store : S) : bool * S :=
  match users db !! user_id with
  | None => (false, store)
  | Some user =>
      let documents := user_documents db user_id user in
      let store :=
        match delete_where_user store user_id with
        | Ok store' => store'
        | Raise _ => store
        end in
      match documents with
      | [] => (false, store)
      | _ => match add_documents store documents with
             | Ok store' => (true, store')
             | Raise _ => (false, store)
             end
      end
  end.

(** [retrieve_user_context]. *)
Definition to_context_doc (doc : Document) : context_doc :=
  {| content := page_content doc;
     doc_metadata := metadata doc;
     doc_type := Py.get (metadata doc) "type" (VStr "unknown") |}.

Definition retrieve_user_context (store : S) (user_id : Z)
    (query : option string) (k : Z) : list context_doc :=
  let searched :=
    match truthy_str query with
    | Some q => similarity_search store q k user_id
    | None => similarity_search store "user profile interview history" k user_id
    end in
  match searched with
  | Ok results => to_context_doc <$> results
  | Raise _ => []
  end.

(** [build_personalized_prompt]. *)
Definition personalized_prompt (interview_type user_context : string) : string :=
  "You are an experienced interview coach conducting a " +:+ interview_type
  +:+ " interview." +:+ nl +:+ nl
  +:+ "**Candidate Context:**" +:+ nl
  +:+ user_context +:+ nl +:+ nl
  +:+ "**Your Role:**" +:+ nl
  +:+ "- Conduct a realistic " +:+ interview_type +:+ " interview" +:+ nl
  +:+ "- Ask relevant questions based on the candidate's background and experience" +:+ nl
  +:+ "- Provide real-time feedback and encouragement" +:+ nl
  +:+ "- Adapt questions based on the candidate's responses" +:+ nl
  +:+ "- Be supportive but maintain professional interview standards" +:+ nl
  +:+ "- After each response, provide brief constructive feedback before moving to the next question"
  +:+ nl +:+ nl
  +:+ "**Interview Guidelines:**" +:+ nl
  +:+ "- Start with a personalized introduction that references the candidate's background" +:+ nl
  +:+ "- Ask 3-5 relevant questions for this interview session" +:+ nl
  +:+ "- Listen carefully to responses and ask follow-up questions when needed" +:+ nl
  +:+ "- Provide balanced feedback highlighting both strengths and areas for improvement" +:+ nl
  +:+ "- End with actionable recommendations for improvement" +:+ nl +:+ nl
  +:+ "Begin the interview now with a warm, personalized introduction.".

Definition fallback_prompt (interview_type : string) : string :=
  "You are an experienced interview coach conducting a " +:+ interview_type
  +:+ " interview." +:+ nl
  +:+ "Introduce yourself and begin asking relevant interview questions.".

Definition no_context : string := "No previous context available.".

Definition build_personalized_prompt (store : S) (user_id : Z)
    (interview_type : string) : string :=
  let body : result string :=
    let context_docs :=
      retrieve_user_context store user_id
        (Some (interview_type +:+ " interview preparation")) 5 in
    let context_parts := content <$> context_docs in
    let user_context :=
      match context_parts with
      | [] => no_context
      | _ => PyStr.join (nl +:+ nl) context_parts
      end in
    Ok (personalized_prompt interview_type user_context) in
  match body with
  | Ok prompt => prompt
  | Raise _ => fallback_prompt interview_type
  end.

End Service.

(** An in-memory store: documents in insertion order, no operation fails;
    a search returns the first [k] documents of the user (the order among
    several hits is the embedding model's and is not modelled). *)
Definition owner (doc : Document) : option Qc :=
  match metadata doc !! "user_id" with
  | Some v => Py.as_number v
  | None => None
  end.

Definition owned_by (user_id : Z) (doc : Document) : Prop :=
  owner doc = Some (Py.num user_id).

#[global] Instance owned_by_dec user_id doc : Decision (owned_by user_id doc).
Proof. unfold owned_by. apply _. Defined.

#[global] Instance memory_store : VectorStore (list Document) := {|
  similarity_search store query k user_id :=
    Ok (take (Z.to_nat k) (filter (owned_by user_id) store));
  delete_where_user store user_id :=
    Ok (filter (λ doc, ¬ owned_by user_id doc) store);
  add_documents store docs := Ok (store ++ docs)
|}.

End Rag.

(** ** The properties, as the specification words them

    These definitions do not come from the code: they say what the
    specification means by a whole-word match, a mean, a weighted score, a
    recorded duration, a balanced span and a failed step, and the theorems
    below compare the code with them. *)

Module Spec.
Import Models Assessment.

(** *** Filler words as whole words *)

Definition whole_word_here (prev : option ascii) (s w : string) : bool :=
  negb (is_word_at prev)
  && match PyStr.strip_prefix w s with
     | Some rest => negb (is_word_at (PyStr.head rest))
     | None => false
     end.

Definition filler_here (prev : option ascii) (s : string) : bool :=
  existsb (whole_word_here prev s) filler_alternatives.

Fixpoint whole_word_fillers (prev : option ascii) (s : string) : nat :=
  match s with
  | EmptyString => 0
  | String c s' =>
      (if filler_here prev s then 1 else 0) + whole_word_fillers (Some c) s'
  end.

(** A word of the lexicon begins and ends with a word character. *)
Definition word_edges (w : string) : Prop :=
  (∃ a w', w = String a w' ∧ PyStr.is_word a = true)
  ∧ ∀ prev, is_word_at (last_char prev w) = true.

(** *** Speech totals and transcript labels *)

(** Total words and total recorded audio seconds of a list of turns. *)
Definition spoken_words (turns : list AIInterviewInteraction) : Z :=
  foldr (λ i acc, Z.of_nat (length (PyStr.split (content i))) + acc)%Z 0%Z turns.

Definition recorded_seconds (turns : list AIInterviewInteraction) : Qc :=
  foldr (λ i acc, default (Py.num 0) (audio_duration_seconds i) + acc)%Qc
        (Py.num 0) turns.

(** The label the spec gives a transcript line. *)
Definition speaker (r : MessageRole) : string :=
  match r with
  | ASSISTANT => "Interviewer"
  | USER | SYSTEM | TOOL => "Candidate"
  end.

(** *** The weighted overall score *)

(** The number a score dictionary holds under a key; a key that is not
    there counts as 0. *)
Definition number_at (d : gmap string pyval) (key : string) : Qc :=
  default (Py.num 0) (Py.as_number (Py.get d key (score 0))).

Definition numeric_at (d : gmap string pyval) (key : string) : Prop :=
  is_Some (Py.as_number (Py.get d key (score 0))).

Definition mean (values : list Qc) : Qc :=
  (foldr Qcplus (Py.num 0) values / Py.num (Z.of_nat (length values)))%Qc.

Definition communication_mean (d : gmap string pyval) : Qc :=
  mean [number_at d "clarity_score"; number_at d "confidence_score";
        number_at d "pace_score"].

Definition content_mean (d : gmap string pyval) : Qc :=
  mean [number_at d "technical_accuracy_score"; number_at d "problem_solving_score";
        number_at d "structure_score"; number_at d "relevance_score"].

Definition behavioral_mean (d : gmap string pyval) : Qc :=
  mean [number_at d "star_method_score"; number_at d "leadership_score";
        number_at d "teamwork_score"].

(** Behavioral scores are present when [star_method_score] is not [None]. *)
Definition behavioral_present (d : gmap string pyval) : bool :=
  Py.is_not_None (Py.get d "star_method_score" VNone).

Definition weighted_overall (communication content behavioral : gmap string pyval) : Qc :=
  (Py.ratio 30 100 * communication_mean communication
   + Py.ratio 50 100 * content_mean content
   + (if behavioral_present behavioral
      then Py.ratio 20 100 * behavioral_mean behavioral
      else Py.num 0))%Qc.

Definition communication_numeric (d : gmap string pyval) : Prop :=
  numeric_at d "clarity_score" ∧ numeric_at d "confidence_score"
  ∧ numeric_at d "pace_score".

Definition content_numeric (d : gmap string pyval) : Prop :=
  numeric_at d "technical_accuracy_score" ∧ numeric_at d "problem_solving_score"
  ∧ numeric_at d "structure_score" ∧ numeric_at d "relevance_score".

Definition behavioral_numeric (d : gmap string pyval) : Prop :=
  numeric_at d "star_method_score" ∧ numeric_at d "leadership_score"
  ∧ numeric_at d "teamwork_score".

(** *** Brace-delimited spans *)

Definition open_brace : ascii := "{"%char.
Definition close_brace : ascii := "}"%char.

Fixpoint occurs (c : ascii) (s : string) : bool :=
  match s with
  | EmptyString => false
  | String a s' => Ascii.eqb c a || occurs c s'
  end.

(** The shortest prefix of [s] that closes [depth] open braces. *)
Fixpoint balanced_prefix (depth : nat) (s : string) : option string :=
  match s with
  | EmptyString => None
  | String c s' =>
      if Ascii.eqb c open_brace then String c <$> balanced_prefix (S depth) s'
      else if Ascii.eqb c close_brace then
        match depth with
        | 0 => None
        | 1 => Some (String c EmptyString)
        | S d => String c <$> balanced_prefix d s'
        end
      else String c <$> balanced_prefix depth s'
  end.

(** The first balanced brace-delimited span: from the first opening brace
    to the brace that closes it. *)
Fixpoint first_balanced_span (s : string) : option string :=
  match s with
  | EmptyString => None
  | String c s' =>
      if Ascii.eqb c open_brace then String c <$> balanced_prefix 1 s'
      else first_balanced_span s'
  end.

Definition dq : string := String "034"%char EmptyString.

(** A reply that carries two payloads. *)
Definition two_payloads : string :=
  "First {" +:+ dq +:+ "clarity" +:+ dq +:+ ": 80} then {"
  +:+ dq +:+ "clarity" +:+ dq +:+ ": 85}".

(** *** Fallback values *)

(** The documented fallback values of the four model-backed steps. *)
Definition communication_fallback (m : metrics) : gmap string pyval :=
  dict [("verbal_communication_score", score 70);
        ("clarity_score", score 70);
        ("confidence_score", score 70);
        ("pace_score", score 70);
        ("words_per_minute", VNum (words_per_minute m));
        ("filler_word_count", VNum (Py.num (filler_words m)))].

Definition content_fallback : gmap string pyval :=
  dict [("technical_accuracy_score", score 70);
        ("problem_solving_score", score 70);
        ("structure_score", score 70);
        ("relevance_score", score 70)].

Definition behavioral_fallback : gmap string pyval :=
  dict [("star_method_score", score 70);
        ("leadership_score", score 70);
        ("teamwork_score", score 70)].

Definition behavioral_not_applicable : gmap string pyval :=
  dict [("star_method_score", VNone);
        ("leadership_score", VNone);
        ("teamwork_score", VNone)].

(** A step fails when the model call raises or its reply does not parse. *)
Definition unusable (ainvoke : prompt → option string)
    (json_loads : string → option pyval) (p : prompt) : Prop :=
  match ainvoke p with
  | None => True
  | Some response => json_loads (json_candidate response) = None
  end.

(** *** The three scoring passes of one assessment *)

Inductive pass : Type := CommunicationPass | ContentPass | BehavioralPass.

#[global] Instance pass_eq_dec : EqDecision pass.
Proof. solve_decision. Defined.

Definition session_interactions (db : database) (session_id : Z)
  : list AIInterviewInteraction :=
  filter (λ i, interaction_session_id i = session_id) (db_interactions db).

Definition session_transcript (db : database) (session_id : Z) : string :=
  build_transcript (session_interactions db session_id).

(** The request a pass sends to the model for a session. *)
Definition request (db : database) (session_id : Z) (session : AIInterviewSession)
    (which : pass) : prompt :=
  match which with
  | CommunicationPass =>
      communication_request (session_transcript db session_id)
        (session_interactions db session_id)
  | ContentPass =>
      ContentPrompt (interview_type session) (session_transcript db session_id)
  | BehavioralPass => BehavioralPrompt (session_transcript db session_id)
  end.

(** The scores a pass yields when it is run on its own. *)
Definition alone (ainvoke : prompt → option string)
    (json_loads : string → option pyval)
    (db : database) (session_id : Z) (session : AIInterviewSession)
    (which : pass) : result (gmap string pyval) :=
  match which with
  | CommunicationPass =>
      (assess_communication ainvoke json_loads (session_transcript db session_id)
         (session_interactions db session_id) []).1
  | ContentPass =>
      (assess_content ainvoke json_loads (session_transcript db session_id)
         (interview_type session) []).1
  | BehavioralPass =>
      (assess_behavioral ainvoke json_loads (session_transcript db session_id)
         (interview_type session) []).1
  end.

Definition scores_of (which : pass) (a : assessment) : gmap string pyval :=
  match which with
  | CommunicationPass => communication_scores a
  | ContentPass => content_scores a
  | BehavioralPass => behavioral_scores a
  end.

Definition score_fields (which : pass) : list string :=
  match which with
  | CommunicationPass =>
      ["verbal_communication_score"; "clarity_score"; "confidence_score"; "pace_score"]
  | ContentPass =>
      ["technical_accuracy_score"; "problem_solving_score"; "structure_score";
       "relevance_score"]
  | BehavioralPass => ["star_method_score"; "leadership_score"; "teamwork_score"]
  end.

(** The behavioral pass is only run for a behavioral interview. *)
Definition executed (session : AIInterviewSession) (which : pass) : Prop :=
  match which with
  | BehavioralPass => PyStr.lower (interview_type session) = "behavioral"
  | _ => True
  end.

(** A pass delivered real scores: numbers, or for the behavioral pass the
    not-applicable marker. *)
Definition real_scores (which : pass) (d : gmap string pyval) : Prop :=
  match which with
  | CommunicationPass => communication_numeric d
  | ContentPass => content_numeric d
  | BehavioralPass => behavioral_present d = true → behavioral_numeric d
  end.

(** The requests of one assessment run, in the order they are sent. *)
Definition requests_of_run (db : database) (sid : Z) (session : AIInterviewSession)
    (summary : list pyval) : list prompt :=
  [request db sid session CommunicationPass; request db sid session ContentPass]
  ++ (if decide (PyStr.lower (interview_type session) = "behavioral")
      then [request db sid session BehavioralPass] else [])
  ++ [FeedbackPrompt (interview_type session) summary (session_transcript db sid)].

(** The transcript a request carries. *)
Definition prompt_transcript (p : prompt) : string :=
  match p with
  | CommunicationPrompt transcript _ _ => transcript
  | ContentPrompt _ transcript => transcript
  | BehavioralPrompt transcript => transcript
  | FeedbackPrompt _ _ transcript => transcript
  end.

(** The generic feedback bundle, and the bundle with every field empty. *)
Definition feedback_fallback : gmap string pyval :=
  dict [("strengths", strings ["Completed the interview"; "Engaged with questions"]);
        ("weaknesses", strings ["Could provide more specific examples"]);
        ("detailed_feedback",
          VStr "Overall decent performance with room for improvement.");
        ("next_steps", strings ["Practice more interview questions"]);
        ("recommended_topics", strings ["Interview techniques"])].

Definition feedback_empty : gmap string pyval :=
  dict [("strengths", VList []);
        ("weaknesses", VList []);
        ("detailed_feedback", VStr EmptyString);
        ("next_steps", VList []);
        ("recommended_topics", VList [])].

(** A model whose replies carry no payload, and a decoder that rejects
    everything. *)
Definition chatty_model (p : prompt) : option string := Some "Sorry, no scores.".
Definition rejecting_decoder (text : string) : option pyval := None.

(** *** A user with no profile and no session history *)

Definition new_user : Rag.User :=
  {| Rag.name := Some "Ada";
     Rag.email := "ada@example.org";
     Rag.created_on := "2024-05-01" |}.

Definition new_user_db : Rag.database :=
  {| Rag.users := {[ 7%Z := new_user ]};
     Rag.profiles := ∅;
     Rag.sessions := [] |}.

Definition whole_text (text : string) : list string := [text].
Definition plain_number (x : Qc) : string := "0".
Definition noon : string := "2024-05-01T12:00:00".

(** The store after the user asked for indexing ([POST /profile/index]). *)
Definition new_user_store : list Rag.Document :=
  (Rag.index_user_context whole_text plain_number noon new_user_db 7 []).2.

(** *** Sample data *)

Definition sample_communication : gmap string pyval :=
  dict [("clarity_score", score 80); ("confidence_score", score 70);
        ("pace_score", score 90)].

Definition sample_content : gmap string pyval :=
  dict [("technical_accuracy_score", score 90); ("problem_solving_score", score 80);
        ("structure_score", score 70); ("relevance_score", score 61)].

Definition full_marks_communication : gmap string pyval :=
  dict [("clarity_score", score 100); ("confidence_score", score 100);
        ("pace_score", score 100)].

Definition full_marks_content : gmap string pyval :=
  dict [("technical_accuracy_score", score 100); ("problem_solving_score", score 100);
        ("structure_score", score 100); ("relevance_score", score 100)].

(** A technical session with one candidate turn of thirty seconds. *)
Definition sample_session : AIInterviewSession := {| interview_type := "Technical" |}.

Definition sample_db : database :=
  {| db_sessions := {[ 1%Z := sample_session ]};
     db_interactions :=
       [ {| interaction_session_id := 1; role := ASSISTANT;
            content := "Tell me about testing."; audio_duration_seconds := None |};
         {| interaction_session_id := 1; role := USER;
            content := "Um, I like to write the tests first";
            audio_duration_seconds := Some (Py.num 30) |} ] |}.

(** A reply with prose around a payload, and a decoder that knows it. *)
Definition sample_payload : string := "{" +:+ dq +:+ "clarity" +:+ dq +:+ ": 80}".

Definition sample_decoder (text : string) : option pyval :=
  if decide (text = sample_payload)
  then Some (VDict {[ "clarity" := score 80 ]})
  else None.

(** A model whose content-scoring call raises. *)
Definition sample_model (p : prompt) : option string :=
  match p with
  | ContentPrompt _ _ => None
  | _ => Some ("Here are the scores: " +:+ sample_payload +:+ " Good luck!")
  end.

(** An interviewer model that always asks the same question. *)
Definition sample_interviewer (history : list Workflow.message)
  : option Workflow.message :=
  Some (Workflow.AIMessage "What did you learn from your last project?").

End Spec.

(** ** Running the workflow ([start_interview], [continue_interview]) *)

Module Interviews.
Import Workflow.

Definition is_ai (m : message) : bool :=
  match m with AIMessage _ => true | _ => false end.

(** The dictionary both entry points return; a key that is absent is
    [None].  The [error] key, the text of the exception, is left out. *)
Record reply : Type := {
  response : string;
  reply_status : string;
  question_count : option Z;
  analysis : option (gmap string analysis);
  success : bool
}.

(** The number of steps LangGraph allows one invocation by default. *)
Definition recursion_limit : nat := 25.

(** [ai_messages[-1].content if ai_messages else fallback]. *)
Definition last_ai_content (fallback : string) (history : list message) : string :=
  match last (filter (λ m, is_ai m = true) history) with
  | Some m => message_content m
  | None => fallback
  end.

Section Service.

Variable ainvoke : list message → option message.
Variable utcnow : string.

(** [self.workflow.ainvoke(state)]: the compiled graph from its entry
    point; [None] when it raises. *)
Definition workflow_ainvoke (state : InterviewState) : option InterviewState :=
  invoke_from ainvoke utcnow recursion_limit prepare_context state.

Definition start_interview (user_id session_id : Z) (interview_type : string)
    (initial_message : option string) : reply :=
  let initial_state := initial_state user_id session_id interview_type initial_message in
  match workflow_ainvoke initial_state with
  | Some result =>
      {| response := last_ai_content "Hello! Let's begin the interview." (messages result);
         reply_status := session_status result;
         question_count := Some (current_question_count result);
         analysis := None;
         success := true |}
  | None =>
      {| response := "I apologize, but I encountered an error starting the interview. Please try again.";
         reply_status := "error";
         question_count := None;
         analysis := None;
         success := false |}
  end.

Definition continue_interview (session_id : Z) (user_message : string)
    (current_state : InterviewState) : reply :=
  let current_state := append_message current_state (HumanMessage user_message) in
  match workflow_ainvoke current_state with
  | Some result =>
      {| response := last_ai_content "Please continue." (messages result);
         reply_status := session_status result;
         question_count := Some (current_question_count result);
         analysis := Some (analysis_results result);
         success := true |}
  | None =>
      {| response := "I apologize for the interruption. Please continue.";
         reply_status := session_status current_state;
         question_count := None;
         analysis := None;
         success := false |}
  end.

End Service.

End Interviews.

(** ** The candidate summary ([RAGService.get_user_summary]) *)

Module Summary.
Import Rag.

(** [doc["type"] == name], the type being any value of the metadata. *)
Definition has_type (name : string) (doc : context_doc) : bool :=
  match doc_type doc with
  | VStr t => bool_decide (t = name)
  | _ => false
  end.

(** The content of the first document of the given type, the empty string
    when there is none: [next(...)] with its default. *)
Definition first_of_type (name : string) (docs : list context_doc) : string :=
  match filter (λ doc, has_type name doc = true) docs with
  | doc :: _ => content doc
  | [] => EmptyString
  end.

Definition new_candidate : string :=
  "New candidate with no previous interview history.".

Definition limited_information : string :=
  "Limited candidate information available.".

Definition get_user_summary {S : Type} `{VectorStore S} (store : S) (user_id : Z)
  : string :=
  let body : result string :=
    let context_docs := retrieve_user_context store user_id None 3 in
    match context_docs with
    | [] => Ok new_candidate
    | _ =>
        let profile_info := first_of_type "profile" context_docs in
        let basic_info := first_of_type "basic_info" context_docs in
        let summary_parts :=
          (if decide (basic_info = EmptyString) then [] else [basic_info])
          ++ (if decide (profile_info = EmptyString) then [] else [profile_info]) in
        Ok match summary_parts with
           | [] => limited_information
           | _ => PyStr.join PyStr.newline summary_parts
           end
    end in
  match body with
  | Ok summary => summary
  | Raise _ => "Error retrieving candidate information."
  end.

End Summary.

(** ** The score a session computes from its own columns
    ([AIInterviewSession.calculate_overall_score]) *)

Module SessionScores.

(** The score columns of [AIInterviewSession]; [None] is SQL [NULL]. *)
Record columns : Type := {
  verbal_communication_score : option Qc;
  clarity_score : option Qc;
  confidence_score : option Qc;
  pace_score : option Qc;
  technical_accuracy_score : option Qc;
  problem_solving_score : option Qc;
  structure_score : option Qc;
  relevance_score : option Qc;
  star_method_score : option Qc;
  leadership_score : option Qc;
  teamwork_score : option Qc;
  eye_contact_score : option Qc;
  body_language_score : option Qc;
  engagement_score : option Qc
}.

(** [sum(xs)] on numbers. *)
Definition total (xs : list Qc) : Qc := foldl Qcplus (Py.num 0) xs.

(** [[s for s in scores if s is not None]]. *)
Definition present (scores : list (option Qc)) : list Qc := omap id scores.

(** [sum(present) / len(present) if any(s is not None ...) else 0]. *)
Definition average (scores : list (option Qc)) : Qc :=
  match present scores with
  | [] => Py.num 0
  | xs => (total xs / Py.num (Z.of_nat (length xs)))%Qc
  end.

(** [if avg > 0: scores.append((name, avg, weight))]. *)
Definition group (name : string) (avg weight : Qc) : list (string * Qc * Qc) :=
  match (Py.num 0 ?= avg)%Qc with
  | Lt => [(name, avg, weight)]
  | _ => []
  end.

Definition calculate_overall_score (self : columns) : Qc :=
  let comm_avg :=
    average [verbal_communication_score self; clarity_score self;
             confidence_score self; pace_score self] in
  let content_avg :=
    average [technical_accuracy_score self; problem_solving_score self;
             structure_score self; relevance_score self] in
  let behavioral_avg :=
    average [star_method_score self; leadership_score self; teamwork_score self] in
  let nonverbal_avg :=
    average [eye_contact_score self; body_language_score self;
             engagement_score self] in
  let scores :=
    group "communication" comm_avg (Py.ratio 30 100)
    ++ group "content" content_avg (Py.ratio 40 100)
    ++ group "behavioral" behavioral_avg (Py.ratio 20 100)
    ++ group "nonverbal" nonverbal_avg (Py.ratio 10 100) in
  match scores with
  | [] => Py.num 0
  | _ =>
      let total_weight := total ((λ t, t.2) <$> scores) in
      let weighted_sum := total ((λ t, t.1.2 * t.2)%Qc <$> scores) in
      match (Py.num 0 ?= total_weight)%Qc with
      | Lt => Py.round2_num (weighted_sum / total_weight)
      | _ => Py.num 0
      end
  end.

End SessionScores.

(** ** Rate limiting ([app/middleware/rate_limiter.py]) *)

Module RateLimiter.

(** Points in time are counted in microseconds, the resolution of
    [datetime]. *)
Definition seconds (n : Z) : Z := (n * 1000000)%Z.

(** [InMemoryRateLimiter]; [cleanup_interval] is always 60. *)
Record InMemoryRateLimiter : Type := {
  requests : gmap string (list Z);
  last_cleanup : Z
}.

Definition cleanup_interval : Z := 60.

(** [_cleanup_old_requests], [now] being what [datetime.utcnow()] returns
    there. *)
Definition cleanup_old_requests (now : Z) (self : InMemoryRateLimiter)
  : InMemoryRateLimiter :=
  if (now - last_cleanup self <? seconds cleanup_interval)%Z then self
  else
    let cutoff := (now - seconds (5 * 60))%Z in
    {| requests :=
         omap (λ stamps,
                 match filter (λ ts, (cutoff < ts)%Z) stamps with
                 | [] => None
                 | kept => Some kept
                 end) (requests self);
       last_cleanup := now |}.

(** [is_rate_limited]: the answer and the limiter afterwards.  The clock is
    read twice, once by the cleanup and once by the check. *)
Definition is_rate_limited (key : string) (max_requests window_seconds : Z)
    (now_cleanup now : Z) (self : InMemoryRateLimiter)
  : bool * InMemoryRateLimiter :=
  let self := cleanup_old_requests now_cleanup self in
  let window_start := (now - seconds window_seconds)%Z in
  let stamps := default [] (requests self !! key) in
  let recent := filter (λ ts, (window_start < ts)%Z) stamps in
  if (max_requests <=? Z.of_nat (length recent))%Z
  then (true, {| requests := <[key := recent]> (requests self);
                 last_cleanup := last_cleanup self |})
  else (false, {| requests := <[key := recent ++ [now]]> (requests self);
                  last_cleanup := last_cleanup self |}).

(** [s.split(c)[0]] for a one-character separator. *)
Fixpoint before (c : ascii) (s : string) : string :=
  match s with
  | EmptyString => EmptyString
  | String a s' => if Ascii.eqb a c then EmptyString else String a (before c s')
  end.

(** [RateLimitMiddleware.endpoint_limits], in insertion order. *)
Definition endpoint_limits : list (string * (Z * Z)) :=
  [("/ai-interview/sessions", (10, 60)%Z);
   ("/ai-interview/sessions/{id}/message", (30, 60)%Z);
   ("/ai/chat", (20, 60)%Z);
   ("/auth/login", (5, 60)%Z);
   ("/auth/register", (3, 60)%Z)].

Fixpoint first_limit (path : string) (limits : list (string * (Z * Z)))
    (default : Z * Z) : Z * Z :=
  match limits with
  | [] => default
  | (endpoint, limit) :: rest =>
      if PyStr.startswith path (before "{" endpoint) then limit
      else first_limit path rest default
  end.

(** [_get_rate_limit_for_path]. *)
Definition get_rate_limit_for_path (requests_per_minute : Z) (path : string)
  : Z * Z :=
  first_limit path endpoint_limits (requests_per_minute, 60%Z).

(** [_get_client_identifier], from the [authorization] header, the
    [x-forwarded-for] header and the host of the connection. *)
Definition get_client_identifier (authorization forwarded client_host : option string)
  : string :=
  let auth_header := default EmptyString authorization in
  if PyStr.startswith auth_header "Bearer " then
    "user:" +:+ PyStr.slice auth_header 7 30
  else
    match forwarded with
    | Some (String a f) => "ip:" +:+ before "," (String a f)
    | _ => "ip:" +:+ default "unknown" client_host
    end.

End RateLimiter.

(** ** Writing an assessment onto the session row
    ([AssessmentService._update_session_scores]) *)

Module Persisted.

(** The columns of [AIInterviewSession] that hold an assessment.  A score
    column is a nullable [Float]: it holds the number assigned to it, [NULL]
    for [None]. *)
Record row : Type := {
  overall_score : option Qc;
  scores : SessionScores.columns;
  strengths : pyval;
  weaknesses : pyval;
  improvements : pyval;
  detailed_feedback : pyval;
  recommended_topics : pyval;
  next_steps : pyval
}.

(** [d.get(key)] as a score column takes it. *)
Definition column (d : gmap string pyval) (key : string) : option Qc :=
  Py.as_number (Py.get d key VNone).

(** [{key: feedback.get(field, [])}]. *)
Definition listing (key : string) (feedback : gmap string pyval) (field : string)
  : pyval :=
  VDict {[ key := Py.get feedback field (VList []) ]}.

Definition update_session_scores (session : row) (assessment : Assessment.assessment)
  : row :=
  let comm := Assessment.communication_scores assessment in
  let content := Assessment.content_scores assessment in
  let behavioral := Assessment.behavioral_scores assessment in
  let feedback := Assessment.feedback assessment in
  {| overall_score := Py.as_number (Assessment.overall_score assessment);
     scores :=
       {| SessionScores.verbal_communication_score :=
            column comm "verbal_communication_score";
          SessionScores.clarity_score := column comm "clarity_score";
          SessionScores.confidence_score := column comm "confidence_score";
          SessionScores.pace_score := column comm "pace_score";
          SessionScores.technical_accuracy_score :=
            column content "technical_accuracy_score";
          SessionScores.problem_solving_score := column content "problem_solving_score";
          SessionScores.structure_score := column content "structure_score";
          SessionScores.relevance_score := column content "relevance_score";
          SessionScores.star_method_score := column behavioral "star_method_score";
          SessionScores.leadership_score := column behavioral "leadership_score";
          SessionScores.teamwork_score := column behavioral "teamwork_score";
          SessionScores.eye_contact_score :=
            SessionScores.eye_contact_score (scores session);
          SessionScores.body_language_score :=
            SessionScores.body_language_score (scores session);
          SessionScores.engagement_score :=
            SessionScores.engagement_score (scores session) |};
     strengths := listing "strengths" feedback "strengths";
     weaknesses := listing "weaknesses" feedback "weaknesses";
     improvements := listing "improvements" feedback "weaknesses";
     detailed_feedback := Py.get feedback "detailed_feedback" (VStr EmptyString);
     recommended_topics := listing "topics" feedback "recommended_topics";
     next_steps := listing "steps" feedback "next_steps" |}.

End Persisted.

(** ** Further notions used to state properties *)

Module Notions.
Import Models Assessment Spec.

(** *** Replies that cannot be used as a score payload *)

(** A decoded payload is usable when it is a JSON object. *)
Definition is_object (v : pyval) : bool :=
  match v with VDict _ => true | _ => false end.

(** The model call raises, or its reply decodes to something that is not an
    object (a list, a number, a string, [null]). *)
Definition raises_or_not_object (ainvoke : prompt → option string)
    (json_loads : string → option pyval) (p : prompt) : Prop :=
  match ainvoke p with
  | None => True
  | Some response => is_object (parse_json_response json_loads response) = false
  end.

(** The summary of scores the feedback request carries. *)
Definition scores_summary (communication content : gmap string pyval) : list pyval :=
  [Py.get communication "clarity_score" (score 0);
   Py.get communication "confidence_score" (score 0);
   Py.get communication "pace_score" (score 0);
   Py.get content "technical_accuracy_score" (score 0);
   Py.get content "problem_solving_score" (score 0);
   Py.get content "structure_score" (score 0);
   Py.get content "relevance_score" (score 0)].

(** The dictionary a communication pass builds from a payload. *)
Definition communication_from (scores : gmap string pyval) (verbal : pyval)
    (m : metrics) : gmap string pyval :=
  dict [("verbal_communication_score", verbal);
        ("clarity_score", Py.get scores "clarity" (score 70));
        ("confidence_score", Py.get scores "confidence" (score 70));
        ("pace_score", Py.get scores "pace" (score 70));
        ("words_per_minute", VNum (words_per_minute m));
        ("filler_word_count", VNum (Py.num (filler_words m)))].

(** Scores between 0 and 100. *)
Definition in_range (x : Qc) : Prop := (Py.num 0 ≤ x ≤ Py.num 100)%Qc.

Definition percent_at (d : gmap string pyval) (key : string) : Prop :=
  ∃ x, Py.as_number (Py.get d key (score 0)) = Some x ∧ in_range x.

Definition communication_percent (d : gmap string pyval) : Prop :=
  percent_at d "clarity_score" ∧ percent_at d "confidence_score"
  ∧ percent_at d "pace_score".

Definition content_percent (d : gmap string pyval) : Prop :=
  percent_at d "technical_accuracy_score" ∧ percent_at d "problem_solving_score"
  ∧ percent_at d "structure_score" ∧ percent_at d "relevance_score".

Definition behavioral_percent (d : gmap string pyval) : Prop :=
  percent_at d "star_method_score" ∧ percent_at d "leadership_score"
  ∧ percent_at d "teamwork_score".

(** The three passes delivered what [_calculate_overall_score] can add up. *)
Definition scores_add_up (communication content behavioral : gmap string pyval) : Prop :=
  communication_numeric communication ∧ content_numeric content
  ∧ (behavioral_present behavioral = true → behavioral_numeric behavioral).

(** A model that always answers with an empty object, and a decoder that
    reads every text as a payload whose accuracy is a word. *)
Definition terse_model (p : prompt) : option string := Some "{}".

Definition wordy_decoder (text : string) : option pyval :=
  Some (VDict {[ "technical_accuracy" := VStr "high" ]}).

(** Total filler words of a list of turns. *)
Definition spoken_fillers (turns : list AIInterviewInteraction) : Z :=
  foldr (λ i acc, Z.of_nat (count_fillers (content i)) + acc)%Z 0%Z turns.

(** *** The interview workflow *)

(** How many conduct / analyze / check cycles the loop makes from a state. *)
Definition loop_cycles (state : Workflow.InterviewState) : nat :=
  if decide (Workflow.session_status state = "completed") then 1
  else Z.to_nat (Z.max 1 (Workflow.max_questions state
                          - Workflow.current_question_count state)).

(** What [_analyze_response_node] records about a response. *)
Definition analysis_of (utcnow text : string) : Workflow.analysis :=
  {| Workflow.response_length := Z.of_nat (String.length text);
     Workflow.word_count := Z.of_nat (length (PyStr.split text));
     Workflow.timestamp := utcnow |}.

(** The model answers with assistant messages only. *)
Definition replies_are_ai (ainvoke : list Workflow.message → option Workflow.message)
  : Prop :=
  ∀ history r, ainvoke history = Some r → Interviews.is_ai r = true.

(** The most recent candidate message of a history. *)
Definition last_human (history : list Workflow.message) : option Workflow.message :=
  last (filter (λ m, Workflow.is_human m = true) history).

(** The message [_conduct_interview_node] appends in a state. *)
Definition question_asked (ainvoke : list Workflow.message → option Workflow.message)
    (state : Workflow.InterviewState) : Workflow.message :=
  match ainvoke (Workflow.system_message state :: Workflow.messages state) with
  | Some response => response
  | None => Workflow.apology
  end.

(** The entries [k] cycles starting at question [start] record for one
    and the same response. *)
Fixpoint record_answers (utcnow text : string) (start : Z) (k : nat)
    (results : gmap string Workflow.analysis) : gmap string Workflow.analysis :=
  match k with
  | O => results
  | S k' =>
      record_answers utcnow text (start + 1) k'
        (<[("question_" +:+ pretty start) := analysis_of utcnow text]> results)
  end.

(** A state as a stored session might hold it, mid-interview. *)
Definition stored_state : Workflow.InterviewState :=
  {| Workflow.messages := [Workflow.AIMessage "Tell me about yourself."];
     Workflow.user_id := 42;
     Workflow.session_id := 7;
     Workflow.interview_type := "general";
     Workflow.user_context := "User ID: 42, Interview Type: general";
     Workflow.current_question_count := 2;
     Workflow.max_questions := 5;
     Workflow.session_status := "active";
     Workflow.analysis_results := ∅ |}.

(** *** The context provider *)

(** The store after the attempt to delete a user's documents. *)
Definition after_delete {Store : Type} `{Rag.VectorStore Store}
    (store : Store) (user_id : Z) : Store :=
  match Rag.delete_where_user store user_id with
  | Ok store' => store'
  | Raise _ => store
  end.

(** The [type] a document is tagged with. *)
Definition document_type (doc : Rag.Document) : string :=
  match Rag.metadata doc !! "type" with
  | Some (VStr t) => t
  | _ => EmptyString
  end.

(** *** The score columns of a session *)

Definition all_scores (s : SessionScores.columns) : list (option Qc) :=
  [SessionScores.verbal_communication_score s; SessionScores.clarity_score s;
   SessionScores.confidence_score s; SessionScores.pace_score s;
   SessionScores.technical_accuracy_score s; SessionScores.problem_solving_score s;
   SessionScores.structure_score s; SessionScores.relevance_score s;
   SessionScores.star_method_score s; SessionScores.leadership_score s;
   SessionScores.teamwork_score s; SessionScores.eye_contact_score s;
   SessionScores.body_language_score s; SessionScores.engagement_score s].

(** Every score that is present satisfies [P]. *)
Definition each_present (P : Qc → Prop) (scores : list (option Qc)) : Prop :=
  Forall (λ o, ∀ x, o = Some x → P x) scores.

(** *** The rate limiter *)

(** The time stamps a limiter holds for a key. *)
Definition stamps_of (self : RateLimiter.InMemoryRateLimiter) (key : string)
  : list Z :=
  default [] (RateLimiter.requests self !! key).

(** The stamps that fall in the window ending at [now]. *)
Definition in_window (window_seconds now : Z) (stamps : list Z) : list Z :=
  filter (λ ts, (now - RateLimiter.seconds window_seconds < ts)%Z) stamps.

(** *** What an assessment leaves on the session row *)

(** Every listed entry of a score dictionary is the number [x]. *)
Definition all_equal (d : gmap string pyval) (keys : list string) (x : Qc) : Prop :=
  Forall (λ key, d !! key = Some (VNum x)) keys.

Definition communication_keys : list string :=
  ["verbal_communication_score"; "clarity_score"; "confidence_score"; "pace_score"].

Definition content_keys : list string :=
  ["technical_accuracy_score"; "problem_solving_score"; "structure_score";
   "relevance_score"].

(** No score from video analysis. *)
Definition no_video_scores (s : SessionScores.columns) : Prop :=
  SessionScores.eye_contact_score s = None
  ∧ SessionScores.body_language_score s = None
  ∧ SessionScores.engagement_score s = None.

(** A session row before its assessment, and the bundle of an assessment in
    which every pass fell back to its scores of 70. *)
Definition fresh_row : Persisted.row :=
  {| Persisted.overall_score := None;
     Persisted.scores :=
       {| SessionScores.verbal_communication_score := None;
          SessionScores.clarity_score := None;
          SessionScores.confidence_score := None;
          SessionScores.pace_score := None;
          SessionScores.technical_accuracy_score := None;
          SessionScores.problem_solving_score := None;
          SessionScores.structure_score := None;
          SessionScores.relevance_score := None;
          SessionScores.star_method_score := None;
          SessionScores.leadership_score := None;
          SessionScores.teamwork_score := None;
          SessionScores.eye_contact_score := None;
          SessionScores.body_language_score := None;
          SessionScores.engagement_score := None |};
     Persisted.strengths := VNone;
     Persisted.weaknesses := VNone;
     Persisted.improvements := VNone;
     Persisted.detailed_feedback := VNone;
     Persisted.recommended_topics := VNone;
     Persisted.next_steps := VNone |}.

Definition fallback_assessment : assessment :=
  {| overall_score := score 56;
     communication_scores := communication_fallback (speech_metrics []);
     content_scores := content_fallback;
     behavioral_scores := behavioral_not_applicable;
     feedback := feedback_fallback;
     assessed_at := noon |}.

End Notions.

(** * Properties of the assessment service *)

Import Models Assessment Spec.

Section Fillers.

Lemma app_cons a w rest : String a w +:+ rest = String a (w +:+ rest).
Proof. reflexivity. Qed.

Lemma strip_prefix_app w : ∀ s rest,
  PyStr.strip_prefix w s = Some rest → s = w +:+ rest.
Proof.
  induction w as [|a w IH]; intros s rest; simpl; [by intros [= ->]|].
  destruct s as [|b s]; [discriminate|].
  destruct (Ascii.eqb a b) eqn:E; [|discriminate].
  apply Ascii.eqb_eq in E as ->. intros Hs. rewrite app_cons. f_equal. by apply IH.
Qed.

Lemma strip_prefix_of_app w : ∀ rest, PyStr.strip_prefix w (w +:+ rest) = Some rest.
Proof.
  induction w as [|a w IH]; intros rest; [done|].
  rewrite app_cons. simpl. by rewrite Ascii.eqb_refl.
Qed.

Lemma app_length w rest : String.length (w +:+ rest) = String.length w + String.length rest.
Proof. induction w; [done|]. rewrite app_cons. simpl. by rewrite IHw. Qed.

Lemma lexicon_word_edges : Forall word_edges filler_alternatives.
Proof.
  unfold filler_alternatives.
  repeat constructor; try (eexists _, _; split; [reflexivity|reflexivity]).
Qed.

Lemma match_alternative_whole_word prev s w :
  word_edges w →
  match_alternative prev s w
  = if whole_word_here prev s w then Some (String.length w) else None.
Proof.
  intros [(a & w' & -> & Ha) Hlast].
  unfold match_alternative, whole_word_here.
  destruct (PyStr.strip_prefix (String a w') s) as [rest|] eqn:E.
  - apply strip_prefix_app in E as ->. rewrite app_cons.
    unfold word_boundary. rewrite (Hlast prev).
    cbn [PyStr.head is_word_at]. rewrite Ha.
    destruct (is_word_at prev), (is_word_at (PyStr.head rest)); reflexivity.
  - rewrite andb_false_r. by destruct (word_boundary _ _).
Qed.

Lemma match_first_whole_word prev s alts :
  Forall word_edges alts →
  match match_first prev s alts with
  | Some n => ∃ w rest, w ∈ alts ∧ s = w +:+ rest ∧ n = String.length w
                        ∧ w ≠ EmptyString
                        ∧ existsb (whole_word_here prev s) alts = true
  | None => existsb (whole_word_here prev s) alts = false
  end.
Proof.
  induction 1 as [|w alts Hw _ IH]; simpl; [done|].
  rewrite (match_alternative_whole_word _ _ _ Hw).
  destruct (whole_word_here prev s w) eqn:E; simpl.
  - unfold whole_word_here in E. apply andb_true_iff in E as [_ E].
    destruct (PyStr.strip_prefix w s) as [rest|] eqn:Hs; [|discriminate].
    exists w, rest. split_and!; [left|by apply strip_prefix_app|done| |done].
    destruct Hw as [(a & w' & -> & _) _]. done.
  - destruct (match_first prev s alts); [|done].
    destruct IH as (w0 & rest & ? & ? & ? & ? & ?).
    exists w0, rest. split_and!; [by right|done..].
Qed.

Lemma findall_skip w : ∀ rest prev,
  findall_from prev (w +:+ rest) (String.length w)
  = findall_from (last_char prev w) rest 0.
Proof.
  induction w as [|a w IH]; intros rest prev; [done|].
  rewrite app_cons. simpl. apply IH.
Qed.

Lemma findall_match w rest prev :
  w ≠ EmptyString →
  match_filler prev (w +:+ rest) = Some (String.length w) →
  findall_from prev (w +:+ rest) 0 = S (findall_from (last_char prev w) rest 0).
Proof.
  destruct w as [|a w]; [done|]. intros _ Hm.
  rewrite app_cons in *.
  cbn [findall_from]. rewrite Hm. f_equal.
  replace (String.length (String a w) - 1) with (String.length w)
    by (cbn [String.length]; lia).
  exact (findall_skip w rest (Some a)).
Qed.

(** No lexicon word starts as a whole word inside another one. *)
Lemma whole_word_fillers_match :
  Forall (λ w, ∀ prev rest,
            whole_word_fillers prev (w +:+ rest)
            = (if filler_here prev (w +:+ rest) then 1 else 0)
              + whole_word_fillers (last_char prev w) rest)
         filler_alternatives.
Proof.
  unfold filler_alternatives.
  repeat constructor; intros prev rest; vm_compute; reflexivity.
Qed.

Lemma findall_whole_words n : ∀ s prev,
  String.length s ≤ n →
  findall_from prev s 0 = whole_word_fillers prev s.
Proof.
  induction n as [n IH] using lt_wf_ind. intros s prev Hn.
  pose proof (match_first_whole_word prev s _ lexicon_word_edges) as Hm.
  fold (match_filler prev s) in Hm. fold (filler_here prev s) in Hm.
  destruct (match_filler prev s) as [k|] eqn:Ek.
  - destruct Hm as (w & rest & Hw & -> & -> & Hne & Hhere).
    rewrite (findall_match _ _ _ Hne Ek).
    pose proof whole_word_fillers_match as Hall.
    rewrite Forall_forall in Hall. rewrite (Hall w Hw prev rest), Hhere.
    simpl. f_equal.
    rewrite app_length in Hn.
    destruct w as [|a w]; [done|]. simpl in Hn.
    apply (IH (String.length rest)); lia.
  - destruct s as [|c s]; [done|].
    cbn [findall_from whole_word_fillers]. rewrite Ek, Hm. simpl.
    simpl in Hn. apply (IH (String.length s)); lia.
Qed.

End Fillers.

Section Strings.

Lemma startswith_char c a s :
  PyStr.startswith (String a s) (String c EmptyString) = Ascii.eqb c a.
Proof. unfold PyStr.startswith. simpl. by destruct (Ascii.eqb c a). Qed.

Lemma find_char_cons c a s :
  PyStr.find (String a s) (String c EmptyString)
  = if Ascii.eqb c a then 0%Z
    else let r := PyStr.find s (String c EmptyString) in
         if (r <? 0)%Z then (-1)%Z else (r + 1)%Z.
Proof. cbn [PyStr.find]. by rewrite startswith_char. Qed.

Lemma rfind_char_cons c a s :
  PyStr.rfind (String a s) (String c EmptyString)
  = let r := PyStr.rfind s (String c EmptyString) in
    if (0 <=? r)%Z then (r + 1)%Z
    else if Ascii.eqb c a then 0%Z else (-1)%Z.
Proof. cbn [PyStr.rfind]. by rewrite startswith_char. Qed.

Lemma find_absent c s :
  occurs c s = false → PyStr.find s (String c EmptyString) = (-1)%Z.
Proof.
  induction s as [|a s IH]; [done|]. simpl occurs. intros [Ha Hs]%orb_false_iff.
  rewrite find_char_cons, Ha. cbn zeta. by rewrite (IH Hs).
Qed.

Lemma rfind_absent c s :
  occurs c s = false → PyStr.rfind s (String c EmptyString) = (-1)%Z.
Proof.
  induction s as [|a s IH]; [done|]. simpl occurs. intros [Ha Hs]%orb_false_iff.
  rewrite rfind_char_cons, Ha. cbn zeta. by rewrite (IH Hs).
Qed.

Lemma find_first c pre rest :
  occurs c pre = false →
  PyStr.find (pre +:+ String c rest) (String c EmptyString)
  = Z.of_nat (String.length pre).
Proof.
  induction pre as [|a pre IH].
  - intros _. change (EmptyString +:+ String c rest) with (String c rest).
    by rewrite find_char_cons, Ascii.eqb_refl.
  - simpl occurs. intros [Ha Hs]%orb_false_iff.
    rewrite app_cons, find_char_cons, Ha. cbn zeta. rewrite (IH Hs).
    cbn [String.length]. 
    destruct (Z.ltb_spec (Z.of_nat (String.length pre)) 0); lia.
Qed.

Lemma rfind_nonneg_mono c s :
  (-1 <= PyStr.rfind s (String c EmptyString))%Z.
Proof.
  induction s as [|a s IH]; [done|]. rewrite rfind_char_cons. cbn zeta.
  destruct (Z.leb_spec 0 (PyStr.rfind s (String c EmptyString))); [lia|].
  destruct (Ascii.eqb c a); lia.
Qed.

Lemma rfind_last c pre post :
  occurs c post = false →
  PyStr.rfind (pre +:+ String c post) (String c EmptyString)
  = Z.of_nat (String.length pre).
Proof.
  intros Hpost. induction pre as [|a pre IH].
  - change (EmptyString +:+ String c post) with (String c post).
    rewrite rfind_char_cons, (rfind_absent _ _ Hpost). cbn zeta.
    by rewrite Ascii.eqb_refl.
  - rewrite app_cons, rfind_char_cons, IH. cbn zeta. cbn [String.length].
    destruct (Z.leb_spec 0 (Z.of_nat (String.length pre))); lia.
Qed.

Lemma substring_skip pre : ∀ n s,
  substring (String.length pre) n (pre +:+ s) = substring 0 n s.
Proof. induction pre as [|a pre IH]; intros n s; [done|]. rewrite app_cons. simpl. apply IH. Qed.

Lemma substring_prefix x : ∀ post,
  substring 0 (String.length x) (x +:+ post) = x.
Proof.
  induction x as [|a x IH]; intros post.
  - change (EmptyString +:+ post) with post. by destruct post.
  - rewrite app_cons. simpl. by rewrite IH.
Qed.

Lemma slice_middle pre x post :
  PyStr.slice (pre +:+ x +:+ post)
    (Z.of_nat (String.length pre))
    (Z.of_nat (String.length pre) + Z.of_nat (String.length x))
  = x.
Proof.
  unfold PyStr.slice, PyStr.clamp. rewrite !app_length.
  destruct (Z.ltb_spec (Z.of_nat (String.length pre)) 0); [lia|].
  destruct (Z.ltb_spec (Z.of_nat (String.length pre) + Z.of_nat (String.length x)) 0); [lia|].
  rewrite !Z.min_l by lia.
  replace (Z.to_nat (_ + _ - _)) with (String.length x) by lia.
  rewrite Nat2Z.id, substring_skip. apply substring_prefix.
Qed.
End Strings.

Section Candidate.
(** From the first opening brace to the last closing brace. *)
Lemma json_candidate_span pre mid post :
  occurs open_brace pre = false →
  occurs close_brace post = false →
  json_candidate (pre +:+ String open_brace (mid +:+ String close_brace post))
  = String open_brace (mid +:+ String close_brace EmptyString).
Proof.
  intros Hpre Hpost. unfold json_candidate.
  change "{" with (String open_brace EmptyString).
  change "}" with (String close_brace EmptyString).
  set (x := String open_brace (mid +:+ String close_brace EmptyString)).
  set (response := pre +:+ String open_brace (mid +:+ String close_brace post)).
  assert (response = (pre +:+ String open_brace mid) +:+ String close_brace post)
    as Hlast.
  { unfold response. clear. induction pre as [|a pre IH].
    - change (EmptyString +:+ ?s) with s. by rewrite app_cons.
    - rewrite !app_cons. by rewrite IH. }
  assert (response = pre +:+ x +:+ post) as Hmid.
  { unfold response, x. f_equal. rewrite app_cons. f_equal. clear.
    induction mid as [|a mid IH]; [done|]. by rewrite !app_cons, IH. }
  assert (PyStr.find response (String open_brace EmptyString)
          = Z.of_nat (String.length pre)) as ->
    by apply (find_first _ _ _ Hpre).
  assert (PyStr.rfind response (String close_brace EmptyString) + 1
          = Z.of_nat (String.length pre) + Z.of_nat (String.length x))%Z as ->.
  { rewrite Hlast, (rfind_last _ _ _ Hpost), app_length. unfold x.
    cbn [String.length]. rewrite app_length. cbn [String.length]. lia. }
  destruct (Z.leb_spec 0 (Z.of_nat (String.length pre))); [|lia].
  destruct (Z.ltb_spec (Z.of_nat (String.length pre))
              (Z.of_nat (String.length pre) + Z.of_nat (String.length x)));
    [|unfold x in *; cbn [String.length] in *; lia].
  cbn [andb]. rewrite Hmid. apply slice_middle.
Qed.

Lemma json_candidate_no_open response :
  occurs open_brace response = false → json_candidate response = response.
Proof.
  intros H. unfold json_candidate.
  change "{" with (String open_brace EmptyString).
  rewrite (find_absent _ _ H). done.
Qed.

End Candidate.

Section Metrics.

Lemma foldl_metrics turns : ∀ m,
  total_words (foldl metrics_step m turns) = (total_words m + spoken_words turns)%Z
  ∧ total_duration (foldl metrics_step m turns)
    = (total_duration m + recorded_seconds turns)%Qc.
Proof.
  induction turns as [|i turns IH]; intros m; simpl.
  - split; [lia|]. change (Py.num 0) with 0%Qc. ring.
  - destruct (IH (metrics_step m i)) as [-> ->]. split; simpl; [lia|].
    destruct (audio_duration_seconds i) as [d|]; simpl.
    + case_decide as Hd; [rewrite Hd|]; change (Py.num 0) with 0%Qc; ring.
    + change (Py.num 0) with 0%Qc; ring.
Qed.

Lemma speech_metrics_totals interactions :
  total_words (speech_metrics interactions)
  = spoken_words (candidate_interactions interactions)
  ∧ total_duration (speech_metrics interactions)
    = recorded_seconds (candidate_interactions interactions).
Proof.
  unfold speech_metrics.
  destruct (foldl_metrics (candidate_interactions interactions)
              {| total_words := 0; total_duration := Py.num 0; filler_words := 0 |})
    as [-> ->].
  simpl. split; [lia|]. change (Py.num 0) with 0%Qc; ring.
Qed.

Lemma Qc_compare_lt (x y : Qc) : (x ?= y)%Qc = Lt ↔ (x < y)%Qc.
Proof. unfold Qclt, Qccompare. symmetry. apply Qlt_alt. Qed.

Lemma role_label_speaker (r : MessageRole) : role_label r = speaker r.
Proof. by destruct r. Qed.

End Metrics.

Section Overall.

Lemma add_numbers a b x y :
  Py.as_number a = Some x → Py.as_number b = Some y →
  Py.add a b = Ok (VNum (x + y)).
Proof. intros Ha Hb. unfold Py.add. by rewrite Ha, Hb. Qed.

Lemma numeric_at_number d key :
  numeric_at d key →
  Py.as_number (Py.get d key (score 0)) = Some (number_at d key).
Proof. intros [x Hx]. unfold number_at. by rewrite Hx. Qed.

Lemma num_nonzero z : z ≠ 0%Z → Py.num z ≠ Py.num 0.
Proof.
  intros Hz Heq. apply Q2Qc_eq_iff in Heq.
  unfold Qeq in Heq. simpl in Heq. lia.
Qed.

Lemma overall_score_formula communication content behavioral :
  communication_numeric communication →
  content_numeric content →
  (behavioral_present behavioral = true → behavioral_numeric behavioral) →
  calculate_overall_score communication content behavioral
  = Ok (VNum (Py.round2_num (weighted_overall communication content behavioral))).
Proof.
  intros (Hc1 & Hc2 & Hc3) (Ht1 & Ht2 & Ht3 & Ht4) Hb.
  apply numeric_at_number in Hc1, Hc2, Hc3, Ht1, Ht2, Ht3, Ht4.
  unfold calculate_overall_score, weighted_overall, Py.sum,
    Py.add, Py.div_lit, Py.mul_float, Py.round2.
  fold (behavioral_present behavioral).
  repeat (progress (rewrite ?Hc1, ?Hc2, ?Hc3, ?Ht1, ?Ht2, ?Ht3, ?Ht4;
                    cbn [mbind result_bind Py.as_number])).
  assert (H3 := num_nonzero 3 ltac:(done)).
  assert (H4 := num_nonzero 4 ltac:(done)).
  unfold communication_mean, content_mean, behavioral_mean, mean,
    weight_communication, weight_content, weight_behavioral.
  cbn [foldr length Z.of_nat Pos.of_succ_nat Pos.succ].
  destruct (behavioral_present behavioral) eqn:Hp.
  - destruct (Hb eq_refl) as (Hb1 & Hb2 & Hb3).
    apply numeric_at_number in Hb1, Hb2, Hb3.
    repeat (progress (rewrite ?Hb1, ?Hb2, ?Hb3;
                      cbn [mbind result_bind Py.as_number app Py.sum_from];
                      unfold Py.add)).
    do 2 f_equal. change (Py.num 0) with 0%Qc in *. change (Z.of_nat 3) with 3%Z. change (Z.of_nat 4) with 4%Z.
    apply (f_equal Py.round2_num). field. done.
  - cbn [mbind result_bind Py.as_number app Py.sum_from]. unfold Py.add.
    cbn [mbind result_bind Py.as_number app Py.sum_from].
    do 2 f_equal. change (Py.num 0) with 0%Qc in *. change (Z.of_nat 3) with 3%Z. change (Z.of_nat 4) with 4%Z.
    apply (f_equal Py.round2_num). field. done.
Qed.
End Overall.

Section Passes.
Context (ainvoke : prompt → option string) (json_loads : string → option pyval).

Local Abbreviation parse := (parse_json_response json_loads).

Ltac run_pass :=
  unfold assess_communication, assess_content, assess_behavioral,
    generate_overall_feedback, try_except, call_llm, lift, mbind, M_bind,
    mret, M_ret; cbn beta.

Lemma seventy_mean : ((Py.num 70 + Py.num 70) / Py.num 2)%Qc = Py.num 70.
Proof. apply Qc_is_canon. reflexivity. Qed.

Lemma parse_unusable response :
  json_loads (json_candidate response) = None → parse response = VDict ∅.
Proof. intros H. unfold parse_json_response. by rewrite H. Qed.

(** Each pass sends exactly its own request and never raises. *)
Lemma assess_content_run transcript ty sent :
  ∃ d, assess_content ainvoke json_loads transcript ty sent
       = (Ok d, sent ++ [ContentPrompt ty transcript]).
Proof.
  run_pass.
  destruct (ainvoke (ContentPrompt ty transcript)) as [response|]; cbn;
    [destruct (parse response); cbn|]; by eexists.
Qed.

Lemma assess_content_unusable transcript ty sent :
  unusable ainvoke json_loads (ContentPrompt ty transcript) →
  assess_content ainvoke json_loads transcript ty sent
  = (Ok content_fallback, sent ++ [ContentPrompt ty transcript]).
Proof.
  unfold unusable. run_pass.
  destruct (ainvoke (ContentPrompt ty transcript)) as [response|]; [|done].
  intros Hu. by rewrite (parse_unusable _ Hu).
Qed.

Lemma assess_communication_run transcript interactions sent :
  ∃ d, assess_communication ainvoke json_loads transcript interactions sent
       = (Ok d, sent ++ [communication_request transcript interactions]).
Proof.
  run_pass. unfold communication_request.
  match goal with |- context [ainvoke ?p] => destruct (ainvoke p) as [response|] end;
    cbn; [|by eexists].
  destruct (parse response); cbn; try by eexists.
  destruct (Py.add _ _) as [both|]; cbn; [|by eexists].
  destruct (Py.div_lit both (Py.num 2)); cbn; by eexists.
Qed.

Lemma assess_communication_unusable transcript interactions sent :
  unusable ainvoke json_loads (communication_request transcript interactions) →
  assess_communication ainvoke json_loads transcript interactions sent
  = (Ok (communication_fallback (speech_metrics interactions)),
     sent ++ [communication_request transcript interactions]).
Proof.
  unfold unusable, communication_request. run_pass.
  match goal with |- context [ainvoke ?p] => destruct (ainvoke p) as [response|] end;
    [|done].
  intros Hu. rewrite (parse_unusable _ Hu).
  cbn [Py.get_attr mbind result_bind]. unfold Py.get. rewrite !lookup_empty.
  unfold Py.add, Py.div_lit, score. cbn [mbind result_bind Py.as_number].
  by rewrite seventy_mean.
Qed.

Lemma assess_behavioral_run transcript ty sent :
  ∃ d, assess_behavioral ainvoke json_loads transcript ty sent
       = (Ok d, if decide (PyStr.lower ty = "behavioral")
                then sent ++ [BehavioralPrompt transcript] else sent).
Proof.
  run_pass.
  destruct (decide (PyStr.lower ty ≠ "behavioral")) as [Hne|Heq].
  - rewrite decide_False by done. by eexists.
  - apply dec_stable in Heq. rewrite decide_True by done.
    destruct (ainvoke (BehavioralPrompt transcript)) as [response|]; cbn;
      [destruct (parse response); cbn|]; by eexists.
Qed.

Lemma assess_behavioral_skipped transcript ty sent :
  PyStr.lower ty ≠ "behavioral" →
  assess_behavioral ainvoke json_loads transcript ty sent
  = (Ok behavioral_not_applicable, sent).
Proof. intros Hne. run_pass. by rewrite decide_True. Qed.

Lemma assess_behavioral_unusable transcript ty sent :
  PyStr.lower ty = "behavioral" →
  unusable ainvoke json_loads (BehavioralPrompt transcript) →
  assess_behavioral ainvoke json_loads transcript ty sent
  = (Ok behavioral_fallback, sent ++ [BehavioralPrompt transcript]).
Proof.
  intros Heq. unfold unusable. run_pass.
  rewrite decide_False by (by intros ?).
  destruct (ainvoke (BehavioralPrompt transcript)) as [response|]; [|done].
  intros Hu. by rewrite (parse_unusable _ Hu).
Qed.

Lemma generate_overall_feedback_run transcript ty communication content behavioral sent :
  ∃ d summary, generate_overall_feedback ainvoke json_loads transcript ty
           communication content behavioral sent
         = (Ok d, sent ++ [FeedbackPrompt ty summary transcript]).
Proof.
  run_pass.
  match goal with |- context [ainvoke ?p] => destruct (ainvoke p) as [response|] end; cbn.
  - destruct (parse response) as [| | | | |scores]; cbn; eauto.
  - eauto.
Qed.
End Passes.

Section Session.
Context (json_loads : string → option pyval) (utcnow : string).

Local Abbreviation parse := (parse_json_response json_loads).

Ltac run_pass :=
  unfold assess_communication, assess_content, assess_behavioral,
    generate_overall_feedback, try_except, call_llm, lift, mbind, M_bind,
    mret, M_ret; cbn beta.

(** The scores of a pass depend on the model's reply to its own request only. *)
Lemma assess_content_reply ainvoke ainvoke' transcript ty sent sent' :
  ainvoke' (ContentPrompt ty transcript) = ainvoke (ContentPrompt ty transcript) →
  (assess_content ainvoke' json_loads transcript ty sent').1
  = (assess_content ainvoke json_loads transcript ty sent).1.
Proof.
  run_pass. intros ->.
  destruct (ainvoke (ContentPrompt ty transcript)) as [response|]; cbn; [|done].
  by destruct (parse response).
Qed.

Lemma assess_communication_reply ainvoke ainvoke' transcript interactions sent sent' :
  ainvoke' (communication_request transcript interactions)
  = ainvoke (communication_request transcript interactions) →
  (assess_communication ainvoke' json_loads transcript interactions sent').1
  = (assess_communication ainvoke json_loads transcript interactions sent).1.
Proof.
  unfold communication_request. run_pass. intros ->.
  match goal with |- context [ainvoke ?p] => destruct (ainvoke p) as [response|] end;
    cbn; [|done].
  destruct (parse response); cbn; try done.
  destruct (Py.add _ _) as [both|]; cbn; [|done].
  by destruct (Py.div_lit both (Py.num 2)).
Qed.

Lemma assess_behavioral_reply ainvoke ainvoke' transcript ty sent sent' :
  ainvoke' (BehavioralPrompt transcript) = ainvoke (BehavioralPrompt transcript) →
  (assess_behavioral ainvoke' json_loads transcript ty sent').1
  = (assess_behavioral ainvoke json_loads transcript ty sent).1.
Proof.
  run_pass. intros ->. case_decide; [done|].
  destruct (ainvoke (BehavioralPrompt transcript)) as [response|]; cbn; [|done].
  by destruct (parse response).
Qed.

Lemma alone_reply ainvoke ainvoke' db sid session which :
  ainvoke' (request db sid session which) = ainvoke (request db sid session which) →
  alone ainvoke' json_loads db sid session which
  = alone ainvoke json_loads db sid session which.
Proof.
  destruct which; unfold alone, request; intros Heq.
  - by apply assess_communication_reply.
  - by apply assess_content_reply.
  - by apply assess_behavioral_reply.
Qed.

Lemma session_run ainvoke db sid session :
  db_sessions db !! sid = Some session →
  ∃ communication content behavioral overall_feedback summary,
    alone ainvoke json_loads db sid session CommunicationPass = Ok communication
    ∧ alone ainvoke json_loads db sid session ContentPass = Ok content
    ∧ alone ainvoke json_loads db sid session BehavioralPass = Ok behavioral
    ∧ assess_interview_session ainvoke json_loads utcnow db sid []
      = (match calculate_overall_score communication content behavioral with
         | Ok overall =>
             Ok {| overall_score := overall;
                   communication_scores := communication;
                   content_scores := content;
                   behavioral_scores := behavioral;
                   feedback := overall_feedback;
                   assessed_at := utcnow |}
         | Raise e => Raise e
         end,
         requests_of_run db sid session summary).
Proof.
  intros Hs. unfold assess_interview_session. rewrite Hs.
  fold (session_interactions db sid). fold (session_transcript db sid).
  set (transcript := session_transcript db sid).
  set (interactions := session_interactions db sid).
  set (ty := interview_type session).
  destruct (assess_communication_run ainvoke json_loads transcript interactions [])
    as [communication Hc].
  destruct (assess_content_run ainvoke json_loads transcript ty
              ([] ++ [communication_request transcript interactions]))
    as [content Ht].
  destruct (assess_behavioral_run ainvoke json_loads transcript ty
              (([] ++ [communication_request transcript interactions])
               ++ [ContentPrompt ty transcript]))
    as [behavioral Hb].
  set (sent3 := if decide (PyStr.lower ty = "behavioral") then _ else _) in Hb.
  destruct (generate_overall_feedback_run ainvoke json_loads transcript ty
              communication content behavioral sent3)
    as (overall_feedback & summary & Hf).
  exists communication, content, behavioral, overall_feedback, summary.
  split_and!.
  - unfold alone. fold transcript interactions. by rewrite Hc.
  - unfold alone. fold transcript ty.
    by rewrite (assess_content_reply ainvoke ainvoke transcript ty
                  ([] ++ [communication_request transcript interactions]) []
                  eq_refl), Ht.
  - unfold alone. fold transcript ty.
    by rewrite (assess_behavioral_reply ainvoke ainvoke transcript ty
                  (([] ++ [communication_request transcript interactions])
                   ++ [ContentPrompt ty transcript]) []
                  eq_refl), Hb.
  - unfold mbind at 1. unfold M_bind at 1. rewrite Hc.
    unfold mbind at 1. unfold M_bind at 1. rewrite Ht.
    unfold mbind at 1. unfold M_bind at 1. rewrite Hb.
    unfold mbind at 1. unfold M_bind at 1. rewrite Hf.
    unfold mbind, M_bind, lift, mret, M_ret.
    assert (sent3 ++ [FeedbackPrompt ty summary transcript]
            = requests_of_run db sid session summary) as ->.
    { unfold sent3, requests_of_run, request. fold transcript interactions ty.
      case_decide; by simplify_list_eq. }
    by destruct (calculate_overall_score communication content behavioral).
Qed.

End Session.

(** ** The claims about the assessment service *)

Section AssessmentClaims.
Context (ainvoke : prompt → option string) (json_loads : string → option pyval)
        (utcnow : string).

Ltac run_pass :=
  unfold assess_communication, assess_content, assess_behavioral,
    generate_overall_feedback, try_except, call_llm, lift, mbind, M_bind,
    mret, M_ret; cbn beta.

Lemma generate_overall_feedback_unparseable transcript ty communication content
    behavioral sent response :
  (∀ p, ainvoke p = Some response) →
  json_loads (json_candidate response) = None →
  (generate_overall_feedback ainvoke json_loads transcript ty
     communication content behavioral sent).1 = Ok feedback_empty.
Proof.
  intros Hreply Hu. run_pass. rewrite Hreply.
  by rewrite (parse_unusable _ _ Hu).
Qed.




Lemma fallback_real_scores (which : pass) (m : metrics) :
  real_scores which
    match which with
    | CommunicationPass => communication_fallback m
    | ContentPass => content_fallback
    | BehavioralPass => behavioral_fallback
    end.
Proof. destruct which; [| |intros _]; repeat split; by eexists. Qed.

Lemma fallback_scores (which : pass) (m : metrics) (key : string) :
  key ∈ score_fields which →
  match which with
  | CommunicationPass => communication_fallback m
  | ContentPass => content_fallback
  | BehavioralPass => behavioral_fallback
  end !! key = Some (score 70).
Proof.
  intros Hkey. destruct which; cbn in Hkey;
    repeat (apply elem_of_cons in Hkey as [->|Hkey]; [done|]);
    by apply elem_of_nil in Hkey.
Qed.

Lemma alone_unusable db sid session which :
  executed session which →
  unusable ainvoke json_loads (request db sid session which) →
  alone ainvoke json_loads db sid session which
  = Ok match which with
       | CommunicationPass =>
           communication_fallback (speech_metrics (session_interactions db sid))
       | ContentPass => content_fallback
       | BehavioralPass => behavioral_fallback
       end.
Proof.
  destruct which; unfold alone, request, executed; intros Hex Hu.
  - by rewrite (assess_communication_unusable _ _ _ _ _ Hu).
  - by rewrite (assess_content_unusable _ _ _ _ _ Hu).
  - by rewrite (assess_behavioral_unusable _ _ _ _ _ Hex Hu).
Qed.


Lemma lower_upper_char c : PyStr.lower_char (PyStr.upper_char c) = PyStr.lower_char c.
Proof. by destruct c as [[] [] [] [] [] [] [] []]. Qed.

Lemma lower_lower_char c : PyStr.lower_char (PyStr.lower_char c) = PyStr.lower_char c.
Proof. by destruct c as [[] [] [] [] [] [] [] []]. Qed.

Lemma lower_upper s : PyStr.lower (PyStr.upper s) = PyStr.lower s.
Proof. induction s as [|c s IH]; [done|]. cbn. by rewrite lower_upper_char, IH. Qed.

Lemma lower_lower s : PyStr.lower (PyStr.lower s) = PyStr.lower s.
Proof. induction s as [|c s IH]; [done|]. cbn. by rewrite lower_lower_char, IH. Qed.



(** C10. [_build_transcript] renders one line per interaction, the label,
    a colon and the content; the label is "Interviewer" exactly for the
    role [ASSISTANT] and "Candidate" for each of [USER], [SYSTEM] and
    [TOOL].  Every request an assessment sends to the model carries the
    transcript built this way from all interactions of the session. *)
Theorem transcript_labels :
  (∀ interactions,
     build_transcript interactions
     = PyStr.join (PyStr.newline +:+ PyStr.newline)
         ((λ i, speaker (role i) +:+ ": " +:+ content i) <$> interactions))
  ∧ (∀ r, role_label r = "Interviewer" ↔ r = ASSISTANT)
  ∧ role_label USER = "Candidate"
  ∧ role_label SYSTEM = "Candidate"
  ∧ role_label TOOL = "Candidate"
  ∧ (∀ db sid session p,
       db_sessions db !! sid = Some session →
       p ∈ (assess_interview_session ainvoke json_loads utcnow db sid []).2 →
       prompt_transcript p = build_transcript (session_interactions db sid)).
Proof.
  split_and!; try done.
  - intros interactions. unfold build_transcript. f_equal. apply map_ext. intros i.
    unfold transcript_line. by rewrite role_label_speaker.
  - intros []; unfold role_label; simpl; split; done.
  - intros db sid session p Hs.
    destruct (session_run json_loads utcnow ainvoke db sid session Hs)
      as (c & t & b & f & summary & _ & _ & _ & ->).
    cbn [snd]. unfold requests_of_run, request, communication_request.
    intros Hin. case_decide; cbn in Hin;
      repeat (apply elem_of_cons in Hin as [->|Hin]; [done|]);
      by apply elem_of_nil in Hin.
Qed.

End AssessmentClaims.

(** ** Instances on sample data *)

Section Samples.

Ltac run_pass :=
  unfold assess_communication, assess_content, assess_behavioral,
    generate_overall_feedback, try_except, call_llm, lift, mbind, M_bind,
    mret, M_ret; cbn beta.

(** The communication scores are numbers as soon as the payload's are. *)
Lemma communication_scores_numeric ainvoke json_loads transcript interactions sent d :
  (assess_communication ainvoke json_loads transcript interactions sent).1 = Ok d →
  (∀ response scores key,
     ainvoke (communication_request transcript interactions) = Some response →
     parse_json_response json_loads response = VDict scores →
     is_Some (Py.as_number (Py.get scores key (score 70)))) →
  communication_numeric d.
Proof.
  unfold communication_request. run_pass. intros Hd Hnum.
  match type of Hd with context [ainvoke ?p] =>
    destruct (ainvoke p) as [response|] eqn:Hr end; cbn in Hd;
    [|injection Hd as <-; repeat split; by eexists].
  destruct (parse_json_response json_loads response) as [| | | | |scores] eqn:Hp;
    cbn in Hd; try (injection Hd as <-; repeat split; by eexists).
  destruct (Py.add _ _) as [both|]; cbn in Hd;
    [|injection Hd as <-; repeat split; by eexists].
  destruct (Py.div_lit both (Py.num 2)); cbn in Hd;
    injection Hd as <-; repeat split; try (by eexists).
  all: by apply (Hnum response scores).
Qed.


Lemma sample_parse :
  parse_json_response sample_decoder
    ("Here are the scores: " +:+ sample_payload +:+ " Good luck!")
  = VDict {[ "clarity" := score 80 ]}.
Proof. reflexivity. Qed.



Example overall_score_not_renormalised :
  calculate_overall_score full_marks_communication full_marks_content
    behavioral_not_applicable = Ok (score 80)
  ∧ calculate_overall_score sample_communication sample_content behavioral_fallback
    = Ok (VNum (Py.ratio 7562 100)).
Proof.
  split; vm_compute;
    first [reflexivity | do 2 f_equal; apply Qc_is_canon; reflexivity].
Qed.



(** With a reply that does not decode, the feedback step returns empty
    fields, not the generic bundle. *)
Example feedback_unparseable_is_empty :
  (generate_overall_feedback chatty_model rejecting_decoder
     (session_transcript sample_db 1) "Technical"
     sample_communication sample_content behavioral_not_applicable []).1
  = Ok feedback_empty
  ∧ feedback_empty !! "strengths" = Some (VList [])
  ∧ feedback_fallback !! "strengths"
    = Some (strings ["Completed the interview"; "Engaged with questions"]).
Proof. split_and!; reflexivity. Qed.

End Samples.

(** * Properties of the interview workflow *)

Section WorkflowClaims.
Import Workflow.
Context (ainvoke : list message → option message) (utcnow : string).

Local Abbreviation conduct := (conduct_interview_node ainvoke).
Local Abbreviation analyze := (analyze_response_node utcnow).
Local Abbreviation one_cycle := (cycle ainvoke utcnow).
Local Abbreviation n_cycles := (cycles ainvoke utcnow).
Local Abbreviation run_graph := (run ainvoke utcnow).
Local Abbreviation invoke := (invoke_from ainvoke utcnow).

(** C6. [_conduct_interview_node] appends exactly one message to the
    history it is given and changes nothing else: the earlier messages stay
    in place, in order, as a prefix.  The appended message is the model's
    reply, or the fixed apology when the model call raises; the question
    count, the maximum, the status and the analysis results are unchanged. *)
Theorem conduct_interview_appends (state : InterviewState) :
  ∃ reply,
    messages (conduct state) = messages state ++ [reply]
    ∧ messages state `prefix_of` messages (conduct state)
    ∧ reply = match ainvoke (system_message state :: messages state) with
              | Some response => response
              | None => apology
              end
    ∧ apology = AIMessage "I apologize, but I encountered an error. Let's continue."
    ∧ current_question_count (conduct state) = current_question_count state
    ∧ max_questions (conduct state) = max_questions state
    ∧ session_status (conduct state) = session_status state
    ∧ analysis_results (conduct state) = analysis_results state
    ∧ user_context (conduct state) = user_context state
    ∧ interview_type (conduct state) = interview_type state.
Proof.
  unfold conduct_interview_node.
  destruct (ainvoke (system_message state :: messages state)) as [response|];
    eexists; (split; [reflexivity|]); (split; [by eexists|]); done.
Qed.

Lemma conduct_frame state :
  current_question_count (conduct state) = current_question_count state
  ∧ max_questions (conduct state) = max_questions state
  ∧ session_status (conduct state) = session_status state.
Proof. unfold conduct_interview_node. by destruct (ainvoke _). Qed.

Lemma analyze_frame state :
  current_question_count (analyze state) = current_question_count state
  ∧ max_questions (analyze state) = max_questions state
  ∧ session_status (analyze state) = session_status state.
Proof. unfold analyze_response_node. by destruct (last _). Qed.

Lemma cycle_effect state :
  current_question_count (one_cycle state) = (current_question_count state + 1)%Z
  ∧ max_questions (one_cycle state) = max_questions state
  ∧ session_status (one_cycle state)
    = if (max_questions state <=? current_question_count state + 1)%Z
      then "completed" else session_status state.
Proof.
  unfold cycle. cbn [check_completion_node current_question_count max_questions
                     session_status].
  destruct (analyze_frame (conduct state)) as (-> & -> & ->).
  by destruct (conduct_frame state) as (-> & -> & ->).
Qed.

Lemma cycles_effect k : ∀ state,
  current_question_count (n_cycles k state)
  = (current_question_count state + Z.of_nat k)%Z
  ∧ max_questions (n_cycles k state) = max_questions state
  ∧ (session_status (n_cycles k state) = "completed"
     ↔ session_status state = "completed"
       ∨ (0 < Z.of_nat k
          ∧ max_questions state ≤ current_question_count state + Z.of_nat k)%Z).
Proof.
  induction k as [|k IH]; intros state.
  - cbn [cycles]. split_and!; [lia|done|]. split; [by left|]. intros [?|[? _]]; [done|lia].
  - cbn [cycles]. destruct (IH (one_cycle state)) as (-> & -> & ->).
    destruct (cycle_effect state) as (-> & -> & ->).
    split_and!; [lia|done|].
    destruct (Z.leb_spec (max_questions state) (current_question_count state + 1));
      split; intros Hc; try lia; try (by left);
      (destruct Hc as [Hc|Hc]; [by left|right; lia]).
Qed.

Lemma run_plus a : ∀ b n state,
  run_graph (a + b) n state
  = let '(n', state') := run_graph a n state in run_graph b n' state'.
Proof.
  induction a as [|a IH]; intros b n state; [done|].
  cbn [Nat.add run]. destruct (step ainvoke utcnow n state) as [n' state'].
  apply IH.
Qed.

Lemma run_cycle state :
  run_graph 3 conduct_interview state
  = (if decide (session_status (one_cycle state) = "completed")
     then generate_feedback else conduct_interview,
     one_cycle state).
Proof.
  cbn [run step]. fold (one_cycle state). unfold should_continue.
  by case_decide.
Qed.

Lemma run_cycles k : ∀ state,
  session_status state ≠ "completed" →
  (current_question_count state + Z.of_nat k ≤ max_questions state)%Z →
  run_graph (3 * k) conduct_interview state
  = (if decide (0 < Z.of_nat k
                ∧ current_question_count state + Z.of_nat k = max_questions state)%Z
     then generate_feedback else conduct_interview,
     n_cycles k state).
Proof.
  induction k as [|k IH]; intros state Hactive Hle.
  - cbn. rewrite decide_False by lia. done.
  - replace (3 * S k) with (3 + 3 * k) by lia.
    rewrite run_plus, run_cycle. cbn [cycles].
    destruct (cycle_effect state) as (Hcount & Hmax & Hstatus).
    destruct (Z.leb_spec (max_questions state) (current_question_count state + 1))
      as [Hdone|Hmore].
    + assert (k = 0) as -> by lia.
      rewrite decide_True by by rewrite Hstatus.
      cbn. rewrite decide_True by lia. done.
    + rewrite decide_False by by rewrite Hstatus.
      rewrite IH; [|by rewrite Hstatus|rewrite Hcount, Hmax; lia].
      rewrite Hcount, Hmax. f_equal.
      apply decide_ext. lia.
Qed.

Lemma invoke_run fuel : ∀ n state state',
  run_graph fuel n state = (END, state') →
  invoke fuel n state = Some state'.
Proof.
  induction fuel as [|fuel IH]; intros n state state'.
  - cbn. intros [= -> ->]. done.
  - cbn [run invoke_from]. destruct n; try (destruct (step _ _ _ _) as [n' s']; apply IH).
    cbn [step]. clear IH. intros Hrun.
    assert (∀ k s, run_graph k END s = (END, s)) as Hend.
    { clear. induction k as [|k IHk]; intros s; [done|]. cbn [run step]. apply IHk. }
    rewrite Hend in Hrun. by injection Hrun as ->.
Qed.

(** The workflow as compiled: whatever state it is invoked on, it runs
    [prepare_context], five cycles and [generate_feedback], and stops. *)
Corollary workflow_five_cycles (state : InterviewState) :
  invoke 17 prepare_context state
  = Some (generate_feedback_node ainvoke (n_cycles 5 (prepare_context_node state)))
  ∧ current_question_count (n_cycles 5 (prepare_context_node state)) = 5%Z.
Proof.
  split.
  - apply invoke_run. change 17 with (1 + (3 * 5 + 1)).
    rewrite run_plus. cbn [run step]. rewrite run_plus.
    rewrite run_cycles; [|done|cbn; lia].
    rewrite decide_True by (cbn; lia). done.
  - by destruct (cycles_effect 5 (prepare_context_node state)) as (-> & _ & _).
Qed.

(** C2. From a state with question count 0, a maximum [m] of at least one
    question and a status other than "completed", every conduct / analyze /
    check cycle adds exactly 1 to the question count; after [k] cycles
    ([k] at most [m]) the count is [k], and the edge taken after the check
    leads to [generate_feedback] exactly when [k] is [m] and back to
    [conduct_interview] before; so the graph reaches [END] after [m] cycles
    and the feedback step, and not earlier.  The workflow itself always
    starts its loop in such a state, with [m] equal to 5: from any state it is
    invoked on it stops after [prepare_context], five cycles and
    [generate_feedback]. *)
Theorem interview_loop_bounded (state : InterviewState) (m : Z) :
  current_question_count state = 0%Z →
  max_questions state = m →
  session_status state ≠ "completed" →
  (1 ≤ m)%Z →
  (∀ s, current_question_count (one_cycle s) = (current_question_count s + 1)%Z)
  ∧ (∀ k : nat,
       (1 ≤ Z.of_nat k ≤ m)%Z →
       current_question_count (n_cycles k state) = Z.of_nat k
       ∧ run_graph (3 * k) conduct_interview state
         = (if decide (Z.of_nat k = m) then generate_feedback else conduct_interview,
            n_cycles k state))
  ∧ invoke (3 * Z.to_nat m + 1) conduct_interview state
    = Some (generate_feedback_node ainvoke (n_cycles (Z.to_nat m) state))
  ∧ (∀ fuel, fuel < 3 * Z.to_nat m + 1 → invoke fuel conduct_interview state = None)
  ∧ (∀ initial,
       current_question_count (prepare_context_node initial) = 0%Z
       ∧ max_questions (prepare_context_node initial) = 5%Z
       ∧ session_status (prepare_context_node initial) = "active"
       ∧ invoke 17 prepare_context initial
         = Some (generate_feedback_node ainvoke
                   (n_cycles 5 (prepare_context_node initial)))
       ∧ current_question_count (n_cycles 5 (prepare_context_node initial)) = 5%Z).
Proof.
  intros Hcount Hmax Hactive Hm. split_and!;
    [| | | |intros initial; split_and!; [done..| |];
            by destruct (workflow_five_cycles initial)].
  - intros s. by destruct (cycle_effect s) as [-> _].
  - intros k Hk. destruct (cycles_effect k state) as (-> & _ & _).
    split; [lia|]. rewrite run_cycles; [|done|rewrite Hcount, Hmax; lia].
    rewrite Hcount, Hmax. f_equal. apply decide_ext. lia.
  - apply invoke_run. rewrite run_plus.
    rewrite run_cycles; [|done|rewrite Hcount, Hmax; lia].
    rewrite decide_True by (rewrite Hcount, Hmax; lia). done.
  - intros fuel Hfuel.
    assert (∀ f n s, (∀ j, j ≤ f → (run_graph j n s).1 ≠ END) → invoke f n s = None)
      as Hnone.
    { clear. induction f as [|f IH]; intros n s Hrun.
      - specialize (Hrun 0 ltac:(lia)). cbn in *. by destruct n.
      - pose proof (Hrun 0 ltac:(lia)) as H0. cbn in H0.
        cbn [invoke_from]. destruct n; try done;
          (destruct (step _ _ _ _) as [n' s'] eqn:Hstep; apply IH; intros j Hj;
           specialize (Hrun (S j) ltac:(lia)); cbn [run] in Hrun;
           by rewrite Hstep in Hrun). }
    apply Hnone. intros j Hj.
    (* position [j] lies inside cycle number [j / 3] *)
    assert (∃ q r, j = 3 * q + r ∧ r < 3 ∧ q < Z.to_nat m ∨
                   j = 3 * q + r ∧ r = 0 ∧ q = Z.to_nat m) as (q & r & Hqr).
    { exists (j / 3), (j mod 3).
      pose proof (Nat.div_mod_eq j 3). pose proof (Nat.mod_upper_bound j 3).
      destruct (decide (j / 3 < Z.to_nat m)); [left|right]; lia. }
    assert (run_graph (3 * q) conduct_interview state
            = (if decide (Z.of_nat q = m) then generate_feedback else conduct_interview,
               n_cycles q state)) as Hq.
    { rewrite run_cycles; [|done|rewrite Hcount, Hmax; lia].
      rewrite Hcount, Hmax. f_equal. apply decide_ext. lia. }
    destruct Hqr as [(-> & Hr & Hlt)|(-> & -> & ->)].
    + rewrite run_plus, Hq. rewrite decide_False by lia.
      destruct r as [|[|[|r]]]; [done|done| |lia].
      cbn [run step fst]. done.
    + rewrite Nat.add_0_r, Hq. by case_decide.
Qed.

End WorkflowClaims.

(** * Properties of the context provider *)

Section RagClaims.
Import Rag.

Lemma append_nonempty (a : ascii) (s t : string) : String a s +:+ t ≠ EmptyString.
Proof. done. Qed.

Lemma personalized_prompt_nonempty ty context :
  personalized_prompt ty context ≠ EmptyString.
Proof. unfold personalized_prompt. apply append_nonempty. Qed.

Lemma retrieve_failure {Store : Type} `{VectorStore Store} (store : Store) user_id query k :
  (∀ q, ∃ e, similarity_search store q k user_id = Raise e) →
  retrieve_user_context store user_id query k = [].
Proof.
  intros Hfail. unfold retrieve_user_context.
  destruct (truthy_str query) as [q|].
  - by destruct (Hfail q) as [e ->].
  - by destruct (Hfail "user profile interview history") as [e ->].
Qed.

Lemma retrieve_nothing {Store : Type} `{VectorStore Store} (store : Store) user_id query k :
  (∀ q, similarity_search store q k user_id = Ok []) →
  retrieve_user_context store user_id query k = [].
Proof.
  intros Hnone. unfold retrieve_user_context.
  destruct (truthy_str query) as [q|]; by rewrite Hnone.
Qed.

(** What [POST /profile/index] leaves in the store for a user with no
    profile and no past session: the basic-information document. *)
Lemma new_user_store_contents :
  profiles new_user_db !! 7%Z = None
  ∧ filter (λ s, session_user_id s = 7%Z) (sessions new_user_db) = []
  ∧ new_user_store = [basic_info_document noon 7 new_user]
  ∧ content <$> retrieve_user_context new_user_store 7 None 5
    = [page_content (basic_info_document noon 7 new_user)].
Proof. split_and!; reflexivity. Qed.



End RagClaims.

Lemma interview_loop_bounded_witness :
  let ainvoke := sample_interviewer in
  let state :=
    Workflow.prepare_context_node
      (Workflow.initial_state 42 7 "general" (Some "Hello, I am ready.")) in
  Workflow.current_question_count state = 0%Z
  ∧ Workflow.max_questions state = 5%Z
  ∧ Workflow.session_status state ≠ "completed"
  ∧ (1 ≤ 5)%Z
  ∧ Workflow.current_question_count (Workflow.cycles ainvoke noon 5 state) = 5%Z
  ∧ Workflow.run ainvoke noon 12 Workflow.conduct_interview state
    = (Workflow.conduct_interview, Workflow.cycles ainvoke noon 4 state)
  ∧ Workflow.run ainvoke noon 15 Workflow.conduct_interview state
    = (Workflow.generate_feedback, Workflow.cycles ainvoke noon 5 state)
  ∧ Workflow.invoke_from ainvoke noon 16 Workflow.conduct_interview state
    = Some (Workflow.generate_feedback_node ainvoke
              (Workflow.cycles ainvoke noon 5 state)).
Proof.
  intros ainvoke state.
  assert (Workflow.current_question_count state = 0%Z) as Hcount by reflexivity.
  assert (Workflow.max_questions state = 5%Z) as Hmax by reflexivity.
  assert (Workflow.session_status state ≠ "completed") as Hactive by discriminate.
  assert (1 ≤ 5)%Z as Hm by lia.
  destruct (interview_loop_bounded ainvoke noon state 5 Hcount Hmax Hactive Hm)
    as (_ & Hcycles & Hinvoke & _).
  pose proof (Hcycles 5 ltac:(lia)) as [Hfive Hlast].
  pose proof (Hcycles 4 ltac:(lia)) as [_ Hfourth].
  split; [exact Hcount|]. split; [exact Hmax|]. split; [exact Hactive|].
  split; [exact Hm|]. split; [exact Hfive|]. split; [exact Hfourth|].
  split; [exact Hlast|]. exact Hinvoke.
Defined.

(** * Further properties of the services *)

Import Notions.

Section AssessmentRuns.
Context (ainvoke : prompt → option string) (json_loads : string → option pyval)
        (utcnow : string).

Local Abbreviation parse := (parse_json_response json_loads).

Ltac run_pass :=
  unfold assess_communication, assess_content, assess_behavioral,
    generate_overall_feedback, try_except, call_llm, lift, mbind, M_bind,
    mret, M_ret; cbn beta.

(** X1. An assessment of a session that does not exist raises [ValueError]
    before anything is sent to the model.  For a session that exists, the
    run sends the communication request, the content request, the behavioral
    request if the interview is behavioral, and the feedback request, in
    this order: four requests for a behavioral interview, three otherwise,
    also when the overall score cannot be computed. *)
Theorem assessment_requests (db : database) (sid : Z) :
  match db_sessions db !! sid with
  | None =>
      ∀ sent, assess_interview_session ainvoke json_loads utcnow db sid sent
              = (Raise ValueError, sent)
  | Some session =>
      ∃ summary,
        (assess_interview_session ainvoke json_loads utcnow db sid []).2
        = requests_of_run db sid session summary
        ∧ length (assess_interview_session ainvoke json_loads utcnow db sid []).2
          = if decide (PyStr.lower (interview_type session) = "behavioral")
            then 4 else 3
  end.
Proof.
  destruct (db_sessions db !! sid) as [session|] eqn:Hs.
  - destruct (session_run json_loads utcnow ainvoke db sid session Hs)
      as (c & t & b & f & summary & _ & _ & _ & ->).
    exists summary. split; [done|]. cbn [snd]. unfold requests_of_run.
    by case_decide.
  - intros sent. unfold assess_interview_session. by rewrite Hs.
Qed.

(** X2. When the model call of a step raises, or its reply decodes to
    something that is not an object, the step returns its fixed fallback:
    scores of 70 for the three scoring passes, the generic bundle for the
    feedback step. *)
Theorem non_object_payload_falls_back :
  (∀ transcript interactions sent,
     raises_or_not_object ainvoke json_loads
       (communication_request transcript interactions) →
     (assess_communication ainvoke json_loads transcript interactions sent).1
     = Ok (communication_fallback (speech_metrics interactions)))
  ∧ (∀ transcript ty sent,
       raises_or_not_object ainvoke json_loads (ContentPrompt ty transcript) →
       (assess_content ainvoke json_loads transcript ty sent).1 = Ok content_fallback)
  ∧ (∀ transcript ty sent,
       PyStr.lower ty = "behavioral" →
       raises_or_not_object ainvoke json_loads (BehavioralPrompt transcript) →
       (assess_behavioral ainvoke json_loads transcript ty sent).1
       = Ok behavioral_fallback)
  ∧ (∀ transcript ty communication content behavioral sent,
       raises_or_not_object ainvoke json_loads
         (FeedbackPrompt ty (scores_summary communication content) transcript) →
       (generate_overall_feedback ainvoke json_loads transcript ty
          communication content behavioral sent).1 = Ok feedback_fallback).
Proof.
  unfold raises_or_not_object, scores_summary. split_and!.
  - intros transcript interactions sent. unfold communication_request. run_pass.
    match goal with |- context [ainvoke ?p] => destruct (ainvoke p) as [response|] end;
      [|done].
    by destruct (parse response).
  - intros transcript ty sent. run_pass.
    destruct (ainvoke _) as [response|]; [|done]. by destruct (parse response).
  - intros transcript ty sent Hty. run_pass.
    rewrite decide_False by (by intros ?).
    destruct (ainvoke _) as [response|]; [|done]. by destruct (parse response).
  - intros transcript ty communication content behavioral sent. run_pass.
    destruct (ainvoke _) as [response|]; [|done]. by destruct (parse response).
Qed.


End AssessmentRuns.

Section ScoreErrors.

Lemma add_ok_numeric a b s :
  Py.add a b = Ok s → is_Some (Py.as_number s) →
  is_Some (Py.as_number a) ∧ is_Some (Py.as_number b).
Proof.
  destruct a as [| | | | |], b as [| | | | |]; cbn; intros [= <-] [x Hx];
    try discriminate; split; by eexists.
Qed.

Lemma div_lit_ok_numeric s n r :
  Py.div_lit s n = Ok r → is_Some (Py.as_number s).
Proof. unfold Py.div_lit. destruct (Py.as_number s); [by eexists|discriminate]. Qed.

Lemma add_raises a b e : Py.add a b = Raise e → e = TypeError.
Proof.
  unfold Py.add. destruct (Py.as_number a), (Py.as_number b);
    destruct a as [| | | | |], b as [| | | | |]; cbn; congruence.
Qed.

Lemma div_lit_raises s n e : Py.div_lit s n = Raise e → e = TypeError.
Proof. unfold Py.div_lit. destruct (Py.as_number s); congruence. Qed.

Lemma mul_float_raises s w e : Py.mul_float s w = Raise e → e = TypeError.
Proof. unfold Py.mul_float. destruct (Py.as_number s); congruence. Qed.

Lemma round2_raises v e : Py.round2 v = Raise e → e = TypeError.
Proof. unfold Py.round2. destruct (Py.as_number v); congruence. Qed.

(** The mean of three or four entries is computed only for numbers. *)
Lemma mean3_ok a b c n r :
  (s ← Py.add a b; s ← Py.add s c; Py.div_lit s n) = Ok r →
  is_Some (Py.as_number a) ∧ is_Some (Py.as_number b) ∧ is_Some (Py.as_number c).
Proof.
  destruct (Py.add a b) as [s1|] eqn:E1; cbn; [|discriminate].
  destruct (Py.add s1 c) as [s2|] eqn:E2; cbn; [|discriminate].
  intros Hd%div_lit_ok_numeric.
  destruct (add_ok_numeric _ _ _ E2 Hd) as [H1 Hc].
  by destruct (add_ok_numeric _ _ _ E1 H1).
Qed.

Lemma mean4_ok a b c d n r :
  (s ← Py.add a b; s ← Py.add s c; s ← Py.add s d; Py.div_lit s n) = Ok r →
  is_Some (Py.as_number a) ∧ is_Some (Py.as_number b)
  ∧ is_Some (Py.as_number c) ∧ is_Some (Py.as_number d).
Proof.
  destruct (Py.add a b) as [s1|] eqn:E1; cbn; [|discriminate].
  destruct (Py.add s1 c) as [s2|] eqn:E2; cbn; [|discriminate].
  destruct (Py.add s2 d) as [s3|] eqn:E3; cbn; [|discriminate].
  intros Hd%div_lit_ok_numeric.
  destruct (add_ok_numeric _ _ _ E3 Hd) as [H2 Hd'].
  destruct (add_ok_numeric _ _ _ E2 H2) as [H1 Hc].
  by destruct (add_ok_numeric _ _ _ E1 H1).
Qed.

Lemma mean3_raises a b c n e :
  (s ← Py.add a b; s ← Py.add s c; Py.div_lit s n) = Raise e → e = TypeError.
Proof.
  destruct (Py.add a b) as [s1|] eqn:E1; cbn; [|intros [= <-]; by eapply add_raises].
  destruct (Py.add s1 c) as [s2|] eqn:E2; cbn; [|intros [= <-]; by eapply add_raises].
  apply div_lit_raises.
Qed.

Lemma mean4_raises a b c d n e :
  (s ← Py.add a b; s ← Py.add s c; s ← Py.add s d; Py.div_lit s n) = Raise e →
  e = TypeError.
Proof.
  destruct (Py.add a b) as [s1|] eqn:E1; cbn; [|intros [= <-]; by eapply add_raises].
  destruct (Py.add s1 c) as [s2|] eqn:E2; cbn; [|intros [= <-]; by eapply add_raises].
  destruct (Py.add s2 d) as [s3|] eqn:E3; cbn; [|intros [= <-]; by eapply add_raises].
  apply div_lit_raises.
Qed.

(** [_calculate_overall_score] in three stages. *)
Lemma calculate_overall_score_stages communication content behavioral :
  calculate_overall_score communication content behavioral
  = (comm_avg ← (s ← Py.add (Py.get communication "clarity_score" (score 0))
                            (Py.get communication "confidence_score" (score 0));
                 s ← Py.add s (Py.get communication "pace_score" (score 0));
                 Py.div_lit s (Py.num 3));
     term1 ← Py.mul_float comm_avg weight_communication;
     content_avg ← (s ← Py.add (Py.get content "technical_accuracy_score" (score 0))
                               (Py.get content "problem_solving_score" (score 0));
                    s ← Py.add s (Py.get content "structure_score" (score 0));
                    s ← Py.add s (Py.get content "relevance_score" (score 0));
                    Py.div_lit s (Py.num 4));
     term2 ← Py.mul_float content_avg weight_content;
     scores ← (if behavioral_present behavioral then
                 behavioral_avg ←
                   (s ← Py.add (Py.get behavioral "star_method_score" (score 0))
                               (Py.get behavioral "leadership_score" (score 0));
                    s ← Py.add s (Py.get behavioral "teamwork_score" (score 0));
                    Py.div_lit s (Py.num 3));
                 term3 ← Py.mul_float behavioral_avg weight_behavioral;
                 Ok [term1; term2; term3]
               else Ok [term1; term2]);
     total ← Py.sum scores;
     Py.round2 total).
Proof.
  unfold calculate_overall_score, behavioral_present.
  destruct (Py.add (Py.get communication "clarity_score" (score 0)) _) as [s1|];
    cbn; [|done].
  destruct (Py.add s1 _) as [s2|]; cbn; [|done].
  destruct (Py.div_lit s2 _) as [a1|]; cbn; [|done].
  destruct (Py.mul_float a1 _) as [t1|]; cbn; [|done].
  destruct (Py.add (Py.get content "technical_accuracy_score" (score 0)) _) as [s3|];
    cbn; [|done].
  destruct (Py.add s3 _) as [s4|]; cbn; [|done].
  destruct (Py.add s4 _) as [s5|]; cbn; [|done].
  destruct (Py.div_lit s5 _) as [a2|]; cbn; [|done].
  destruct (Py.mul_float a2 _) as [t2|]; cbn; [|done].
  destruct (Py.is_not_None _); [|done].
  destruct (Py.add (Py.get behavioral "star_method_score" (score 0)) _) as [s6|];
    cbn; [|done].
  destruct (Py.add s6 _) as [s7|]; cbn; [|done].
  destruct (Py.div_lit s7 _) as [a3|]; cbn; [|done].
  by destruct (Py.mul_float a3 _) as [t3|].
Qed.

Lemma calculate_overall_score_ok communication content behavioral v :
  calculate_overall_score communication content behavioral = Ok v →
  communication_numeric communication ∧ content_numeric content
  ∧ (behavioral_present behavioral = true → behavioral_numeric behavioral).
Proof.
  rewrite calculate_overall_score_stages.
  destruct (_ ← Py.add (Py.get communication _ _) _; _) as [a1|] eqn:E1;
    [|discriminate]. cbn [mbind result_bind].
  destruct (Py.mul_float a1 _) as [t1|]; [|discriminate]. cbn [mbind result_bind].
  destruct (_ ← Py.add (Py.get content _ _) _; _) as [a2|] eqn:E2;
    [|discriminate]. cbn [mbind result_bind].
  destruct (Py.mul_float a2 _) as [t2|]; [|discriminate]. cbn [mbind result_bind].
  intros Hrest. split_and!.
  - by apply mean3_ok in E1.
  - by apply mean4_ok in E2.
  - intros Hp. rewrite Hp in Hrest.
    destruct (_ ← Py.add (Py.get behavioral _ _) _; _) as [a3|] eqn:E3;
      [|discriminate]. by apply mean3_ok in E3.
Qed.

Lemma sum_from_raises values : ∀ acc e,
  Py.sum_from acc values = Raise e → e = TypeError.
Proof.
  induction values as [|v values IH]; intros acc e; cbn; [discriminate|].
  destruct (Py.add acc v) as [acc'|] eqn:E; cbn; [apply IH|].
  intros [= <-]. by eapply add_raises.
Qed.

Lemma calculate_overall_score_raises communication content behavioral e :
  calculate_overall_score communication content behavioral = Raise e → e = TypeError.
Proof.
  rewrite calculate_overall_score_stages.
  destruct (_ ← Py.add (Py.get communication _ _) _; _) as [a1|] eqn:E1;
    [|intros [= <-]; by eapply mean3_raises]. cbn [mbind result_bind].
  destruct (Py.mul_float a1 _) as [t1|] eqn:M1;
    [|intros [= <-]; by eapply mul_float_raises]. cbn [mbind result_bind].
  destruct (_ ← Py.add (Py.get content _ _) _; _) as [a2|] eqn:E2;
    [|intros [= <-]; by eapply mean4_raises]. cbn [mbind result_bind].
  destruct (Py.mul_float a2 _) as [t2|] eqn:M2;
    [|intros [= <-]; by eapply mul_float_raises]. cbn [mbind result_bind].
  destruct (if behavioral_present behavioral then _ else _) as [scores|] eqn:E3;
    cbn [mbind result_bind].
  - destruct (Py.sum scores) as [total|] eqn:S; cbn [mbind result_bind];
      [apply round2_raises|].
    intros [= <-]. by eapply sum_from_raises.
  - intros [= <-]. destruct (behavioral_present behavioral); [|discriminate].
    destruct (_ ← Py.add (Py.get behavioral _ _) _; _) as [a3|] eqn:E4;
      cbn [mbind result_bind] in E3.
    + destruct (Py.mul_float a3 _) eqn:M3; [discriminate|].
      injection E3 as <-. by eapply mul_float_raises.
    + injection E3 as <-. by eapply mean3_raises.
Qed.


End ScoreErrors.

Section Rounding.

Lemma round_half_even_le (q : Q) (n : Z) :
  (q <= inject_Z n)%Q → (Py.round_half_even q ≤ n)%Z.
Proof.
  intros Hq. unfold Py.round_half_even.
  pose proof (Qfloor_resp_le _ _ Hq) as Hf. rewrite Qfloor_Z in Hf.
  destruct (decide (Qfloor q = n)) as [Heq|Hne].
  - assert (q - inject_Z (Qfloor q) < 1 # 2)%Q as Hlt.
    { rewrite Heq. apply Qle_lt_trans with 0%Q; [|done].
      apply (Qplus_le_l _ _ (inject_Z n)). ring_simplify. exact Hq. }
    destruct (Qcompare _ _) eqn:E; [|lia|].
    + apply Qeq_alt in E. rewrite E in Hlt. by apply Qlt_irrefl in Hlt.
    + apply Qgt_alt in E. destruct (Qlt_irrefl (1 # 2)). by eapply Qlt_trans.
  - destruct (Qcompare _ _); [destruct (Z.even _)| |]; lia.
Qed.

Lemma round_half_even_ge (q : Q) (n : Z) :
  (inject_Z n <= q)%Q → (n ≤ Py.round_half_even q)%Z.
Proof.
  intros Hq. unfold Py.round_half_even.
  pose proof (Qfloor_resp_le _ _ Hq) as Hf. rewrite Qfloor_Z in Hf.
  destruct (Qcompare _ _); [destruct (Z.even _)| |]; lia.
Qed.

Lemma num_le (a b : Z) : (a ≤ b)%Z → (Py.num a ≤ Py.num b)%Qc.
Proof.
  intros Hab. unfold Qcle, Py.num, Q2Qc. cbn [this]. rewrite !Qred_correct.
  by rewrite <- Zle_Qle.
Qed.

(** Rounding to hundredths stays between integer bounds. *)
Lemma round2_num_bounds (x : Qc) (a b : Z) :
  (Py.num a ≤ x ≤ Py.num b)%Qc →
  (Py.num a ≤ Py.round2_num x ≤ Py.num b)%Qc.
Proof.
  unfold Qcle, Py.num, Py.round2_num, Q2Qc. cbn [this]. rewrite !Qred_correct.
  intros [Ha Hb]. split.
  - assert (a * 100 ≤ Py.round_half_even (this x * inject_Z 100))%Z as Hz.
    { apply round_half_even_ge. rewrite inject_Z_mult.
      apply Qmult_le_compat_r; [exact Ha|done]. }
    unfold Qle. cbn. lia.
  - assert (Py.round_half_even (this x * inject_Z 100) ≤ b * 100)%Z as Hz.
    { apply round_half_even_le. rewrite inject_Z_mult.
      apply Qmult_le_compat_r; [exact Hb|done]. }
    unfold Qle. cbn. lia.
Qed.

Lemma ratio_le (a b : Z) (d : positive) : (a ≤ b)%Z → (Py.ratio a d ≤ Py.ratio b d)%Qc.
Proof.
  intros Hab. unfold Qcle, Py.ratio, Q2Qc. cbn [this]. rewrite !Qred_correct.
  unfold Qle. cbn. nia.
Qed.

End Rounding.

Section Means.

Ltac qc_to_q :=
  unfold in_range in *;
  repeat (progress (unfold Qcle, Qclt, Qcplus, Qcmult, Qcdiv, Qcinv, Qcminus, Qcopp,
                      Py.num, Py.ratio, Q2Qc in *; cbn [this] in *));
  rewrite ?Qred_correct in *; unfold inject_Z in *;
  cbn [Qinv Qnum Qden] in *.

Lemma weighted_three_bounds (a b c : Qc) :
  in_range a → in_range b → in_range c →
  in_range (Py.ratio 30 100 * a + Py.ratio 50 100 * b + Py.ratio 20 100 * c)%Qc
  ∧ (Py.ratio 30 100 * a + Py.ratio 50 100 * b ≤ Py.num 80)%Qc
  ∧ (Py.num 0 ≤ Py.ratio 30 100 * a + Py.ratio 50 100 * b)%Qc.
Proof. intros Ha Hb Hc. qc_to_q. repeat split; lra. Qed.

Lemma mean3_bounds (x y z : Qc) :
  in_range x → in_range y → in_range z → in_range (mean [x; y; z]).
Proof.
  intros Hx Hy Hz. unfold mean. cbn [foldr length]. change (Z.of_nat 3) with 3%Z.
  qc_to_q. split; lra.
Qed.

Lemma mean4_bounds (x y z w : Qc) :
  in_range x → in_range y → in_range z → in_range w → in_range (mean [x; y; z; w]).
Proof.
  intros Hx Hy Hz Hw. unfold mean. cbn [foldr length]. change (Z.of_nat 4) with 4%Z.
  qc_to_q. split; lra.
Qed.

End Means.

Section SessionRuns.
Context (ainvoke : prompt → option string) (json_loads : string → option pyval)
        (utcnow : string).



End SessionRuns.

Section CandidateShape.

Lemma app_empty_l (s : string) : EmptyString +:+ s = s.
Proof. reflexivity. Qed.

Lemma app_empty_r (s : string) : s +:+ EmptyString = s.
Proof. induction s as [|a s IH]; [done|]. by rewrite app_cons, IH. Qed.

Lemma append_assoc (a b c : string) : (a +:+ b) +:+ c = a +:+ (b +:+ c).
Proof. induction a as [|x a IH]; [done|]. by rewrite !app_cons, IH. Qed.

(** Where [find] points, the character stands for the first time. *)
Lemma find_found c : ∀ s n,
  PyStr.find s (String c EmptyString) = n → (0 ≤ n)%Z →
  ∃ pre rest, s = pre +:+ String c rest ∧ occurs c pre = false
              ∧ Z.of_nat (String.length pre) = n.
Proof.
  induction s as [|a s IH]; intros n.
  - cbn. intros <-. lia.
  - rewrite find_char_cons. destruct (Ascii.eqb c a) eqn:E.
    + apply Ascii.eqb_eq in E as <-. intros <- _. by exists EmptyString, s.
    + cbn zeta. destruct (Z.ltb_spec (PyStr.find s (String c EmptyString)) 0);
        [intros <-; lia|].
      intros <- _.
      assert (0 ≤ PyStr.find s (String c EmptyString))%Z as Hs by lia.
      destruct (IH _ eq_refl Hs) as (pre & rest & -> & Hpre & Hlen).
      exists (String a pre), rest. rewrite app_cons. split_and!; [done| |].
      * cbn. by rewrite E, Hpre.
      * cbn [String.length]. lia.
Qed.

(** Where [rfind] points, the character stands for the last time. *)
Lemma rfind_found c : ∀ s n,
  PyStr.rfind s (String c EmptyString) = n → (0 ≤ n)%Z →
  ∃ pre post, s = pre +:+ String c post ∧ occurs c post = false
              ∧ Z.of_nat (String.length pre) = n.
Proof.
  induction s as [|a s IH]; intros n.
  - cbn. intros <-. lia.
  - rewrite rfind_char_cons. cbn zeta.
    destruct (Z.leb_spec 0 (PyStr.rfind s (String c EmptyString))) as [Hr|Hr].
    + intros <- _. destruct (IH _ eq_refl Hr) as (pre & post & -> & Hpost & Hlen).
      exists (String a pre), post. rewrite app_cons. split_and!; [done..|].
      cbn [String.length]. lia.
    + destruct (Ascii.eqb c a) eqn:E; [|intros <-; lia].
      apply Ascii.eqb_eq in E as <-. intros <- _.
      exists EmptyString, s. split_and!; [done| |done].
      assert (∀ t, PyStr.rfind t (String c EmptyString) = (-1)%Z → occurs c t = false)
        as Habsent.
      { clear. induction t as [|b t IHt]; [done|]. rewrite rfind_char_cons. cbn zeta.
        destruct (Z.leb_spec 0 (PyStr.rfind t (String c EmptyString))); [lia|].
        destruct (Ascii.eqb c b) eqn:E; [lia|]. intros _. cbn. rewrite E.
        apply IHt. pose proof (rfind_nonneg_mono c t). lia. }
      apply Habsent. pose proof (rfind_nonneg_mono c s). lia.
Qed.

(** Two ways of cutting the same text, the first cut being the shorter. *)
Lemma append_split (a : string) : ∀ b x y,
  a +:+ x = b +:+ y → String.length a ≤ String.length b →
  ∃ m, b = a +:+ m ∧ x = m +:+ y.
Proof.
  induction a as [|c a IH]; intros b x y.
  - rewrite app_empty_l. intros -> _. by exists b.
  - destruct b as [|d b]; [cbn; lia|]. rewrite !app_cons. intros [= -> Heq] Hlen.
    cbn in Hlen. destruct (IH b x y Heq ltac:(lia)) as (m & -> & ->).
    exists m. by rewrite app_cons.
Qed.

Lemma braces_differ : Ascii.eqb open_brace close_brace = false.
Proof. reflexivity. Qed.

(** The candidate of a response: either the response itself or the text
    between the first opening and the last closing brace. *)
Lemma json_candidate_cases response :
  json_candidate response = response
  ∨ ∃ pre mid post,
      response = pre +:+ String open_brace (mid +:+ String close_brace post)
      ∧ occurs open_brace pre = false
      ∧ occurs close_brace post = false
      ∧ json_candidate response = String open_brace (mid +:+ String close_brace EmptyString).
Proof.
  destruct (decide (0 ≤ PyStr.find response "{"
                    ∧ PyStr.find response "{" < PyStr.rfind response "}" + 1)%Z)
    as [[Hstart Hend]|Hno].
  - right.
    change "{" with (String open_brace EmptyString) in *.
    change "}" with (String close_brace EmptyString) in *.
    destruct (find_found open_brace response _ eq_refl Hstart)
      as (pre & rest & Hresp & Hpre & Hlen).
    assert (0 ≤ PyStr.rfind response (String close_brace EmptyString))%Z
      as Hlast by lia.
    destruct (rfind_found close_brace response _ eq_refl Hlast)
      as (pre' & post & Hresp' & Hpost & Hlen').
    assert (String.length pre ≤ String.length pre') as Hle by lia.
    rewrite Hresp in Hresp' at 1.
    destruct (append_split _ _ _ _ Hresp' Hle) as (m & -> & Hrest).
    destruct m as [|c m].
    { rewrite app_empty_l in Hrest. by injection Hrest. }
    rewrite app_cons in Hrest. injection Hrest as <- ->.
    exists pre, m, post. split_and!; [|done..|].
    + by rewrite Hresp.
    + rewrite Hresp. by apply json_candidate_span.
  - left. unfold json_candidate.
    destruct (Z.leb_spec 0 (PyStr.find response "{")); [|done].
    destruct (Z.ltb_spec (PyStr.find response "{") (PyStr.rfind response "}" + 1));
      [lia|done].
Qed.

(** X7. The text [_parse_json_response] hands to the decoder is a
    contiguous part of the response: the response itself, or the part that
    starts at its first opening brace and ends at its last closing brace.
    Extracting again from the extracted text changes nothing. *)
Theorem json_candidate_shape (response : string) :
  (∃ pre post, response = pre +:+ json_candidate response +:+ post)
  ∧ (json_candidate response = response
     ∨ ∃ mid, json_candidate response
              = String open_brace (mid +:+ String close_brace EmptyString))
  ∧ json_candidate (json_candidate response) = json_candidate response.
Proof.
  destruct (json_candidate_cases response)
    as [Hsame|(pre & mid & post & Hresp & Hpre & Hpost & Hcand)].
  - rewrite Hsame. split_and!; [|by left|done].
    exists EmptyString, EmptyString. by rewrite app_empty_l, app_empty_r.
  - rewrite Hcand. split_and!.
    + exists pre, post. rewrite Hresp. f_equal. rewrite app_cons. f_equal.
      by rewrite append_assoc.
    + right. by exists mid.
    + by apply (json_candidate_span EmptyString mid EmptyString).
Qed.

End CandidateShape.

Section SpeechMetrics.

Lemma foldl_fillers turns : ∀ m,
  filler_words (foldl metrics_step m turns) = (filler_words m + spoken_fillers turns)%Z.
Proof.
  unfold spoken_fillers.
  induction turns as [|i turns IH]; intros m; simpl; [lia|].
  rewrite IH. simpl. lia.
Qed.

Lemma speech_metrics_fillers interactions :
  filler_words (speech_metrics interactions)
  = spoken_fillers (candidate_interactions interactions).
Proof. unfold speech_metrics. rewrite foldl_fillers. cbn. lia. Qed.

Lemma spoken_words_app a b : spoken_words (a ++ b) = (spoken_words a + spoken_words b)%Z.
Proof. unfold spoken_words. induction a as [|i a IH]; simpl; [done|]. rewrite IH. lia. Qed.

Lemma spoken_fillers_app a b :
  spoken_fillers (a ++ b) = (spoken_fillers a + spoken_fillers b)%Z.
Proof. unfold spoken_fillers. induction a as [|i a IH]; simpl; [done|]. rewrite IH. lia. Qed.

Lemma recorded_seconds_app a b :
  recorded_seconds (a ++ b) = (recorded_seconds a + recorded_seconds b)%Qc.
Proof.
  unfold recorded_seconds. induction a as [|i a IH]; simpl.
  - change (Py.num 0) with 0%Qc. ring.
  - rewrite IH. ring.
Qed.


Lemma map_chars_length f s : String.length (PyStr.map_chars f s) = String.length s.
Proof. induction s as [|c s IH]; [done|]. cbn. by rewrite IH. Qed.

Lemma lexicon_lengths : Forall (λ w, 2 ≤ String.length w) filler_alternatives.
Proof. unfold filler_alternatives. repeat constructor; cbn; lia. Qed.

Lemma findall_half : ∀ s prev skip,
  2 * findall_from prev s skip + skip ≤ String.length s
  ∨ (String.length s < skip ∧ findall_from prev s skip = 0).
Proof.
  induction s as [|c s IH]; intros prev skip.
  - cbn. destruct skip; [left|right]; lia.
  - destruct skip as [|k].
    + cbn [findall_from].
      pose proof (match_first_whole_word prev (String c s) _ lexicon_word_edges) as Hm.
      fold (match_filler prev (String c s)) in Hm.
      destruct (match_filler prev (String c s)) as [n|].
      * destruct Hm as (w & rest & Hw & Heq & -> & Hne & _).
        pose proof lexicon_lengths as Hlen. rewrite Forall_forall in Hlen.
        specialize (Hlen w Hw).
        assert (String.length (String c s) = String.length w + String.length rest)
          as Htotal by (by rewrite Heq, app_length).
        cbn [String.length] in *.
        destruct (IH (Some c) (String.length w - 1)) as [H|[H ?]]; [left; lia|lia].
      * destruct (IH (Some c) 0) as [H|[H ?]]; cbn [String.length]; [left; lia|lia].
    + cbn [findall_from String.length].
      destruct (IH (Some c) k) as [H|[H ?]]; [left; lia|right; lia].
Qed.


End SpeechMetrics.

Section LoopTermination.
Import Workflow Interviews.
Context (ainvoke : list message → option message) (utcnow : string).

Local Abbreviation conduct := (conduct_interview_node ainvoke).
Local Abbreviation analyze := (analyze_response_node utcnow).
Local Abbreviation one_cycle := (cycle ainvoke utcnow).
Local Abbreviation n_cycles := (cycles ainvoke utcnow).
Local Abbreviation run_graph := (run ainvoke utcnow).
Local Abbreviation invoke := (invoke_from ainvoke utcnow).

Lemma run_end k : ∀ s, run_graph k END s = (END, s).
Proof. induction k as [|k IH]; intros s; [done|]. cbn [run step]. apply IH. Qed.

Lemma invoke_more fuel : ∀ n state final more,
  invoke fuel n state = Some final →
  invoke (fuel + more) n state = Some final.
Proof.
  induction fuel as [|fuel IH]; intros n state final more.
  - destruct n; cbn; try done. intros [= ->]. by destruct more.
  - cbn [Nat.add invoke_from]. destruct n; try done;
      (destruct (step _ _ _ _) as [n' s']; apply IH).
Qed.


End LoopTermination.

Section Interviewing.
Import Workflow Interviews.
Context (ainvoke : list message → option message) (utcnow : string).

Local Abbreviation conduct := (conduct_interview_node ainvoke).
Local Abbreviation analyze := (analyze_response_node utcnow).
Local Abbreviation one_cycle := (cycle ainvoke utcnow).
Local Abbreviation n_cycles := (cycles ainvoke utcnow).
Local Abbreviation invoke := (invoke_from ainvoke utcnow).
Local Abbreviation feedback := (generate_feedback_node ainvoke).
Local Abbreviation ai := (λ m : message, is_ai m = true).

Lemma conduct_messages state :
  messages (conduct state) = messages state ++ [question_asked ainvoke state]
  ∧ analysis_results (conduct state) = analysis_results state.
Proof.
  unfold conduct_interview_node, question_asked. by destruct (ainvoke _).
Qed.

Lemma analyze_effect state :
  messages (analyze state) = messages state
  ∧ analysis_results (analyze state)
    = match last_human (messages state) with
      | Some m =>
          <[("question_" +:+ pretty (current_question_count state))
            := analysis_of utcnow (message_content m)]> (analysis_results state)
      | None => analysis_results state
      end.
Proof.
  unfold analyze_response_node, last_human. by destruct (last _).
Qed.

Lemma cycle_history state :
  messages (one_cycle state) = messages state ++ [question_asked ainvoke state]
  ∧ analysis_results (one_cycle state)
    = match last_human (messages state ++ [question_asked ainvoke state]) with
      | Some m =>
          <[("question_" +:+ pretty (current_question_count state))
            := analysis_of utcnow (message_content m)]> (analysis_results state)
      | None => analysis_results state
      end.
Proof.
  unfold cycle. cbn [check_completion_node messages analysis_results].
  destruct (analyze_effect (conduct state)) as [-> ->].
  destruct (conduct_messages state) as [-> ->].
  by destruct (conduct_frame ainvoke state) as (-> & _ & _).
Qed.

Lemma question_asked_ai state : replies_are_ai ainvoke → ai (question_asked ainvoke state).
Proof.
  intros Hai. unfold question_asked.
  destruct (ainvoke _) as [r|] eqn:Hr; [by eapply Hai|done].
Qed.

Lemma last_human_app_ai history added :
  Forall ai added → last_human (history ++ added) = last_human history.
Proof.
  intros Hall. unfold last_human. rewrite filter_app.
  replace (filter (λ m, is_human m = true) added) with (@nil message);
    [by rewrite app_nil_r|].
  symmetry. induction Hall as [|m added Hm _ IH]; [done|].
  rewrite filter_cons_False; [done|]. by destruct m.
Qed.

Lemma cycles_history k : ∀ state,
  ∃ added,
    messages (n_cycles k state) = messages state ++ added
    ∧ length added = k
    ∧ (replies_are_ai ainvoke →
       Forall ai added
       ∧ analysis_results (n_cycles k state)
         = match last_human (messages state) with
           | Some m => record_answers utcnow (message_content m)
                         (current_question_count state) k (analysis_results state)
           | None => analysis_results state
           end).
Proof.
  induction k as [|k IH]; intros state.
  - exists []. cbn [cycles record_answers]. rewrite app_nil_r.
    split_and!; [done..|]. intros _. split; [done|]. by destruct (last_human _).
  - cbn [cycles]. destruct (IH (one_cycle state)) as (added & Hm & Hlen & Hai).
    destruct (cycle_history state) as [Hmsg Hres].
    destruct (cycle_effect ainvoke utcnow state) as (Hcount & _ & _).
    exists (question_asked ainvoke state :: added).
    split_and!.
    + by rewrite Hm, Hmsg, <- app_assoc.
    + cbn. by rewrite Hlen.
    + intros Hmodel. destruct (Hai Hmodel) as [Hall Han].
      pose proof (question_asked_ai state Hmodel) as Hq.
      split; [by constructor|].
      rewrite Han, Hmsg, Hres, Hcount.
      rewrite (last_human_app_ai (messages state) [question_asked ainvoke state])
        by by constructor.
      by destruct (last_human (messages state)).
Qed.

Lemma feedback_effect state :
  ∃ added,
    messages (feedback state) = messages state ++ added
    ∧ length added ≤ 1
    ∧ (length added = 1 ↔
       is_Some (ainvoke (messages state ++ [HumanMessage (feedback_prompt state)])))
    ∧ (replies_are_ai ainvoke → Forall ai added)
    ∧ session_status (feedback state) = session_status state
    ∧ current_question_count (feedback state) = current_question_count state
    ∧ analysis_results (feedback state) = analysis_results state.
Proof.
  unfold generate_feedback_node.
  destruct (ainvoke _) as [r|] eqn:Hr.
  - exists [r]. split; [done|]. split; [done|]. split; [by split; [eexists|]|].
    split; [|done]. intros Hai. constructor; [by eapply Hai|done].
  - exists []. rewrite app_nil_r. split; [done|]. split; [cbn; lia|].
    split; [split; [done|by intros [? ?]]|]. split; [|done]. by intros _.
Qed.

Lemma last_ai_content_added fallback history added m :
  Forall ai added → last added = Some m →
  last_ai_content fallback (history ++ added) = message_content m.
Proof.
  intros Hall Hlast. unfold last_ai_content. rewrite filter_app.
  replace (filter ai added) with added.
  - destruct added as [|a added] using rev_ind; [done|].
    rewrite last_snoc in Hlast. injection Hlast as ->.
    by rewrite app_assoc, last_snoc.
  - symmetry. clear Hlast. induction Hall as [|a added Ha _ IH]; [done|].
    by rewrite filter_cons_True, IH.
Qed.

(** Every invocation of the workflow: five questions, then the feedback. *)
Lemma workflow_ainvoke_history (state : InterviewState) :
  ∃ final added,
    workflow_ainvoke ainvoke utcnow state = Some final
    ∧ session_status final = "completed"
    ∧ current_question_count final = 5%Z
    ∧ messages final = messages state ++ added
    ∧ 5 ≤ length added ≤ 6
    ∧ (replies_are_ai ainvoke →
       Forall ai added
       ∧ analysis_results final
         = match last_human (messages state) with
           | Some m => record_answers utcnow (message_content m) 0 5 ∅
           | None => ∅
           end).
Proof.
  destruct (workflow_five_cycles ainvoke utcnow state) as [Hrun Hcount].
  destruct (cycles_history 5 (prepare_context_node state))
    as (asked & Hasked & Hlen & Hai).
  destruct (feedback_effect (n_cycles 5 (prepare_context_node state)))
    as (last_one & Hlast & Hone & _ & Hlast_ai & Hstatus & Hsame & Hresults).
  destruct (cycles_effect ainvoke utcnow 5 (prepare_context_node state))
    as (_ & _ & Hdone).
  exists (feedback (n_cycles 5 (prepare_context_node state))), (asked ++ last_one).
  split_and!.
  - unfold workflow_ainvoke, recursion_limit. change 25 with (17 + 8).
    by apply invoke_more.
  - rewrite Hstatus. apply Hdone. right. cbn. lia.
  - by rewrite Hsame.
  - by rewrite Hlast, Hasked, <- app_assoc.
  - rewrite length_app. lia.
  - rewrite length_app. lia.
  - intros Hmodel. destruct (Hai Hmodel) as [Hall Han].
    split; [apply Forall_app; split; [done|by apply Hlast_ai]|].
    by rewrite Hresults, Han.
Qed.

(** X11. [start_interview] never fails and never stops at the first
    question: whatever the model does, the workflow runs all five question
    rounds and the feedback step before it returns, so the reply reports
    success, status "completed" and question count 5, and the history has
    grown by five or six messages.  With a model that answers with assistant
    messages, the [response] returned is the last of these messages, not the
    first question. *)
Theorem start_interview_runs_to_completion (user_id session_id : Z)
    (interview_type : string) (initial_message : option string) :
  let initial := initial_state user_id session_id interview_type initial_message in
  let r := start_interview ainvoke utcnow user_id session_id interview_type
             initial_message in
  success r = true
  ∧ reply_status r = "completed"
  ∧ question_count r = Some 5%Z
  ∧ ∃ final added,
      workflow_ainvoke ainvoke utcnow initial = Some final
      ∧ messages final = messages initial ++ added
      ∧ 5 ≤ length added ≤ 6
      ∧ (replies_are_ai ainvoke →
         ∃ m, last added = Some m ∧ response r = message_content m).
Proof.
  intros initial r. subst r. unfold start_interview. fold initial.
  destruct (workflow_ainvoke_history initial)
    as (final & added & -> & Hstatus & Hcount & Hmsg & Hlen & Hai).
  cbn [success reply_status question_count response].
  split_and!; [done|done|by rewrite Hcount|].
  exists final, added. split_and!; [done|done|lia|lia|].
  intros Hmodel. destruct (Hai Hmodel) as [Hall _].
  destruct (last added) as [m|] eqn:Hm.
  - exists m. split; [done|]. rewrite Hmsg. by apply last_ai_content_added.
  - apply last_None in Hm. subst added. cbn in Hlen. lia.
Qed.

Lemma question_keys :
  "question_" +:+ pretty 0%Z = "question_0"
  ∧ "question_" +:+ pretty (0 + 1)%Z = "question_1"
  ∧ "question_" +:+ pretty (0 + 1 + 1)%Z = "question_2"
  ∧ "question_" +:+ pretty (0 + 1 + 1 + 1)%Z = "question_3"
  ∧ "question_" +:+ pretty (0 + 1 + 1 + 1 + 1)%Z = "question_4".
Proof. split_and!; reflexivity. Qed.

Lemma record_five text :
  record_answers utcnow text 0 5 ∅
  = <[ "question_4" := analysis_of utcnow text ]>
      (<[ "question_3" := analysis_of utcnow text ]>
         (<[ "question_2" := analysis_of utcnow text ]>
            (<[ "question_1" := analysis_of utcnow text ]>
               (<[ "question_0" := analysis_of utcnow text ]> ∅)))).
Proof.
  cbn [record_answers].
  destruct question_keys as (-> & -> & -> & -> & ->). reflexivity.
Qed.

(** X12. [continue_interview] does not resume the stored interview: the
    workflow starts again at [prepare_context], which resets the counters, so
    whatever question count, maximum, status and analysis the stored state
    holds, the reply reports status "completed" and question count 5 after a
    single candidate message.  With a model that answers with assistant
    messages, that one message is analysed five times over, as questions 0
    to 4, and the [response] is the last message the model produced. *)
Theorem continue_interview_restarts (session_id : Z) (user_message : string)
    (current_state : InterviewState) :
  replies_are_ai ainvoke →
  let r := continue_interview ainvoke utcnow session_id user_message current_state in
  let a := analysis_of utcnow user_message in
  success r = true
  ∧ reply_status r = "completed"
  ∧ question_count r = Some 5%Z
  ∧ analysis r
    = Some (<[ "question_4" := a ]> (<[ "question_3" := a ]> (<[ "question_2" := a ]>
              (<[ "question_1" := a ]> (<[ "question_0" := a ]> ∅)))))
  ∧ ∃ final added m,
      workflow_ainvoke ainvoke utcnow
        (append_message current_state (HumanMessage user_message)) = Some final
      ∧ messages final
        = messages current_state ++ HumanMessage user_message :: added
      ∧ 5 ≤ length added ≤ 6
      ∧ Forall (λ m, is_ai m = true) added
      ∧ last added = Some m
      ∧ response r = message_content m.
Proof.
  intros Hmodel r a. subst r a. unfold continue_interview.
  destruct (workflow_ainvoke_history
              (append_message current_state (HumanMessage user_message)))
    as (final & added & -> & Hstatus & Hcount & Hmsg & Hlen & Hai).
  destruct (Hai Hmodel) as [Hall Han].
  cbn [success reply_status question_count response analysis].
  assert (last_human (messages (append_message current_state (HumanMessage user_message)))
          = Some (HumanMessage user_message)) as Hlast.
  { cbn [append_message messages]. unfold last_human.
    rewrite filter_app, filter_cons_True by done. cbn [filter]. apply last_snoc. }
  rewrite Hlast in Han. cbn [message_content] in Han.
  split_and!; [done|done|by rewrite Hcount|by rewrite Han, record_five|].
  destruct (last added) as [m|] eqn:Hm.
  - exists final, added, m.
    split_and!; [done| |lia|lia|done|done|].
    + rewrite Hmsg. cbn [append_message messages]. by rewrite <- app_assoc.
    + rewrite Hmsg. by apply last_ai_content_added.
  - apply last_None in Hm. subst added. cbn in Hlen. lia.
Qed.

End Interviewing.

Section Indexing.
Import Rag Summary.
Context (split_text : string → list string) (render_number : Qc → string)
        (utcnow : string).

Local Abbreviation documents := (user_documents split_text render_number utcnow).
Local Abbreviation index := (index_user_context split_text render_number utcnow).

Lemma num_inj a b : Py.num a = Py.num b → a = b.
Proof.
  intros Heq. apply Q2Qc_eq_iff in Heq. unfold Qeq in Heq. cbn in Heq. lia.
Qed.

Lemma tagged_owned user_id rest content :
  owned_by user_id
    {| page_content := content;
       metadata := list_to_map (("user_id", number user_id) :: rest) |}.
Proof.
  unfold owned_by, owner. cbn [metadata list_to_map foldr].
  by rewrite lookup_insert_eq.
Qed.

Lemma tagged_type user_id kind rest content :
  document_type
    {| page_content := content;
       metadata := list_to_map (("user_id", number user_id)
                                :: ("type", VStr kind) :: rest) |} = kind.
Proof.
  unfold document_type. cbn [metadata list_to_map foldr].
  rewrite lookup_insert_ne by done. by rewrite lookup_insert_eq.
Qed.

Lemma profile_documents_owned user_id profile :
  Forall (λ doc, owned_by user_id doc
                 ∧ (document_type doc = "profile" ∨ document_type doc = "resume"))
    (profile_documents split_text utcnow user_id profile).
Proof.
  unfold profile_documents. apply Forall_app. split.
  - case_decide; [done|]. constructor; [|done].
    split; [apply tagged_owned|left; apply tagged_type].
  - destruct (truthy_str _); [|done].
    apply Forall_forall. intros doc Hin.
    apply elem_of_lookup_imap in Hin as (i & chunk & -> & _).
    split; [apply tagged_owned|right; apply tagged_type].
Qed.

Lemma documents_shape db user_id user :
  ∃ context history,
    documents db user_id user
    = basic_info_document utcnow user_id user :: context ++ history
    ∧ Forall (λ doc, document_type doc = "profile" ∨ document_type doc = "resume")
        context
    ∧ Forall (λ doc, document_type doc = "session_history") history
    ∧ length history ≤ 10
    ∧ Forall (owned_by user_id) (documents db user_id user).
Proof.
  unfold user_documents.
  set (context := match profiles db !! user_id with
                  | Some profile => profile_documents split_text utcnow user_id profile
                  | None => []
                  end).
  set (history := take 10 (filter (λ s, session_user_id s = user_id) (sessions db))).
  assert (Forall (λ doc, owned_by user_id doc
                         ∧ (document_type doc = "profile"
                            ∨ document_type doc = "resume")) context) as Hcontext.
  { subst context. destruct (profiles db !! user_id); [|done].
    apply profile_documents_owned. }
  exists context, (session_document render_number user_id <$> history).
  split_and!.
  - done.
  - eapply Forall_impl; [exact Hcontext|]. by intros doc [_ ?].
  - apply Forall_fmap, Forall_forall. intros s _. apply tagged_type.
  - rewrite length_fmap. subst history. rewrite length_take. lia.
  - constructor; [apply tagged_owned|]. apply Forall_app. split.
    + eapply Forall_impl; [exact Hcontext|]. by intros doc [? _].
    + apply Forall_fmap, Forall_forall. intros s _. apply tagged_owned.
Qed.

(** X13. Indexing a user.  The documents built for a user always start
    with the basic-information document, followed by the profile and resume
    documents and then at most ten session summaries, and every one of them
    carries the user's id; the list is never empty, so the "no documents"
    exit is never taken.  Hence, for any vector store, [index_user_context]
    answers true exactly when the user exists and [add_documents] succeeds;
    an unknown user leaves the store untouched, and a failing delete is
    ignored. *)
Theorem index_user_context_outcome {Store : Type} `{VectorStore Store}
    (db : database) (user_id : Z) (store : Store) :
  (∀ user, ∃ context history,
      documents db user_id user
      = basic_info_document utcnow user_id user :: context ++ history
      ∧ Forall (λ doc, document_type doc = "profile" ∨ document_type doc = "resume")
          context
      ∧ Forall (λ doc, document_type doc = "session_history") history
      ∧ length history ≤ 10
      ∧ Forall (owned_by user_id) (documents db user_id user))
  ∧ (users db !! user_id = None → index db user_id store = (false, store))
  ∧ (∀ user, users db !! user_id = Some user →
       index db user_id store
       = match add_documents (after_delete store user_id)
                 (documents db user_id user) with
         | Ok store' => (true, store')
         | Raise _ => (false, after_delete store user_id)
         end)
  ∧ ((index db user_id store).1 = true
     ↔ ∃ user store',
         users db !! user_id = Some user
         ∧ add_documents (after_delete store user_id) (documents db user_id user)
           = Ok store').
Proof.
  assert (∀ user, users db !! user_id = Some user →
       index db user_id store
       = match add_documents (after_delete store user_id)
                 (documents db user_id user) with
         | Ok store' => (true, store')
         | Raise _ => (false, after_delete store user_id)
         end) as Hsome.
  { intros user Huser. unfold index_user_context. rewrite Huser.
    fold (after_delete store user_id).
    destruct (documents_shape db user_id user) as (c & h & Hdocs & _).
    fold (documents db user_id user).
    by destruct (documents db user_id user). }
  split_and!.
  - intros user. apply documents_shape.
  - intros Hnone. unfold index_user_context. by rewrite Hnone.
  - done.
  - split.
    + destruct (users db !! user_id) as [user|] eqn:Huser.
      * rewrite (Hsome user eq_refl).
        destruct (add_documents _ _) as [store'|e] eqn:Hadd; [|done].
        intros _. by exists user, store'.
      * unfold index_user_context. by rewrite Huser.
    + intros (user & store' & Huser & Hadd). by rewrite (Hsome user Huser), Hadd.
Qed.

Lemma filter_none {A} (P : A → Prop) `{∀ x, Decision (P x)} (l : list A) :
  Forall (λ x, ¬ P x) l → filter P l = [].
Proof.
  induction 1 as [|x l Hx _ IH]; [done|]. by rewrite filter_cons_False.
Qed.

Lemma filter_all {A} (P : A → Prop) `{∀ x, Decision (P x)} (l : list A) :
  Forall P l → filter P l = l.
Proof.
  induction 1 as [|x l Hx _ IH]; [done|]. by rewrite filter_cons_True, IH.
Qed.

Lemma filter_filter_swap {A} (P Q : A → Prop) `{∀ x, Decision (P x)}
    `{∀ x, Decision (Q x)} (l : list A) :
  (∀ x, P x → Q x) → filter P (filter Q l) = filter P l.
Proof.
  intros HPQ. induction l as [|x l IH]; [done|].
  destruct (decide (Q x)) as [HQ|HQ].
  - rewrite (filter_cons_True Q) by done.
    destruct (decide (P x)).
    + by rewrite !filter_cons_True, IH.
    + by rewrite !filter_cons_False, IH.
  - rewrite (filter_cons_False Q) by done.
    rewrite (filter_cons_False P); [done|]. intros HP. by apply HQ, HPQ.
Qed.

Lemma owner_unique a b doc : owned_by a doc → owned_by b doc → a = b.
Proof.
  unfold owned_by. intros Ha Hb. rewrite Ha in Hb. apply num_inj. congruence.
Qed.

(** X14. Re-indexing replaces, for the in-memory store: after indexing an
    existing user the store holds the documents of the other users as before
    followed by exactly the documents just built for this user, whatever it
    held for the user before.  So indexing twice in a row stores nothing
    twice, and what the other users retrieve does not change. *)
Theorem reindexing_replaces (db : database) (user_id : Z) (user : User)
    (store : list Document) :
  users db !! user_id = Some user →
  let store' := (index db user_id store).2 in
  index db user_id store
  = (true, filter (λ doc, ¬ owned_by user_id doc) store ++ documents db user_id user)
  ∧ filter (owned_by user_id) store' = documents db user_id user
  ∧ index db user_id store' = (true, store')
  ∧ (∀ other query k, other ≠ user_id →
       retrieve_user_context store' other query k
       = retrieve_user_context store other query k).
Proof.
  intros Huser store'.
  destruct (documents_shape db user_id user) as (c & h & Hdocs & _ & _ & _ & Howned).
  assert (∀ st, index db user_id st
          = (true, filter (λ doc, ¬ owned_by user_id doc) st
                   ++ documents db user_id user)) as Hindex.
  { intros st. unfold index_user_context. rewrite Huser.
    fold (documents db user_id user). cbn [delete_where_user memory_store].
    by destruct (documents db user_id user). }
  assert (∀ st, filter (owned_by user_id)
                  (filter (λ doc, ¬ owned_by user_id doc) st) = []) as Hgone.
  { intros st. apply filter_none, Forall_forall. intros doc Hin.
    by apply list_elem_of_filter in Hin as [? _]. }
  subst store'. rewrite !Hindex. cbn [snd].
  split_and!.
  - done.
  - by rewrite filter_app, Hgone, filter_all.
  - f_equal. f_equal. rewrite filter_app.
    rewrite (filter_none (λ doc, ¬ owned_by user_id doc) (documents db user_id user));
      [rewrite app_nil_r|].
    + apply filter_filter_swap. done.
    + eapply Forall_impl; [exact Howned|]. intros doc Hdoc Hnot. by apply Hnot.
  - intros other query k Hother. unfold retrieve_user_context.
    cbn [similarity_search memory_store].
    assert (filter (owned_by other)
              (filter (λ doc, ¬ owned_by user_id doc) store
               ++ documents db user_id user)
            = filter (owned_by other) store) as ->; [|done].
    rewrite filter_app.
    rewrite (filter_none (owned_by other) (documents db user_id user));
      [rewrite app_nil_r|].
    + apply filter_filter_swap. intros doc Ho Hu. apply Hother.
      by apply (owner_unique _ _ doc).
    + eapply Forall_impl; [exact Howned|]. intros doc Hu Ho. apply Hother.
      by apply (owner_unique _ _ doc).
Qed.

Lemma join_nonempty sep first rest :
  first ≠ EmptyString → PyStr.join sep (first :: rest) ≠ EmptyString.
Proof.
  intros Hfirst. destruct first as [|a first]; [done|].
  cbn [PyStr.join]. by destruct rest.
Qed.

(** X15. The candidate summary is never the empty string.  When the
    vector store fails, or holds nothing for the user, the summary is the
    sentence for a new candidate, so a failing store cannot be told from a new
    user; when documents are retrieved but none is tagged as basic
    information or profile, it is the "limited information" sentence. *)
Theorem user_summary_never_empty {Store : Type} `{VectorStore Store}
    (store : Store) (user_id : Z) :
  get_user_summary store user_id ≠ EmptyString
  ∧ ((∀ q, ∃ e, similarity_search store q 3 user_id = Raise e) →
     get_user_summary store user_id = new_candidate)
  ∧ ((∀ q, similarity_search store q 3 user_id = Ok []) →
     get_user_summary store user_id = new_candidate)
  ∧ (retrieve_user_context store user_id None 3 ≠ [] →
     Forall (λ doc, has_type "basic_info" doc = false
                    ∧ has_type "profile" doc = false)
       (retrieve_user_context store user_id None 3) →
     get_user_summary store user_id = limited_information).
Proof.
  split_and!.
  - unfold get_user_summary.
    destruct (retrieve_user_context store user_id None 3) as [|doc docs]; [done|].
    generalize (first_of_type "profile" (doc :: docs)).
    generalize (first_of_type "basic_info" (doc :: docs)).
    intros basic profile.
    destruct (decide (basic = EmptyString)), (decide (profile = EmptyString));
      cbn [app]; [done|by apply join_nonempty..].
  - intros Hfail. unfold get_user_summary. by rewrite retrieve_failure.
  - intros Hnone. unfold get_user_summary. by rewrite retrieve_nothing.
  - intros Hsome Hother. unfold get_user_summary.
    destruct (retrieve_user_context store user_id None 3) as [|doc docs] eqn:Hdocs;
      [done|].
    assert (∀ name, (name = "basic_info" ∨ name = "profile") →
                    first_of_type name (doc :: docs) = EmptyString) as Hfirst.
    { intros name Hname. unfold first_of_type.
      rewrite filter_none; [done|].
      eapply Forall_impl; [exact Hother|]. intros d [Hb Hp] Hd.
      destruct Hname as [-> | ->]; congruence. }
    rewrite !Hfirst by auto. done.
Qed.

End Indexing.

Section SessionColumns.
Import SessionScores.

Lemma foldl_plus xs : ∀ a, foldl Qcplus a xs = (a + total xs)%Qc.
Proof.
  unfold total. induction xs as [|x xs IH]; intros a; cbn [foldl].
  - change (Py.num 0) with 0%Qc. ring.
  - rewrite IH, (IH (Py.num 0 + x)%Qc). change (Py.num 0) with 0%Qc. ring.
Qed.

Lemma total_cons x xs : total (x :: xs) = (x + total xs)%Qc.
Proof.
  unfold total at 1. cbn [foldl]. rewrite foldl_plus.
  change (Py.num 0) with 0%Qc. ring.
Qed.

Lemma num_succ (n : nat) : Py.num (Z.of_nat (S n)) = (Py.num (Z.of_nat n) + 1)%Qc.
Proof.
  rewrite Nat2Z.inj_succ.
  apply Qc_is_canon. unfold Py.num, Qcplus, Q2Qc. cbn [this].
  rewrite !Qred_correct. unfold Qeq, Qplus, inject_Z. cbn [Qnum Qden Pos.mul]. lia.
Qed.

Lemma num_pos (n : nat) : (0 < Py.num (Z.of_nat (S n)))%Qc.
Proof.
  rewrite Nat2Z.inj_succ.
  unfold Qclt, Py.num, Q2Qc. cbn [this]. rewrite !Qred_correct.
  unfold Qlt, inject_Z. cbn [Qnum Qden]. lia.
Qed.

Lemma Qcinv_nonneg (w : Qc) : (0 < w)%Qc → (0 ≤ / w)%Qc.
Proof.
  unfold Qclt, Qcle, Qcinv, Q2Qc. cbn [this]. rewrite !Qred_correct.
  intros Hw. apply Qinv_le_0_compat. by apply Qlt_le_weak.
Qed.

Lemma Qclt_nonzero (w : Qc) : (0 < w)%Qc → w ≠ 0%Qc.
Proof. intros Hw ->. by apply Qclt_not_le in Hw. Qed.

(** A quotient lies between two bounds when the numerator lies between the
    bounds scaled by the (positive) denominator. *)
Lemma quotient_between (t w lo hi : Qc) :
  (0 < w)%Qc → (w * lo ≤ t)%Qc → (t ≤ w * hi)%Qc → (lo ≤ t / w ≤ hi)%Qc.
Proof.
  intros Hw Hlo Hhi. pose proof (Qcinv_nonneg w Hw) as Hinv.
  pose proof (Qclt_nonzero w Hw) as Hne.
  split.
  - replace lo with (w * lo * / w)%Qc by (field; exact Hne).
    unfold Qcdiv. by apply Qcmult_le_compat_r.
  - replace hi with (w * hi * / w)%Qc by (field; exact Hne).
    unfold Qcdiv. by apply Qcmult_le_compat_r.
Qed.

Lemma total_between xs lo hi :
  Forall (λ x, lo ≤ x ≤ hi)%Qc xs →
  (Py.num (Z.of_nat (length xs)) * lo ≤ total xs)%Qc
  ∧ (total xs ≤ Py.num (Z.of_nat (length xs)) * hi)%Qc.
Proof.
  induction 1 as [|x xs [Hlo Hhi] _ [IHlo IHhi]].
  - change (total []) with 0%Qc. change (Py.num (Z.of_nat (length (@nil Qc)))) with 0%Qc.
    split; [replace (0 * lo)%Qc with 0%Qc by ring|replace (0 * hi)%Qc with 0%Qc by ring];
      apply Qcle_refl.
  - cbn [length]. rewrite num_succ, total_cons. split.
    + replace ((Py.num (Z.of_nat (length xs)) + 1) * lo)%Qc
        with (lo + Py.num (Z.of_nat (length xs)) * lo)%Qc by ring.
      by apply Qcplus_le_compat.
    + replace ((Py.num (Z.of_nat (length xs)) + 1) * hi)%Qc
        with (hi + Py.num (Z.of_nat (length xs)) * hi)%Qc by ring.
      by apply Qcplus_le_compat.
Qed.

Lemma present_each (P : Qc → Prop) scores :
  each_present P scores → Forall P (present scores).
Proof.
  unfold each_present, present. induction 1 as [|o scores Ho _ IH]; [done|].
  destruct o as [x|]; cbn; [|done]. constructor; [by apply Ho|done].
Qed.

(** The average of a group lies between the bounds of its scores; it is 0
    for a group without scores. *)
Lemma average_between scores lo hi :
  (lo ≤ 0 ≤ hi)%Qc →
  each_present (λ x, lo ≤ x ≤ hi)%Qc scores →
  (lo ≤ average scores ≤ hi)%Qc.
Proof.
  intros Hzero Hall. apply present_each in Hall. unfold average.
  destruct (present scores) as [|x xs] eqn:Hxs; [done|].
  destruct (total_between _ _ _ Hall) as [Hlo Hhi].
  apply quotient_between; [apply num_pos|done|done].
Qed.

Lemma average_uniform scores x :
  each_present (λ y, y = x) scores →
  average scores = x ∨ (present scores = [] ∧ average scores = Py.num 0).
Proof.
  intros Hall. apply present_each in Hall. unfold average.
  destruct (present scores) as [|y ys] eqn:Hxs; [by right|left].
  assert (Forall (λ y, x ≤ y ≤ x)%Qc (y :: ys)) as Hbetween.
  { eapply Forall_impl; [exact Hall|]. intros z ->. split; apply Qcle_refl. }
  destruct (total_between _ _ _ Hbetween) as [Hlo Hhi].
  destruct (quotient_between (total (y :: ys)) (Py.num (Z.of_nat (length (y :: ys))))
              x x (num_pos _) Hlo Hhi) as [H1 H2].
  by apply Qcle_antisym.
Qed.

(** The weighted sum of the groups kept, against their total weight. *)
Lemma weighted_between (scores : list (string * Qc * Qc)) lo hi :
  Forall (λ t, (lo ≤ t.1.2 ≤ hi)%Qc ∧ (0 < t.2)%Qc) scores →
  (total ((λ t, t.2) <$> scores) * lo ≤ total ((λ t, t.1.2 * t.2)%Qc <$> scores))%Qc
  ∧ (total ((λ t, t.1.2 * t.2)%Qc <$> scores) ≤ total ((λ t, t.2) <$> scores) * hi)%Qc
  ∧ (scores ≠ [] → (0 < total ((λ t, t.2) <$> scores))%Qc)
  ∧ (0 ≤ total ((λ t, t.2) <$> scores))%Qc.
Proof.
  induction 1 as [|[[name avg] weight] scores [[Hlo Hhi] Hw] _ (IHlo & IHhi & _ & IHw)].
  - cbn [fmap list_fmap]. change (total []) with 0%Qc.
    split_and!; [replace (0 * lo)%Qc with 0%Qc by ring; apply Qcle_refl
                |replace (0 * hi)%Qc with 0%Qc by ring; apply Qcle_refl
                |done|apply Qcle_refl].
  - cbn [fmap list_fmap fst snd] in *. rewrite !total_cons.
    assert (0 ≤ weight)%Qc as Hw' by by apply Qclt_le_weak.
    split_and!.
    + replace ((weight + total ((λ t, t.2) <$> scores)) * lo)%Qc
        with (lo * weight + total ((λ t, t.2) <$> scores) * lo)%Qc by ring.
      apply Qcplus_le_compat; [|done]. by apply Qcmult_le_compat_r.
    + replace ((weight + total ((λ t, t.2) <$> scores)) * hi)%Qc
        with (hi * weight + total ((λ t, t.2) <$> scores) * hi)%Qc by ring.
      apply Qcplus_le_compat; [|done]. by apply Qcmult_le_compat_r.
    + intros _. apply Qclt_le_trans with (weight + 0)%Qc.
      * by replace (weight + 0)%Qc with weight by ring.
      * apply Qcplus_le_compat; [apply Qcle_refl|done].
    + apply Qcle_trans with (0 + 0)%Qc; [done|]. by apply Qcplus_le_compat.
Qed.

Lemma group_forall (P : string * Qc * Qc → Prop) name avg weight :
  ((0 < avg)%Qc → P (name, avg, weight)) → Forall P (group name avg weight).
Proof.
  intros HP. unfold group. change (Py.num 0) with 0%Qc.
  destruct (0 ?= avg)%Qc eqn:Hcmp; [done| |done].
  constructor; [|done]. by apply HP, Qc_compare_lt.
Qed.

Lemma group_positive name avg weight :
  (0 < avg)%Qc → group name avg weight = [(name, avg, weight)].
Proof.
  intros Hpos. unfold group. change (Py.num 0) with 0%Qc.
  apply Qc_compare_lt in Hpos. by rewrite Hpos.
Qed.

Lemma group_zero name weight : group name (Py.num 0) weight = [].
Proof. reflexivity. Qed.

Lemma weights_positive :
  (0 < Py.ratio 30 100)%Qc ∧ (0 < Py.ratio 40 100)%Qc
  ∧ (0 < Py.ratio 20 100)%Qc ∧ (0 < Py.ratio 10 100)%Qc.
Proof. done. Qed.

(** The rounded quotient of the groups kept. *)
Lemma weighted_average_between (scores : list (string * Qc * Qc)) (lo hi : Qc) :
  scores ≠ [] →
  Forall (λ t, (lo ≤ t.1.2 ≤ hi)%Qc ∧ (0 < t.2)%Qc) scores →
  (Py.num 0 ?= total ((λ t, t.2) <$> scores))%Qc = Lt
  ∧ (lo ≤ total ((λ t, t.1.2 * t.2)%Qc <$> scores)
          / total ((λ t, t.2) <$> scores) ≤ hi)%Qc.
Proof.
  intros Hne Hall.
  destruct (weighted_between scores lo hi Hall) as (Hlo & Hhi & Hpos & _).
  specialize (Hpos Hne). split; [change (Py.num 0) with 0%Qc; apply Qc_compare_lt; exact Hpos|].
  apply quotient_between; [exact Hpos|exact Hlo|exact Hhi].
Qed.

Lemma zero_between : (Py.num 0 ≤ 0 ≤ Py.num 100)%Qc.
Proof. split; [apply (num_le 0 0)|apply (num_le 0 100)]; lia. Qed.

Ltac each_score :=
  unfold each_present;
  repeat (apply Forall_cons; split; [assumption|]); by apply Forall_nil.

Ltac split_scores H :=
  unfold each_present, all_scores in H;
  repeat match type of H with
         | Forall _ (_ :: _) => apply Forall_cons in H as [? H]
         end;
  clear H.

(** With one positive value in every column that is filled, that value is
    the score. *)
Lemma session_score_uniform (s : columns) (x : Qc) :
  (0 < x)%Qc →
  each_present (λ y, y = x) (all_scores s) →
  present (all_scores s) ≠ [] →
  calculate_overall_score s = Py.round2_num x.
Proof.
  intros Hx Hall Hsome.
  destruct weights_positive as (Hw1 & Hw2 & Hw3 & Hw4).
  assert (present (all_scores s)
          = present [verbal_communication_score s; clarity_score s;
                     confidence_score s; pace_score s]
            ++ present [technical_accuracy_score s; problem_solving_score s;
                        structure_score s; relevance_score s]
            ++ present [star_method_score s; leadership_score s; teamwork_score s]
            ++ present [eye_contact_score s; body_language_score s;
                        engagement_score s]) as Hparts.
  { unfold present, all_scores. by rewrite <- !omap_app. }
  rewrite Hparts in Hsome. split_scores Hall.
  unfold calculate_overall_score.
  set (g1 := [verbal_communication_score s; _; _; _]) in *.
  set (g2 := [technical_accuracy_score s; _; _; _]) in *.
  set (g3 := [star_method_score s; _; _]) in *.
  set (g4 := [eye_contact_score s; _; _]) in *.
  assert (∀ g name weight, each_present (λ y, y = x) g →
            (present g = [] ∧ group name (average g) weight = [])
            ∨ group name (average g) weight = [(name, x, weight)]) as Hgroup.
  { intros g name weight Hg. destruct (average_uniform g x Hg) as [->|[Hnone ->]].
    - right. by apply group_positive.
    - left. by rewrite group_zero. }
  assert (each_present (λ y, y = x) g1) as E1 by (subst g1; each_score).
  assert (each_present (λ y, y = x) g2) as E2 by (subst g2; each_score).
  assert (each_present (λ y, y = x) g3) as E3 by (subst g3; each_score).
  assert (each_present (λ y, y = x) g4) as E4 by (subst g4; each_score).
  set (scores := group _ (average g1) _ ++ group _ (average g2) _
                 ++ group _ (average g3) _ ++ group _ (average g4) _).
  assert (Forall (λ t, (x ≤ t.1.2 ≤ x)%Qc ∧ (0 < t.2)%Qc) scores
          ∧ scores ≠ []) as [Hscores Hne].
  { subst scores.
    destruct (Hgroup g1 "communication" (Py.ratio 30 100) E1) as [[N1 ->]| ->],
             (Hgroup g2 "content" (Py.ratio 40 100) E2) as [[N2 ->]| ->],
             (Hgroup g3 "behavioral" (Py.ratio 20 100) E3) as [[N3 ->]| ->],
             (Hgroup g4 "nonverbal" (Py.ratio 10 100) E4) as [[N4 ->]| ->];
      cbn [app];
      (split; [repeat constructor; cbn [fst snd]; try apply Qcle_refl; assumption|]);
      try done.
    exfalso. apply Hsome. by rewrite N1, N2, N3, N4. }
  clearbody scores. destruct scores as [|t rest]; [done|].
  destruct (weighted_average_between (t :: rest) x x) as [-> [Hlo Hhi]];
    [done|done|].
  f_equal. by apply Qcle_antisym.
Qed.


End SessionColumns.

Section RateLimits.
Import RateLimiter.

(** Cleaning up keeps every stamp of the last five minutes. *)
Lemma cleanup_keeps_recent now self key window_seconds t :
  (window_seconds ≤ 300)%Z → (now ≤ t)%Z →
  in_window window_seconds t (stamps_of (cleanup_old_requests now self) key)
  = in_window window_seconds t (stamps_of self key).
Proof.
  intros Hwindow Hnow. unfold cleanup_old_requests.
  destruct (_ <? _)%Z; [done|].
  unfold stamps_of, in_window. cbn [requests]. rewrite lookup_omap.
  destruct (requests self !! key) as [stamps|]; [|done]. cbn [mbind option_bind].
  assert (filter (λ ts, (t - seconds window_seconds < ts)%Z)
            (filter (λ ts, (now - seconds (5 * 60) < ts)%Z) stamps)
          = filter (λ ts, (t - seconds window_seconds < ts)%Z) stamps) as Hsame.
  { apply (filter_filter_swap (λ ts, (t - seconds window_seconds < ts)%Z)
                              (λ ts, (now - seconds (5 * 60) < ts)%Z)).
    unfold seconds. intros ts. lia. }
  destruct (filter (λ ts, (now - seconds (5 * 60) < ts)%Z) stamps) as [|ts kept] eqn:Hk;
    cbn [default]; exact Hsame.
Qed.

Lemma stamps_insert table cleaned key stamps :
  stamps_of {| requests := <[key := stamps]> table; last_cleanup := cleaned |} key
  = stamps.
Proof. unfold stamps_of. cbn [requests]. by rewrite lookup_insert_eq. Qed.

Lemma stamps_insert_ne table cleaned key other stamps :
  other ≠ key →
  stamps_of {| requests := <[key := stamps]> table; last_cleanup := cleaned |} other
  = default [] (table !! other).
Proof.
  intros Hother. unfold stamps_of. cbn [requests]. by rewrite lookup_insert_ne.
Qed.

(** X17. One call of the limiter.  The request is refused exactly when
    the key already holds [max_requests] or more stamps inside the window;
    an admitted request is stamped and leaves at most [max_requests] stamps
    for the key, a refused one is not stamped, and no other key is touched
    beyond the periodic cleanup.  With a window of at most five minutes and a
    clock that does not run backwards, the cleanup never changes the answer:
    it is decided by the stamps the key held before the call. *)
Theorem rate_limit_verdict (key : string) (max_requests window_seconds : Z)
    (now_cleanup now : Z) (self : InMemoryRateLimiter) :
  let cleaned := cleanup_old_requests now_cleanup self in
  let recent := in_window window_seconds now (stamps_of cleaned key) in
  let result := is_rate_limited key max_requests window_seconds now_cleanup now self in
  result.1 = bool_decide (max_requests ≤ Z.of_nat (length recent))%Z
  ∧ stamps_of result.2 key = (if result.1 then recent else recent ++ [now])
  ∧ (result.1 = false → (Z.of_nat (length (stamps_of result.2 key)) ≤ max_requests)%Z)
  ∧ (∀ other, other ≠ key → stamps_of result.2 other = stamps_of cleaned other)
  ∧ ((max_requests ≤ 0)%Z → result.1 = true)
  ∧ ((window_seconds ≤ 300)%Z → (now_cleanup ≤ now)%Z →
     recent = in_window window_seconds now (stamps_of self key)).
Proof.
  intros cleaned recent result. subst result. unfold is_rate_limited.
  fold cleaned. fold (stamps_of cleaned key).
  fold (in_window window_seconds now (stamps_of cleaned key)). fold recent.
  destruct (Z.leb_spec max_requests (Z.of_nat (length recent))) as [Hfull|Hroom];
    cbn [fst snd]; rewrite stamps_insert.
  - split_and!; [by rewrite bool_decide_eq_true_2|done|done| |done|].
    + intros other Hother. by apply stamps_insert_ne.
    + intros Hw Ht. by apply cleanup_keeps_recent.
  - split_and!; [by rewrite bool_decide_eq_false_2 by lia|done| | | |].
    + intros _. rewrite length_app. cbn [length]. lia.
    + intros other Hother. by apply stamps_insert_ne.
    + lia.
    + intros Hw Ht. by apply cleanup_keeps_recent.
Qed.

Ltac listed := by repeat first [apply list_elem_of_here | apply list_elem_of_further].

Lemma startswith_shorter (s a b : string) :
  PyStr.startswith s (a +:+ b) = true → PyStr.startswith s a = true.
Proof.
  unfold PyStr.startswith. revert s.
  induction a as [|c a IH]; intros s; [done|].
  rewrite app_cons. cbn [PyStr.strip_prefix].
  destruct s as [|d s]; [done|]. destruct (Ascii.eqb c d); [apply IH|done].
Qed.

Lemma startswith_own_prefix (a rest : string) : PyStr.startswith (a +:+ rest) a = true.
Proof.
  unfold PyStr.startswith. induction a as [|c a IH]; [done|].
  rewrite app_cons. cbn [PyStr.strip_prefix]. by rewrite Ascii.eqb_refl.
Qed.

(** X18. The limit of 30 requests per minute configured for sending a
    message is never handed out: every path that starts with that entry's
    prefix also starts with "/ai-interview/sessions", which is looked at
    first, so it gets 10 per minute.  The limits a path can get are those
    of the four other entries and the default. *)
Theorem message_limit_is_shadowed (requests_per_minute : Z) (path : string) :
  (PyStr.startswith path "/ai-interview/sessions" = true →
   get_rate_limit_for_path requests_per_minute path = (10, 60)%Z)
  ∧ (PyStr.startswith path "/ai-interview/sessions/" = true →
     get_rate_limit_for_path requests_per_minute path = (10, 60)%Z)
  ∧ get_rate_limit_for_path requests_per_minute path
    ∈ [(10, 60)%Z; (20, 60)%Z; (5, 60)%Z; (3, 60)%Z; (requests_per_minute, 60%Z)]
  ∧ (requests_per_minute ≠ 30%Z →
     get_rate_limit_for_path requests_per_minute path ≠ (30, 60)%Z).
Proof.
  assert (PyStr.startswith path "/ai-interview/sessions" = true →
          get_rate_limit_for_path requests_per_minute path = (10, 60)%Z) as Hfirst.
  { intros Hp. unfold get_rate_limit_for_path, endpoint_limits.
    cbn [first_limit].
    change (before "{" "/ai-interview/sessions") with "/ai-interview/sessions".
    by rewrite Hp. }
  assert (PyStr.startswith path "/ai-interview/sessions/" = true →
          PyStr.startswith path "/ai-interview/sessions" = true) as Hshadow.
  { apply (startswith_shorter path "/ai-interview/sessions" "/"). }
  assert (get_rate_limit_for_path requests_per_minute path
    ∈ [(10, 60)%Z; (20, 60)%Z; (5, 60)%Z; (3, 60)%Z; (requests_per_minute, 60%Z)])
    as Hin.
  { destruct (PyStr.startswith path "/ai-interview/sessions") eqn:Hp.
    - rewrite Hfirst by done. listed.
    - unfold get_rate_limit_for_path, endpoint_limits. cbn [first_limit].
      change (before "{" "/ai-interview/sessions") with "/ai-interview/sessions".
      change (before "{" "/ai-interview/sessions/{id}/message")
        with "/ai-interview/sessions/".
      change (before "{" "/ai/chat") with "/ai/chat".
      change (before "{" "/auth/login") with "/auth/login".
      change (before "{" "/auth/register") with "/auth/register".
      rewrite Hp.
      destruct (PyStr.startswith path "/ai-interview/sessions/") eqn:Hq;
        [first [specialize (Hshadow eq_refl)|specialize (Hshadow Hq)]; congruence|].
      destruct (PyStr.startswith path "/ai/chat"); [listed|].
      destruct (PyStr.startswith path "/auth/login"); [listed|].
      destruct (PyStr.startswith path "/auth/register"); listed. }
  split; [exact Hfirst|]. split; [intros Hq; apply Hfirst, Hshadow, Hq|].
  split; [exact Hin|].
  intros Hrpm Heq. rewrite Heq in Hin.
  repeat (apply elem_of_cons in Hin as [Hin|Hin]; [by simplify_eq|]).
  by apply elem_of_nil in Hin.
Qed.

(** X19. A client that sends a bearer token is identified by characters
    7 to 29 of the header alone: two tokens that agree on their first 23
    characters share one identifier, whatever follows and whatever address
    the request comes from, and so share one rate-limit bucket. *)
Theorem client_identifier_from_token_prefix (common rest : string)
    (forwarded client_host : option string) :
  String.length common = 23 →
  get_client_identifier (Some ("Bearer " +:+ common +:+ rest)) forwarded client_host
  = "user:" +:+ common.
Proof.
  intros Hlen. unfold get_client_identifier. cbn [default from_option]. unfold id.
  rewrite startswith_own_prefix. f_equal.
  pose proof (slice_middle "Bearer " common rest) as Hslice.
  rewrite Hlen in Hslice. exact Hslice.
Qed.

End RateLimits.

Section PersistedScores.
Import SessionScores Persisted.

Ltac listed := by repeat first [apply list_elem_of_here | apply list_elem_of_further].

Lemma all_equal_entry d keys x key :
  all_equal d keys x → key ∈ keys →
  Py.get d key (score 0) = VNum x ∧ column d key = Some x.
Proof.
  unfold all_equal. rewrite Forall_forall. intros Hall Hin.
  unfold column, Py.get. by rewrite (Hall key Hin).
Qed.

Lemma four_fifths (x : Qc) :
  (Py.ratio 30 100 * ((x + (x + (x + Py.num 0))) / Py.num 3)
   + Py.ratio 50 100 * ((x + (x + (x + (x + Py.num 0)))) / Py.num 4)
   + Py.num 0)%Qc
  = (Py.ratio 80 100 * x)%Qc.
Proof.
  apply Qc_is_canon.
  repeat (progress (unfold Qcplus, Qcmult, Qcdiv, Qcinv, Py.num, Py.ratio, Q2Qc;
                    cbn [this])).
  rewrite !Qred_correct. unfold inject_Z. cbn [Qinv Qnum Qden]. lra.
Qed.


End PersistedScores.

Section Instances.



Lemma sample_percent (d : gmap string pyval) (key : string) (z : Z) :
  Py.get d key (score 0) = score z → (0 ≤ z ≤ 100)%Z → percent_at d key.
Proof.
  intros Hget Hz. exists (Py.num z). rewrite Hget. split; [done|].
  split; apply num_le; lia.
Qed.


Lemma continue_interview_restarts_witness :
  replies_are_ai sample_interviewer
  ∧ let r := Interviews.continue_interview sample_interviewer noon 7
               "I led the migration." stored_state in
    let a := analysis_of noon "I led the migration." in
    Interviews.success r = true
    ∧ Interviews.reply_status r = "completed"
    ∧ Interviews.question_count r = Some 5%Z
    ∧ Interviews.analysis r
      = Some (<[ "question_4" := a ]> (<[ "question_3" := a ]> (<[ "question_2" := a ]>
                (<[ "question_1" := a ]> (<[ "question_0" := a ]> ∅)))))
    ∧ ∃ final added m,
        Interviews.workflow_ainvoke sample_interviewer noon
          (Workflow.append_message stored_state
             (Workflow.HumanMessage "I led the migration.")) = Some final
        ∧ Workflow.messages final
          = Workflow.messages stored_state
            ++ Workflow.HumanMessage "I led the migration." :: added
        ∧ 5 ≤ length added ≤ 6
        ∧ Forall (λ m, Interviews.is_ai m = true) added
        ∧ last added = Some m
        ∧ Interviews.response r = Workflow.message_content m.
Proof.
  assert (replies_are_ai sample_interviewer) as Hai.
  { intros history r Hr. injection Hr as <-. reflexivity. }
  split; [exact Hai|].
  exact (continue_interview_restarts sample_interviewer noon 7
           "I led the migration." stored_state Hai).
Defined.

Lemma reindexing_replaces_witness :
  Rag.users new_user_db !! 7%Z = Some new_user
  ∧ let store' :=
      (Rag.index_user_context whole_text plain_number noon new_user_db 7
         new_user_store).2 in
    Rag.index_user_context whole_text plain_number noon new_user_db 7 new_user_store
    = (true,
       filter (λ doc, ¬ Rag.owned_by 7 doc) new_user_store
       ++ Rag.user_documents whole_text plain_number noon new_user_db 7 new_user)
    ∧ filter (Rag.owned_by 7) store'
      = Rag.user_documents whole_text plain_number noon new_user_db 7 new_user
    ∧ Rag.index_user_context whole_text plain_number noon new_user_db 7 store'
      = (true, store')
    ∧ (∀ other query k, other ≠ 7%Z →
         Rag.retrieve_user_context store' other query k
         = Rag.retrieve_user_context new_user_store other query k).
Proof.
  assert (Rag.users new_user_db !! 7%Z = Some new_user) as Huser by reflexivity.
  split; [exact Huser|].
  exact (reindexing_replaces whole_text plain_number noon new_user_db 7 new_user
           new_user_store Huser).
Defined.

Lemma client_identifier_from_token_prefix_witness :
  String.length "eyJhbGciOiJIUzI1NiIsInR" = 23
  ∧ RateLimiter.get_client_identifier
      (Some ("Bearer " +:+ "eyJhbGciOiJIUzI1NiIsInR" +:+ "5cCI6IkpXVCJ9.e30.c2ln"))
      None (Some "10.0.0.1")
    = "user:" +:+ "eyJhbGciOiJIUzI1NiIsInR".
Proof.
  assert (String.length "eyJhbGciOiJIUzI1NiIsInR" = 23) as Hlen by reflexivity.
  split; [exact Hlen|].
  exact (client_identifier_from_token_prefix "eyJhbGciOiJIUzI1NiIsInR"
           "5cCI6IkpXVCJ9.e30.c2ln" None (Some "10.0.0.1") Hlen).
Defined.

Lemma fallback_overall :
  calculate_overall_score (communication_scores fallback_assessment)
    (content_scores fallback_assessment) (behavioral_scores fallback_assessment)
  = Ok (Assessment.overall_score fallback_assessment).
Proof.
  vm_compute; first [reflexivity | do 2 f_equal; apply Qc_is_canon; reflexivity].
Qed.


End Instances.
